(** * pyjsonq: the query builder of [src/pysjonq/parser.py]

    A shallow embedding of the [JsonQuery] class: the instance attributes
    are a record, every method is a function on that record, Python
    exceptions are an explicit result type.  The collaborators that the
    module imports ([helper], [query]) and the interpreter's built-ins
    ([str], [<], float accumulation, the comparison phase of [list.sort])
    are class parameters; all general theorems hold for every
    implementation of them, the statements on sorting for every one that
    keeps the contract the language gives for a sort.

    The root and the working view are modelled by value.  Two statements
    of the class change a list in place, [clear()] in [__offset] and
    [list.sort] in [Sort]; when the working view is the very object the
    root refers to, the root changes with it.  That sharing is not
    tracked: the claims below concern the working view and the pending
    state, and their statements say nothing about the root after such a
    call. *)

From Stdlib Require Import ZArith Floats.
From stdpp Require Import gmap strings list sorting pretty.

(** ** Values *)

(** What [json.loads] produces.  Python's [None] is JSON [null]; the same
    object is what the path accessor hands back for a path it cannot
    resolve, and the code can not tell the two apart. *)
#[warnings="-register-all"]
Inductive Value : Type :=
| VNone
| VBool (b : bool)
| VInt (z : Z)
| VFloat (f : float)
| VStr (s : string)
| VList (l : list Value)
| VDict (d : list (string * Value)).

(** A [dict] keeps insertion order: an association list without repeated
    keys.  [dict_set] is [d[k] = v]. *)
Fixpoint dict_get {A : Type} (d : list (string * A)) (k : string) : option A :=
  match d with
  | [] => None
  | (k', v) :: d' => if String.eqb k' k then Some v else dict_get d' k
  end.

Fixpoint dict_set {A : Type} (d : list (string * A)) (k : string) (v : A)
  : list (string * A) :=
  match d with
  | [] => [(k, v)]
  | (k', v') :: d' =>
      if String.eqb k' k then (k, v) :: d' else (k', v') :: dict_set d' k v
  end.

(** [isinstance(v, float) or isinstance(v, int)]: in Python [bool] is a
    subclass of [int], so [True] and [False] pass the test. *)
Definition is_float_or_int (v : Value) : bool :=
  match v with
  | VFloat _ | VInt _ | VBool _ => true
  | _ => false
  end.

(** The tag "number" of the specification's data model. *)
Definition is_number (v : Value) : bool :=
  match v with
  | VFloat _ | VInt _ => true
  | _ => false
  end.

Definition is_none (v : Value) : bool :=
  match v with VNone => true | _ => false end.

(** ** Exceptions *)

Inductive PyExn : Type :=
| IndexError | KeyError | TypeError | ValueError
| ZeroDivisionError | OverflowError.

Inductive Res (A : Type) : Type :=
| Ok (a : A)
| Raise (e : PyExn).
Arguments Ok {A} a.
Arguments Raise {A} e.

#[global] Instance Res_ret : MRet Res := fun A a => Ok a.
#[global] Instance Res_bind : MBind Res := fun A B f m =>
  match m with
  | Ok a => f a
  | Raise e => Raise e
  end.

(** [float(z)] for an [int]: the nearest double, ties to even;
    [OverflowError] when that is not finite. *)
Definition float_of_int (z : Z) : Res float :=
  let f := SF2Prim (SpecFloat.binary_normalize 53 1024 z 0 false) in
  if PrimFloat.is_infinity f then Raise OverflowError else Ok f.

(** [float(v)] for a value that passed [is_float_or_int]. *)
Definition py_float (v : Value) : Res float :=
  match v with
  | VFloat f => Ok f
  | VInt z => float_of_int z
  | VBool b => Ok (if b then 1%float else 0%float)
  | _ => Raise TypeError
  end.

(** ** Clauses and the collaborators *)

Record Query : Type := {
  key : string;
  operator : string;
  value : Value
}.

(** A registered predicate: [(fieldValue, operand) -> bool].  A predicate
    that raises is outside the embedding. *)
Definition QueryFunc : Type := Value -> Value -> bool.

(** The modules [helper] and [query], imported by the parser. *)
Class Helper : Type := {
  getNestedValue : Value -> string -> string -> Value;
  deleteNestedValue : Value -> string -> string -> Value;
  makeAlias : string -> string -> string * string;
  defaultQueries : gmap string QueryFunc
}.

(** The interpreter: [str(v)], [a < b] (which may raise [TypeError]), the
    accumulation of a non-empty list of floats done by [sum], and the
    comparison phase of [list.sort] and [sorted] over a list of
    (key, item) pairs.  The algorithm of that phase is the interpreter's
    own; what the language promises of it is [list_sort_contract]
    below. *)
Class Builtins : Type := {
  py_str : Value -> string;
  py_lt : Value -> Value -> Res bool;
  float_sum : list float -> float;
  list_sort : list (Value * Value) -> Res (list (Value * Value))
}.

(** ** The instance *)

(** The attributes of a [JsonQuery].  Inside the class body [self.__x] is
    the mangled attribute [_JsonQuery__x]; [More] assigns to three names
    without the double underscore, which are attributes of their own. *)
Record JsonQuery : Type := {
  __separator : string;
  __root_json_content : Value;
  __json_content : Value;
  __query_map : gmap string QueryFunc;
  __query_index : Z;
  __offset_records : Z;
  __limit_records : Z;
  __queries : list (list Query);
  __dropped_properties : list string;
  __attributes : list string;
  __distinct_property : string;
  queryIndex : option Z;
  limitRecords : option Z;
  distinctProperty : option string
}.

(** Assignment to one attribute; the others are carried over. *)
Definition set_root_json_content (x : Value) (self : JsonQuery) : JsonQuery :=
  {| __separator := __separator self; __root_json_content := x;
     __json_content := __json_content self; __query_map := __query_map self;
     __query_index := __query_index self;
     __offset_records := __offset_records self;
     __limit_records := __limit_records self; __queries := __queries self;
     __dropped_properties := __dropped_properties self;
     __attributes := __attributes self;
     __distinct_property := __distinct_property self;
     queryIndex := queryIndex self; limitRecords := limitRecords self;
     distinctProperty := distinctProperty self |}.

Definition set_json_content (x : Value) (self : JsonQuery) : JsonQuery :=
  {| __separator := __separator self;
     __root_json_content := __root_json_content self; __json_content := x;
     __query_map := __query_map self; __query_index := __query_index self;
     __offset_records := __offset_records self;
     __limit_records := __limit_records self; __queries := __queries self;
     __dropped_properties := __dropped_properties self;
     __attributes := __attributes self;
     __distinct_property := __distinct_property self;
     queryIndex := queryIndex self; limitRecords := limitRecords self;
     distinctProperty := distinctProperty self |}.

Definition set_query_map (x : gmap string QueryFunc) (self : JsonQuery) : JsonQuery :=
  {| __separator := __separator self;
     __root_json_content := __root_json_content self;
     __json_content := __json_content self; __query_map := x;
     __query_index := __query_index self;
     __offset_records := __offset_records self;
     __limit_records := __limit_records self; __queries := __queries self;
     __dropped_properties := __dropped_properties self;
     __attributes := __attributes self;
     __distinct_property := __distinct_property self;
     queryIndex := queryIndex self; limitRecords := limitRecords self;
     distinctProperty := distinctProperty self |}.

Definition set_query_index (x : Z) (self : JsonQuery) : JsonQuery :=
  {| __separator := __separator self;
     __root_json_content := __root_json_content self;
     __json_content := __json_content self; __query_map := __query_map self;
     __query_index := x; __offset_records := __offset_records self;
     __limit_records := __limit_records self; __queries := __queries self;
     __dropped_properties := __dropped_properties self;
     __attributes := __attributes self;
     __distinct_property := __distinct_property self;
     queryIndex := queryIndex self; limitRecords := limitRecords self;
     distinctProperty := distinctProperty self |}.

Definition set_offset_records (x : Z) (self : JsonQuery) : JsonQuery :=
  {| __separator := __separator self;
     __root_json_content := __root_json_content self;
     __json_content := __json_content self; __query_map := __query_map self;
     __query_index := __query_index self; __offset_records := x;
     __limit_records := __limit_records self; __queries := __queries self;
     __dropped_properties := __dropped_properties self;
     __attributes := __attributes self;
     __distinct_property := __distinct_property self;
     queryIndex := queryIndex self; limitRecords := limitRecords self;
     distinctProperty := distinctProperty self |}.

Definition set_limit_records (x : Z) (self : JsonQuery) : JsonQuery :=
  {| __separator := __separator self;
     __root_json_content := __root_json_content self;
     __json_content := __json_content self; __query_map := __query_map self;
     __query_index := __query_index self;
     __offset_records := __offset_records self; __limit_records := x;
     __queries := __queries self;
     __dropped_properties := __dropped_properties self;
     __attributes := __attributes self;
     __distinct_property := __distinct_property self;
     queryIndex := queryIndex self; limitRecords := limitRecords self;
     distinctProperty := distinctProperty self |}.

Definition set_queries (x : list (list Query)) (self : JsonQuery) : JsonQuery :=
  {| __separator := __separator self;
     __root_json_content := __root_json_content self;
     __json_content := __json_content self; __query_map := __query_map self;
     __query_index := __query_index self;
     __offset_records := __offset_records self;
     __limit_records := __limit_records self; __queries := x;
     __dropped_properties := __dropped_properties self;
     __attributes := __attributes self;
     __distinct_property := __distinct_property self;
     queryIndex := queryIndex self; limitRecords := limitRecords self;
     distinctProperty := distinctProperty self |}.

Definition set_dropped_properties (x : list string) (self : JsonQuery) : JsonQuery :=
  {| __separator := __separator self;
     __root_json_content := __root_json_content self;
     __json_content := __json_content self; __query_map := __query_map self;
     __query_index := __query_index self;
     __offset_records := __offset_records self;
     __limit_records := __limit_records self; __queries := __queries self;
     __dropped_properties := x; __attributes := __attributes self;
     __distinct_property := __distinct_property self;
     queryIndex := queryIndex self; limitRecords := limitRecords self;
     distinctProperty := distinctProperty self |}.

Definition set_attributes (x : list string) (self : JsonQuery) : JsonQuery :=
  {| __separator := __separator self;
     __root_json_content := __root_json_content self;
     __json_content := __json_content self; __query_map := __query_map self;
     __query_index := __query_index self;
     __offset_records := __offset_records self;
     __limit_records := __limit_records self; __queries := __queries self;
     __dropped_properties := __dropped_properties self; __attributes := x;
     __distinct_property := __distinct_property self;
     queryIndex := queryIndex self; limitRecords := limitRecords self;
     distinctProperty := distinctProperty self |}.

Definition set_distinct_property (x : string) (self : JsonQuery) : JsonQuery :=
  {| __separator := __separator self;
     __root_json_content := __root_json_content self;
     __json_content := __json_content self; __query_map := __query_map self;
     __query_index := __query_index self;
     __offset_records := __offset_records self;
     __limit_records := __limit_records self; __queries := __queries self;
     __dropped_properties := __dropped_properties self;
     __attributes := __attributes self; __distinct_property := x;
     queryIndex := queryIndex self; limitRecords := limitRecords self;
     distinctProperty := distinctProperty self |}.

Definition set_queryIndex (x : option Z) (self : JsonQuery) : JsonQuery :=
  {| __separator := __separator self;
     __root_json_content := __root_json_content self;
     __json_content := __json_content self; __query_map := __query_map self;
     __query_index := __query_index self;
     __offset_records := __offset_records self;
     __limit_records := __limit_records self; __queries := __queries self;
     __dropped_properties := __dropped_properties self;
     __attributes := __attributes self;
     __distinct_property := __distinct_property self; queryIndex := x;
     limitRecords := limitRecords self;
     distinctProperty := distinctProperty self |}.

Definition set_limitRecords (x : option Z) (self : JsonQuery) : JsonQuery :=
  {| __separator := __separator self;
     __root_json_content := __root_json_content self;
     __json_content := __json_content self; __query_map := __query_map self;
     __query_index := __query_index self;
     __offset_records := __offset_records self;
     __limit_records := __limit_records self; __queries := __queries self;
     __dropped_properties := __dropped_properties self;
     __attributes := __attributes self;
     __distinct_property := __distinct_property self;
     queryIndex := queryIndex self; limitRecords := x;
     distinctProperty := distinctProperty self |}.

Definition set_distinctProperty (x : option string) (self : JsonQuery) : JsonQuery :=
  {| __separator := __separator self;
     __root_json_content := __root_json_content self;
     __json_content := __json_content self; __query_map := __query_map self;
     __query_index := __query_index self;
     __offset_records := __offset_records self;
     __limit_records := __limit_records self; __queries := __queries self;
     __dropped_properties := __dropped_properties self;
     __attributes := __attributes self;
     __distinct_property := __distinct_property self;
     queryIndex := queryIndex self; limitRecords := limitRecords self;
     distinctProperty := x |}.

(** [__init__], after [json.loads] has produced [doc]. *)
Definition __init__ `{Helper} (doc : Value) (separator : string)
  : JsonQuery :=
  {| __separator := separator; __root_json_content := doc;
     __json_content := doc; __query_map := defaultQueries;
     __query_index := 0; __offset_records := 0; __limit_records := 0;
     __queries := []; __dropped_properties := []; __attributes := [];
     __distinct_property := ""; queryIndex := None; limitRecords := None;
     distinctProperty := None |}.

(** ** Built-in operations on lists *)

(** The position that index [i] denotes in a list of length [n]. *)
Definition py_index (n : nat) (i : Z) : Res nat :=
  let j := if (i <? 0)%Z then (Z.of_nat n + i)%Z else i in
  if ((0 <=? j)%Z && (j <? Z.of_nat n)%Z) then Ok (Z.to_nat j)
  else Raise IndexError.

(** [l[i]], with the negative-index convention. *)
Definition py_getitem {A : Type} (l : list A) (i : Z) : Res A :=
  j ← py_index (length l) i;
  match l !! j with
  | Some a => Ok a
  | None => Raise IndexError
  end.

(** [operator.itemgetter(attr)] applied to one element. *)
Definition itemgetter (attr : string) (v : Value) : Res Value :=
  match v with
  | VDict d =>
      match dict_get d attr with
      | Some x => Ok x
      | None => Raise KeyError
      end
  | _ => Raise TypeError
  end.

(** [min] and [max] of a list of floats. *)
Definition py_min (floats : list float) : Res float :=
  match floats with
  | [] => Raise ValueError
  | f :: fs => Ok (fold_left (fun m x => if PrimFloat.ltb x m then x else m) fs f)
  end.

Definition py_max (floats : list float) : Res float :=
  match floats with
  | [] => Raise ValueError
  | f :: fs => Ok (fold_left (fun m x => if PrimFloat.ltb m x then x else m) fs f)
  end.

Section Methods.
Context `{Helper} `{Builtins}.

(** [sum(floats)]: the start value is the [int] [0]. *)
Definition py_sum (floats : list float) : Value :=
  match floats with
  | [] => VInt 0
  | _ :: _ => VFloat (float_sum floats)
  end.

(** [list.sort] and [sorted]: the key of every item is computed first,
    once and in the order of the list; then the keys are compared.  With
    [reverse] the list is reversed before and after the comparison
    phase, which is how equal keys keep their original order in a
    descending sort. *)
Fixpoint sort_keys (keyf : Value -> Res Value) (l : list Value)
  : Res (list (Value * Value)) :=
  match l with
  | [] => Ok []
  | x :: rest => k ← keyf x; r ← sort_keys keyf rest; Ok ((k, x) :: r)
  end.

Definition py_sorted (keyf : option (Value -> Res Value)) (reverse : bool)
  (l : list Value) : Res (list Value) :=
  let keyf := match keyf with Some f => f | None => Ok end in
  kl ← sort_keys keyf l;
  s ← list_sort (if reverse then rev kl else kl);
  Ok (map snd (if reverse then rev s else s)).

(** ** The filter engine *)

(** [for q in q_list] of [__findInDict].  The first component is [None]
    when the loop left through [return result] at an operator that is
    not in the registry.  [calls] records the clauses whose predicate has
    been invoked, the one effect clause evaluation has. *)
Fixpoint findInDict_clauses (self : JsonQuery) (value_map : list (string * Value))
  (q_list : list Query) (and_passed : bool) (calls : list Query)
  : option bool * list Query :=
  match q_list with
  | [] => (Some and_passed, calls)
  | q :: rest =>
      match __query_map self !! operator q with
      | None => (None, calls)
      | Some cf =>
          let v := getNestedValue (VDict value_map) (key q) (__separator self) in
          if is_none v
          then findInDict_clauses self value_map rest false calls
          else
            let qb := cf v (value q) in
            findInDict_clauses self value_map rest (and_passed && qb)
              (calls ++ [q])
      end
  end.

(** [for q_list in self.__queries] of [__findInDict]. *)
Fixpoint findInDict_groups (self : JsonQuery) (value_map : list (string * Value))
  (queries : list (list Query)) (or_passed : bool) (calls : list Query)
  : option bool * list Query :=
  match queries with
  | [] => (Some or_passed, calls)
  | q_list :: rest =>
      match findInDict_clauses self value_map q_list true calls with
      | (None, calls') => (None, calls')
      | (Some and_passed, calls') =>
          findInDict_groups self value_map rest (or_passed || and_passed) calls'
      end
  end.

(** [__findInDict] with the log of predicate invocations. *)
Definition findInDict_run (self : JsonQuery) (value_map : list (string * Value))
  : list (list (string * Value)) * list Query :=
  match findInDict_groups self value_map (__queries self) false [] with
  | (None, calls) => ([], calls)
  | (Some or_passed, calls) =>
      (if or_passed then [value_map] else [], calls)
  end.

Definition __findInDict (self : JsonQuery) (value_map : list (string * Value))
  : list (list (string * Value)) :=
  fst (findInDict_run self value_map).

Definition __findInList (self : JsonQuery) (value_list : list Value)
  : list Value :=
  fold_left
    (fun result v =>
       match v with
       | VDict m => result ++ map VDict (__findInDict self m)
       | _ => result
       end)
    value_list [].

Definition __processQuery (self : JsonQuery) : JsonQuery :=
  match __json_content self with
  | VList json_content =>
      set_json_content (VList (__findInList self json_content)) self
  | _ => self
  end.

(** ** Distinct and projection *)

Definition distinct_step (self : JsonQuery) (st : gset string * list Value)
  (a : Value) : gset string * list Value :=
  match a with
  | VDict _ =>
      let v := getNestedValue a (__distinct_property self) (__separator self) in
      if negb (is_none v) && bool_decide (py_str v ∉ st.1)
      then ({[ py_str v ]} ∪ st.1, st.2 ++ [a])
      else st
  | _ => st
  end.

Definition __distinct (self : JsonQuery) : JsonQuery :=
  let dt :=
    match __json_content self with
    | VList json_content =>
        (fold_left (distinct_step self) json_content (∅, [])).2
    | _ => []
    end in
  set_json_content (VList dt) self.

Definition only_attr (self : JsonQuery) (am : Value)
  (tmap : list (string * Value)) (attr : string) : list (string * Value) :=
  let na := makeAlias attr (__separator self) in
  let v := getNestedValue am na.1 (__separator self) in
  if is_none v then tmap else dict_set tmap na.2 v.

Definition only_step (self : JsonQuery) (result : list Value) (am : Value)
  : list Value :=
  let tmap := fold_left (only_attr self am) (__attributes self) [] in
  if (0 <? length tmap)%nat then result ++ [VDict tmap] else result.

Definition __only (self : JsonQuery) : JsonQuery :=
  let result :=
    match __json_content self with
    | VList json_content => fold_left (only_step self) json_content []
    | _ => []
    end in
  set_json_content (VList result) self.

Definition __prepare (self : JsonQuery) : JsonQuery :=
  let self :=
    if (0 <? length (__queries self))%nat then __processQuery self else self in
  let self :=
    if negb (String.eqb (__distinct_property self) "")
    then __distinct self else self in
  let self :=
    if (0 <? length (__attributes self))%nat then __only self else self in
  set_query_index 0 self.

(** ** Shaping *)

Definition __limit (self : JsonQuery) : JsonQuery :=
  match __json_content self with
  | VList json_content =>
      if (__limit_records self <=? 0)%Z then self
      else if (Z.of_nat (length json_content) >? __limit_records self)%Z
      then set_json_content
             (VList (take (Z.to_nat (__limit_records self)) json_content)) self
      else self
  | _ => self
  end.

Definition __offset (self : JsonQuery) : JsonQuery :=
  match __json_content self with
  | VList json_content =>
      if (__offset_records self <? 0)%Z then self
      else if (Z.of_nat (length json_content) >=? __limit_records self)%Z
      then set_json_content
             (VList (drop (Z.to_nat (__offset_records self)) json_content)) self
      else set_json_content (VList []) self
  | _ => self
  end.

Definition __drop (self : JsonQuery) : JsonQuery :=
  set_json_content
    (fold_left (fun jc node => deleteNestedValue jc node (__separator self))
       (__dropped_properties self) (__json_content self))
    self.

End Methods.

#[global] Arguments __findInList : simpl never.
#[global] Arguments __processQuery : simpl never.
#[global] Arguments __distinct : simpl never.
#[global] Arguments __only : simpl never.
#[global] Arguments __prepare : simpl never.
#[global] Arguments __limit : simpl never.
#[global] Arguments __offset : simpl never.
#[global] Arguments __drop : simpl never.

(** ** The public methods

    A builder method returns the instance; a method that may raise returns
    [Res]: the state an uncaught exception leaves behind is not modelled. *)

Section Api.
Context `{Helper} `{Builtins}.

Definition From (node : string) (self : JsonQuery) : Res JsonQuery :=
  let v := getNestedValue (__json_content self) node (__separator self) in
  if is_none v then Raise ValueError else Ok (set_json_content v self).

Definition Select (properties : list string) (self : JsonQuery) : JsonQuery :=
  set_attributes (__attributes self ++ properties) self.

Definition Get (self : JsonQuery) : Value * JsonQuery :=
  let self := __prepare self in
  let self :=
    if negb (__offset_records self =? 0)%Z then __offset self else self in
  let self :=
    if negb (__limit_records self =? 0)%Z then __limit self else self in
  let self :=
    if negb (length (__dropped_properties self) =? 0)%nat
    then __drop self else self in
  (__json_content self, self).

Definition Where (k : string) (cond : string) (val : Value) (self : JsonQuery)
  : Res JsonQuery :=
  let query := {| key := k; operator := cond; value := val |} in
  if (__query_index self =? 0)%Z && (length (__queries self) =? 0)%nat
  then Ok (set_queries (__queries self ++ [[query]]) self)
  else
    i ← py_index (length (__queries self)) (__query_index self);
    match __queries self !! i with
    | Some q_list =>
        Ok (set_queries (<[ i := q_list ++ [query] ]> (__queries self)) self)
    | None => Raise IndexError
    end.

Definition OrWhere (k : string) (cond : string) (val : Value)
  (self : JsonQuery) : JsonQuery :=
  let self := set_query_index (__query_index self + 1) self in
  let qquery := [ {| key := k; operator := cond; value := val |} ] in
  set_queries (__queries self ++ [qquery]) self.

Definition Find (path : string) (self : JsonQuery) : Res (Value * JsonQuery) :=
  self ← From path self; Ok (Get self).

Definition Offset (offset : Z) (self : JsonQuery) : JsonQuery :=
  set_offset_records offset self.

Definition Limit (limit : Z) (self : JsonQuery) : JsonQuery :=
  set_limit_records limit self.

Definition Distinct (attr : string) (self : JsonQuery) : JsonQuery :=
  set_distinct_property attr self.

Definition Drop (properties : list string) (self : JsonQuery) : JsonQuery :=
  set_dropped_properties (__dropped_properties self ++ properties) self.

Definition Macro (op : string) (func : QueryFunc) (self : JsonQuery)
  : JsonQuery :=
  set_query_map (<[ op := func ]> (__query_map self)) self.

Definition Only (properties : list string) (self : JsonQuery) : JsonQuery :=
  __prepare (set_attributes (__attributes self ++ properties) self).

Definition Count (self : JsonQuery) : Value * JsonQuery :=
  let self := __prepare self in
  match __json_content self with
  | VList l => (VInt (Z.of_nat (length l)), self)
  | VDict d => (VInt (Z.of_nat (length d)), self)
  | _ => (VNone, self)
  end.

(** *** Positional access *)

Definition First (self : JsonQuery) : Res (Value * JsonQuery) :=
  let self := __prepare self in
  match __json_content self with
  | VList json_content => v ← py_getitem json_content 0; Ok (v, self)
  | _ => Ok (VNone, self)
  end.

Definition Last (self : JsonQuery) : Res (Value * JsonQuery) :=
  let self := __prepare self in
  match __json_content self with
  | VList json_content => v ← py_getitem json_content (-1); Ok (v, self)
  | _ => Ok (VNone, self)
  end.

Definition Nth (index : Z) (self : JsonQuery) : Res (Value * JsonQuery) :=
  let self := __prepare self in
  match __json_content self with
  | VList json_content => v ← py_getitem json_content index; Ok (v, self)
  | _ => Ok (VNone, self)
  end.

(** *** Grouping and sorting *)

(** [for a in json_list] of [GroupBy]; [None] is the [return self] taken
    at a mapping on which [attr] does not resolve. *)
Fixpoint GroupBy_loop (self : JsonQuery) (attr : string)
  (json_list : list Value) (dt : list (string * list Value))
  : option (list (string * list Value)) :=
  match json_list with
  | [] => Some dt
  | a :: rest =>
      match a with
      | VDict _ =>
          let v := getNestedValue a attr (__separator self) in
          if is_none v then None
          else
            GroupBy_loop self attr rest
              (match dict_get dt (py_str v) with
               | None => dict_set dt (py_str v) [a]
               | Some g => dict_set dt (py_str v) (g ++ [a])
               end)
      | _ => GroupBy_loop self attr rest dt
      end
  end.

Definition dict_of_groups (dt : list (string * list Value)) : Value :=
  VDict (map (fun kg => (kg.1, VList kg.2)) dt).

Definition GroupBy (attr : string) (self : JsonQuery) : JsonQuery :=
  let self := __prepare self in
  match __json_content self with
  | VList json_list =>
      match GroupBy_loop self attr json_list [] with
      | None => self
      | Some dt => set_json_content (dict_of_groups dt) self
      end
  | _ => set_json_content (dict_of_groups []) self
  end.

Definition Sort (keyf : option (Value -> Res Value)) (reverse : bool)
  (self : JsonQuery) : Res JsonQuery :=
  let self := __prepare self in
  match __json_content self with
  | VList json_list =>
      l ← py_sorted keyf reverse json_list;
      Ok (set_json_content (VList l) self)
  | _ => Ok self
  end.

Definition SortBy (attr : string) (reverse : bool) (self : JsonQuery)
  : Res JsonQuery :=
  match __json_content self with
  | VList json_list =>
      l ← py_sorted (Some (itemgetter attr)) reverse json_list;
      Ok (set_json_content (VList l) self)
  | _ => Ok self
  end.

(** *** Plucking and the caller's transform *)

Definition Pluck (attr : string) (self : JsonQuery)
  : list Value * JsonQuery :=
  let self := __prepare self in
  let self :=
    if negb (String.eqb (__distinct_property self) "")
    then __distinct self else self in
  let self :=
    if negb (__limit_records self =? 0)%Z then __limit self else self in
  let result :=
    match __json_content self with
    | VList json_list =>
        fold_left
          (fun result a =>
             match a with
             | VDict d =>
                 match dict_get d attr with
                 | Some x => if is_none x then result else result ++ [x]
                 | None => result
                 end
             | _ => result
             end)
          json_list []
    | _ => []
    end in
  (result, self).

Definition Out {T : Type} (func : Value -> T) (self : JsonQuery) : T :=
  func (__json_content self).

(** *** Lifecycle *)

Definition Reset (self : JsonQuery) : JsonQuery :=
  let self := set_json_content (__root_json_content self) self in
  let self := set_queries [] self in
  let self := set_attributes [] self in
  let self := set_dropped_properties [] self in
  let self := set_query_index 0 self in
  let self := set_limit_records 0 self in
  let self := set_offset_records 0 self in
  set_distinct_property "" self.

(** [deepcopy(self)] is the same value; the copy is reset. *)
Definition Copy (self : JsonQuery) : JsonQuery := Reset self.

Definition More (self : JsonQuery) : JsonQuery :=
  let r := Get self in
  let self := set_root_json_content r.1 r.2 in
  let self := set_queries [] self in
  let self := set_attributes [] self in
  let self := set_dropped_properties [] self in
  let self := set_queryIndex (Some 0%Z) self in
  let self := set_limitRecords (Some 0%Z) self in
  set_distinctProperty (Some "") self.

(** *** Aggregation *)

(** [for a in json_list] of [__getFloatValFromArray]; an element is never
    both a number and a mapping, so the two [if]s of the body are one
    case distinction. *)
Fixpoint getFloatValFromArray_loop (json_list : list Value)
  (properties : list string) (floats : list float) : Res (list float) :=
  match json_list with
  | [] => Ok floats
  | a :: rest =>
      if is_float_or_int a then
        if (0 <? length properties)%nat then Ok []
        else
          f ← py_float a;
          getFloatValFromArray_loop rest properties (floats ++ [f])
      else
        match a with
        | VDict js_dict =>
            match properties with
            | [] => Ok []
            | p :: _ =>
                match dict_get js_dict p with
                | Some dv =>
                    if negb (is_none dv) && is_float_or_int dv then
                      f ← py_float dv;
                      getFloatValFromArray_loop rest properties (floats ++ [f])
                    else Ok []
                | None => Ok []
                end
            end
        | _ => getFloatValFromArray_loop rest properties floats
        end
  end.

Definition __getFloatValFromArray (json_list : list Value)
  (properties : list string) : Res (list float) :=
  getFloatValFromArray_loop json_list properties [].

Definition __getAggregationValues (properties : list string)
  (self : JsonQuery) : Res (list float * JsonQuery) :=
  let self := __prepare self in
  let self :=
    if negb (String.eqb (__distinct_property self) "")
    then __distinct self else self in
  let self :=
    if negb (__limit_records self =? 0)%Z then __limit self else self in
  match __json_content self with
  | VList json_list =>
      floats ← __getFloatValFromArray json_list properties;
      Ok (floats, self)
  | VDict json_dict =>
      match properties with
      | [] => Ok ([], self)
      | p :: _ =>
          match dict_get json_dict p with
          | None => Ok ([], self)
          | Some v =>
              if is_none v then Ok ([], self)
              else if is_float_or_int v
              then f ← py_float v; Ok ([f], self)
              else Ok ([], self)
          end
      end
  | _ => Ok ([], self)
  end.

Definition Sum (properties : list string) (self : JsonQuery)
  : Res (Value * JsonQuery) :=
  r ← __getAggregationValues properties self;
  Ok (py_sum r.1, r.2).

Definition Min (properties : list string) (self : JsonQuery)
  : Res (Value * JsonQuery) :=
  r ← __getAggregationValues properties self;
  m ← py_min r.1;
  Ok (VFloat m, r.2).

Definition Max (properties : list string) (self : JsonQuery)
  : Res (Value * JsonQuery) :=
  r ← __getAggregationValues properties self;
  m ← py_max r.1;
  Ok (VFloat m, r.2).

(** [sum(floats) / len(floats)]: [0 / 0] on the empty list. *)
Definition Avg (properties : list string) (self : JsonQuery)
  : Res (Value * JsonQuery) :=
  r ← __getAggregationValues properties self;
  match r.1 with
  | [] => Raise ZeroDivisionError
  | _ :: _ =>
      n ← float_of_int (Z.of_nat (length r.1));
      Ok (VFloat (PrimFloat.div (float_sum r.1) n), r.2)
  end.

End Api.

(** ** Instances for the collaborators

    Concrete collaborators, used where a statement is evaluated on a
    concrete document. *)

(** [s.split(sep)] for a non-empty [sep]. *)
Fixpoint split_on (sep s cur : string) (skip : nat) : list string :=
  match s with
  | EmptyString => [cur]
  | String c s' =>
      match skip with
      | S k => split_on sep s' cur k
      | O =>
          if (0 <? String.length sep)%nat && String.prefix sep s
          then cur :: split_on sep s' "" (String.length sep - 1)
          else split_on sep s' (cur +:+ String c "") 0
      end
  end.

Fixpoint get_path (segs : list string) (v : Value) : Value :=
  match segs with
  | [] => v
  | k :: rest =>
      match v with
      | VDict d =>
          match dict_get d k with
          | Some x => get_path rest x
          | None => VNone
          end
      | _ => VNone
      end
  end.

Fixpoint delete_path (segs : list string) (d : list (string * Value))
  : list (string * Value) :=
  match segs with
  | [] => d
  | [k] => filter (fun kv => negb (String.eqb kv.1 k)) d
  | k :: rest =>
      map (fun kv =>
             if String.eqb kv.1 k
             then (kv.1, match kv.2 with
                         | VDict d' => VDict (delete_path rest d')
                         | x => x
                         end)
             else kv) d
  end.

(** Modelled from the spec: the module [helper] is not part of the
    sources.  [getNestedValue] resolves a separator-delimited path through
    nested mappings and answers [None] for "not found";
    [deleteNestedValue] removes the path from a mapping, or from every
    mapping of a sequence; [makeAlias], for a path spec without alias,
    answers the path and its last segment.  No default predicate body is
    given by the spec: the registry starts empty and the examples register
    what they use with [Macro]. *)
Definition helper_model : Helper :=
  {| getNestedValue := fun v path sep => get_path (split_on sep path "" 0) v;
     deleteNestedValue := fun v path sep =>
       let segs := split_on sep path "" 0 in
       match v with
       | VDict d => VDict (delete_path segs d)
       | VList l =>
           VList (map (fun e => match e with
                                | VDict d => VDict (delete_path segs d)
                                | x => x
                                end) l)
       | x => x
       end;
     makeAlias := fun spec sep =>
       (spec, List.last (split_on sep spec "" 0) spec);
     defaultQueries := ∅ |}.

(** A number as Python compares it: exactly, across [int], [bool] and
    [float]. *)
Inductive PyNum : Type :=
| NNan
| NInf (negative : bool)
| NFin (m e : Z).

Definition py_num (v : Value) : option PyNum :=
  match v with
  | VInt z => Some (NFin z 0)
  | VBool b => Some (NFin (if b then 1 else 0) 0)
  | VFloat f =>
      Some match Prim2SF f with
           | SpecFloat.S754_zero _ => NFin 0 0
           | SpecFloat.S754_infinity s => NInf s
           | SpecFloat.S754_nan => NNan
           | SpecFloat.S754_finite s m e =>
               NFin (if s then Z.neg m else Z.pos m) e
           end
  | _ => None
  end.

Definition num_cmp (a b : PyNum) : option comparison :=
  match a, b with
  | NNan, _ | _, NNan => None
  | NInf s, NInf t =>
      Some (if s then (if t then Eq else Lt) else (if t then Gt else Eq))
  | NInf s, NFin _ _ => Some (if s then Lt else Gt)
  | NFin _ _, NInf t => Some (if t then Gt else Lt)
  | NFin m1 e1, NFin m2 e2 =>
      let e := Z.min e1 e2 in
      Some (m1 * 2 ^ (e1 - e) ?= m2 * 2 ^ (e2 - e))%Z
  end.

(** [a == b] on values. *)
Fixpoint py_eq (a b : Value) : bool :=
  match py_num a, py_num b with
  | Some x, Some y =>
      match num_cmp x y with Some Eq => true | _ => false end
  | _, _ =>
      match a, b with
      | VNone, VNone => true
      | VStr s, VStr t => String.eqb s t
      | VList l, VList m =>
          (fix go (l m : list Value) : bool :=
             match l, m with
             | [], [] => true
             | x :: l', y :: m' => py_eq x y && go l' m'
             | _, _ => false
             end) l m
      | VDict d, VDict e =>
          (length d =? length e)%nat &&
          (fix go (d : list (string * Value)) : bool :=
             match d with
             | [] => true
             | kv :: d' =>
                 match dict_get e kv.1 with
                 | Some w => py_eq kv.2 w
                 | None => false
                 end && go d'
             end) d
      | _, _ => false
      end
  end.

(** [a < b] on values: numbers by value, strings and lists
    lexicographically, [TypeError] otherwise. *)
Fixpoint py_lt_model (a b : Value) : Res bool :=
  match py_num a, py_num b with
  | Some x, Some y =>
      Ok match num_cmp x y with Some Lt => true | _ => false end
  | _, _ =>
      match a, b with
      | VStr s, VStr t => Ok (String.ltb s t)
      | VList l, VList m =>
          (fix go (l m : list Value) : Res bool :=
             match l, m with
             | [], [] => Ok false
             | [], _ :: _ => Ok true
             | _ :: _, [] => Ok false
             | x :: l', y :: m' =>
                 if py_eq x y then go l' m' else py_lt_model x y
             end) l m
      | _, _ => Raise TypeError
      end
  end.

(** [str(v)] for [None], booleans, integers and strings.  The shortest
    round-trip form of a float and the [repr] of the members of a
    container are not modelled: for those the result below is not what
    Python prints, and no example reaches it. *)
Definition py_str_model (v : Value) : string :=
  match v with
  | VNone => "None"
  | VBool b => if b then "True" else "False"
  | VInt z => pretty z
  | VStr s => s
  | VFloat _ => "float"
  | VList _ => "list"
  | VDict _ => "dict"
  end.

(** A stable insertion sort over [<].  Where [<] answers for every pair
    of keys and is a strict weak order on them, the ordered arrangement
    that keeps equal keys in their original order is unique, and this is
    what every stable sort, the interpreter's included, returns.  On
    other keys (a NaN among floats, a pair that [<] refuses) the
    interpreter's algorithm decides, and this function does not follow
    it; no example sorts such keys. *)
Fixpoint sort_insert (kx : Value * Value) (sorted : list (Value * Value))
  : Res (list (Value * Value)) :=
  match sorted with
  | [] => Ok [kx]
  | ky :: rest =>
      b ← py_lt_model (fst kx) (fst ky);
      if b : bool then Ok (kx :: ky :: rest)
      else (r ← sort_insert kx rest; Ok (ky :: r))
  end.

Fixpoint sort_keyed (l : list (Value * Value)) (sorted : list (Value * Value))
  : Res (list (Value * Value)) :=
  match l with
  | [] => Ok sorted
  | kx :: rest => s ← sort_insert kx sorted; sort_keyed rest s
  end.

(** [sum] on floats adds from left to right, starting from [0.0]
    (CPython before 3.12; later versions compensate the rounding error and
    agree whenever the partial sums are exact). *)
Definition builtins_model : Builtins :=
  {| py_str := py_str_model;
     py_lt := py_lt_model;
     float_sum := fun fs => fold_left PrimFloat.add fs 0%float;
     list_sort := fun kl => sort_keyed kl [] |}.

(** ** Reading of the sorting rules *)

Section SortRules.
Context `{Builtins}.

(** [a < b] answers, and answers [True]. *)
Definition key_lt (a b : Value) : bool :=
  match py_lt a b with
  | Ok true => true
  | _ => false
  end.

(** On the keys [ks] the comparison [<] answers for every pair and is a
    strict weak order: irreflexive, transitive, and with "neither is
    less" transitive too.  Integers, booleans and floats without a NaN
    are such keys; so are strings. *)
Definition well_ordered (ks : list Value) : Prop :=
  (forall a b, In a ks -> In b ks -> exists r, py_lt a b = Ok r) /\
  (forall a, In a ks -> key_lt a a = false) /\
  (forall a b c, In a ks -> In b ks -> In c ks ->
                 key_lt a b = true -> key_lt b c = true -> key_lt a c = true) /\
  (forall a b c, In a ks -> In b ks -> In c ks ->
                 key_lt a b = false -> key_lt b c = false ->
                 key_lt a c = false).

(** Neither key is less than the other. *)
Definition same_rank (a b : Value) : bool :=
  negb (key_lt a b) && negb (key_lt b a).

(** Ascending: no pair is followed by one with a smaller key.
    Descending ([reverse]): no pair is followed by one with a greater
    key. *)
Definition ordered (reverse : bool) (s : list (Value * Value)) : Prop :=
  StronglySorted
    (fun x y => (if reverse then key_lt x.1 y.1 else key_lt y.1 x.1) = false)
    s.

(** The pairs of [s] whose keys rank with a key [k] of [kl] are those of
    [kl], in the order they have in [kl]. *)
Definition ties_kept (kl s : list (Value * Value)) : Prop :=
  forall k, In k (map fst kl) ->
            List.filter (fun x => same_rank k x.1) s =
            List.filter (fun x => same_rank k x.1) kl.

(** What the language promises of the comparison phase: a sort that
    returns has rearranged its input; on well-ordered keys it returns,
    the result ascends and the sort is stable. *)
Definition list_sort_contract : Prop :=
  (forall kl s, list_sort kl = Ok s -> Permutation kl s) /\
  (forall kl, well_ordered (map fst kl) ->
              exists s, list_sort kl = Ok s /\ ordered false s /\
                        ties_kept kl s).

End SortRules.

(** ** Reading of the filter rules *)

Section FilterRules.
Context `{Helper}.

(** The path of clause [q] resolves on the mapping [m]. *)
Definition resolves (self : JsonQuery) (m : list (string * Value)) (q : Query)
  : bool :=
  negb (is_none (getNestedValue (VDict m) (key q) (__separator self))).

(** The operator of clause [q] is in the registry. *)
Definition registered (self : JsonQuery) (q : Query) : bool :=
  match __query_map self !! operator q with
  | Some _ => true
  | None => false
  end.

(** Clause [q] evaluates true on [m]: its operator is registered, its path
    resolves and the predicate accepts the resolved value. *)
Definition clause_true (self : JsonQuery) (m : list (string * Value))
  (q : Query) : bool :=
  match __query_map self !! operator q with
  | Some cf =>
      resolves self m q &&
      cf (getNestedValue (VDict m) (key q) (__separator self)) (value q)
  | None => false
  end.

(** AND within a group, OR across the groups. *)
Definition group_true (self : JsonQuery) (m : list (string * Value))
  (g : list Query) : bool :=
  forallb (clause_true self m) g.

Definition query_true (self : JsonQuery) (m : list (string * Value)) : bool :=
  existsb (group_true self m) (__queries self).

Definition keeps (self : JsonQuery) (v : Value) : bool :=
  match v with
  | VDict m => query_true self m
  | _ => false
  end.

Definition all_registered (self : JsonQuery) : bool :=
  forallb (forallb (registered self)) (__queries self).

(** The clauses met before the first one with an unregistered operator. *)
Fixpoint registered_prefix (self : JsonQuery) (qs : list Query) : list Query :=
  match qs with
  | [] => []
  | q :: rest =>
      if registered self q then q :: registered_prefix self rest else []
  end.

(** The filter rule read without the registry: element [m] of the view
    [l] is retained iff some group has all its clauses true. *)
Definition retained_iff_some_group_true (self : JsonQuery) (l : list Value)
  (m : list (string * Value)) : Prop :=
  In (VDict m) (__findInList self l) <->
  In (VDict m) l /\
  exists g, In g (__queries self) /\
            forall q, In q g -> clause_true self m q = true.

End FilterRules.

(** ** Documents and builders of the examples *)

Definition ints (l : list Z) : Value := VList (map VInt l).

Definition clause (k op : string) (z : Z) : Query :=
  {| key := k; operator := op; value := VInt z |}.

(** A fresh builder over [doc] on which the operator ["same"] has been
    registered, with [==] as its predicate. *)
Definition builder (doc : Value) : JsonQuery :=
  Macro "same" py_eq (@__init__ helper_model doc ".").

Definition rows : list Value :=
  [ VDict [("a", VInt 1)];
    VInt 7;
    VDict [("a", VInt 2); ("b", VInt 3)];
    VDict [("c", VInt 0)] ].

(** [builder.Where("a", "same", 1)] *)
Definition where_a1 : JsonQuery :=
  set_queries [[clause "a" "same" 1]] (builder (VList rows)).

(** [builder.Where("a", "same", 1).Where("c", "same", 0).OrWhere("b", "same", 3)] *)
Definition where_a1_c0_or_b3 : JsonQuery :=
  OrWhere "b" "same" (VInt 3)
    (set_queries [[clause "a" "same" 1; clause "c" "same" 0]]
       (builder (VList rows))).

(** [builder.Where("a", "same", 1).OrWhere("b", "bogus", 2)]: no operator
    is registered under ["bogus"]. *)
Definition where_a1_or_bogus : JsonQuery :=
  OrWhere "b" "bogus" (VInt 2) where_a1.

(** ** Reading of the builder state *)

(** The pending builder state of the specification (filter groups,
    projection, drop list, offset, limit, distinct key) is the same in
    [s'] as in [s]. *)
Definition same_pending (s s' : JsonQuery) : Prop :=
  __queries s' = __queries s /\
  __attributes s' = __attributes s /\
  __dropped_properties s' = __dropped_properties s /\
  __offset_records s' = __offset_records s /\
  __limit_records s' = __limit_records s /\
  __distinct_property s' = __distinct_property s.

(** [JsonQuery("[1, 2, 3, 4, 5]").Offset(2)] *)
Definition one_to_five_offset2 `{Helper} : JsonQuery :=
  Offset 2 (__init__ (ints [1; 2; 3; 4; 5]%Z) ".").

(** [JsonQuery(doc).Offset(1).Limit(2).Distinct("k")] over four mappings
    with distinct ["k"]. *)
Definition pending_builder `{Helper} : JsonQuery :=
  Distinct "k"
    (Limit 2
       (Offset 1
          (__init__
             (VList [ VDict [("k", VInt 1)]; VDict [("k", VInt 2)];
                      VDict [("k", VInt 3)]; VDict [("k", VInt 4)] ])
             "."))).

(** ** Chains of [Where] and [OrWhere] *)

Inductive Call : Type :=
| CWhere (k cond : string) (val : Value)
| COrWhere (k cond : string) (val : Value).

Definition call_clause (c : Call) : Query :=
  match c with
  | CWhere k cond val | COrWhere k cond val =>
      {| key := k; operator := cond; value := val |}
  end.

(** The calls made one after the other on the same builder; the chain
    stops at the first call that raises. *)
Fixpoint run_calls (cs : list Call) (self : JsonQuery) : Res JsonQuery :=
  match cs with
  | [] => Ok self
  | CWhere k cond val :: rest =>
      self ← Where k cond val self; run_calls rest self
  | COrWhere k cond val :: rest =>
      run_calls rest (OrWhere k cond val self)
  end.

(** What the calls are meant to build from the groups [qs]: [Where] adds
    its clause to the last group, or makes the first group when there is
    none; [OrWhere] adds a new last group. *)
Definition add_call (qs : list (list Query)) (c : Call) : list (list Query) :=
  match c with
  | COrWhere _ _ _ => qs ++ [[call_clause c]]
  | CWhere _ _ _ =>
      match last qs with
      | None => [[call_clause c]]
      | Some g => removelast qs ++ [g ++ [call_clause c]]
      end
  end.

Definition groups_built (cs : list Call) : list (list Query) :=
  fold_left add_call cs [].

(** The group index points at the last group. *)
Definition index_on_last (self : JsonQuery) : Prop :=
  __queries self <> [] /\
  __query_index self = (Z.of_nat (length (__queries self)) - 1)%Z.

(** The group index is one past the last group: the state [OrWhere]
    leaves when it is the first call. *)
Definition index_past_last (self : JsonQuery) : Prop :=
  __queries self <> [] /\
  __query_index self = Z.of_nat (length (__queries self)).

(** Three mappings with ["a"] out of order; [Where("b", "same", 0)] is
    pending and holds for the first two. *)
Definition unsorted_rows : list Value :=
  [ VDict [("a", VInt 3); ("b", VInt 0)];
    VDict [("a", VInt 1); ("b", VInt 0)];
    VDict [("a", VInt 2); ("b", VInt 1)] ].

Definition unsorted_where_b0 : JsonQuery :=
  set_queries [[clause "b" "same" 0]] (builder (VList unsorted_rows)).

(** ** Reading of the aggregation rules *)

Section AggregationRules.
Context `{Helper} `{Builtins}.

(** The view the values are collected from: the prepared view on which
    [__getAggregationValues] has applied distinct and limit once more. *)
Definition aggregation_view (self : JsonQuery) : JsonQuery :=
  let self := __prepare self in
  let self :=
    if negb (String.eqb (__distinct_property self) "")
    then __distinct self else self in
  if negb (__limit_records self =? 0)%Z then __limit self else self.

(** The mapping [d] gives the collection nothing to convert: no property
    name was supplied, or the first one is missing from [d], or its value
    fails [isinstance(dv, float) or isinstance(dv, int)]. *)
Definition lacks_number (properties : list string) (d : list (string * Value))
  : bool :=
  match properties with
  | [] => true
  | p :: _ =>
      match dict_get d p with
      | Some dv => negb (is_float_or_int dv)
      | None => true
      end
  end.

(** The value the collection converts for element [a], when there is
    one. *)
Definition selected (properties : list string) (a : Value) : Value :=
  match a with
  | VDict d =>
      match properties with
      | p :: _ => default VNone (dict_get d p)
      | [] => VNone
      end
  | _ => a
  end.

(** [float(v)] does not overflow. *)
Definition in_float_range (v : Value) : bool :=
  match v with
  | VInt z =>
      match float_of_int z with
      | Ok _ => true
      | Raise _ => false
      end
  | _ => true
  end.

(** Element [a] ends the collection with the empty set: a mapping that
    [lacks_number], or a number met when a property name was supplied. *)
Definition ends_collection (properties : list string) (a : Value) : bool :=
  match a with
  | VDict d => lacks_number properties d
  | _ => is_float_or_int a && (0 <? length properties)%nat
  end.

(** The loop over [pre] reaches an element whose conversion overflows:
    no element before it ends the collection or overflows itself. *)
Definition overflows_in (properties : list string) (pre : list Value)
  : Prop :=
  exists pre1 b pre2,
    pre = pre1 ++ b :: pre2 /\
    Forall (fun a => ends_collection properties a = false /\
                     in_float_range (selected properties a) = true) pre1 /\
    ends_collection properties b = false /\
    in_float_range (selected properties b) = false.

(** The mapping [d] misses the first supplied property or holds a value
    there that is not a number of the data model. *)
Definition missing_or_non_numeric (properties : list string)
  (d : list (string * Value)) : Prop :=
  exists p, head properties = Some p /\
            (dict_get d p = None \/
             exists dv, dict_get d p = Some dv /\ is_number dv = false).

(** The collection rule read on the prepared view and with the numbers of
    the data model. *)
Definition prepared_all_or_nothing (self : JsonQuery)
  (properties : list string) : Prop :=
  forall l,
    __json_content (__prepare self) = VList l ->
    (forall a, In a l -> exists d, a = VDict d) ->
    (exists d, In (VDict d) l /\ missing_or_non_numeric properties d) ->
    exists self', __getAggregationValues properties self = Ok ([], self').

End AggregationRules.

(** [[{"p": true}]] *)
Definition true_row `{Helper} : JsonQuery :=
  __init__ (VList [VDict [("p", VBool true)]]) ".".

(** [[{"p": 1}, {"q": 2}]] with [Limit(1)] pending. *)
Definition p_then_q_limit1 `{Helper} : JsonQuery :=
  Limit 1
    (__init__
       (VList [VDict [("p", VInt 1)]; VDict [("q", VInt 2)]]) ".").

(** [[{"p": 2**1024}, {"q": 1}]]: the integer does not fit a float. *)
Definition huge_then_q `{Helper} : JsonQuery :=
  __init__
    (VList [VDict [("p", VInt (2 ^ 1024))]; VDict [("q", VInt 1)]]) ".".

(** [[{"q": 1}, {"p": 2**1024}]]: the mapping without ["p"] comes first. *)
Definition q_then_huge `{Helper} : JsonQuery :=
  __init__
    (VList [VDict [("q", VInt 1)]; VDict [("p", VInt (2 ^ 1024))]]) ".".

(** The attributes [__prepare] reads: [s'] has the same working view,
    groups, registry, separator, distinct key and projection as [s]. *)
Definition same_prepare_inputs (s s' : JsonQuery) : Prop :=
  __json_content s' = __json_content s /\
  __queries s' = __queries s /\
  __query_map s' = __query_map s /\
  __separator s' = __separator s /\
  __distinct_property s' = __distinct_property s /\
  __attributes s' = __attributes s.

(** The value a call returns, without the instance. *)
Definition returned {A : Type} (r : Res (A * JsonQuery)) : Res A :=
  p ← r; Ok p.1.

(** ** Reading of distinct, projection and grouping *)

Section ShapeRules.
Context `{Helper} `{Builtins}.

(** [a] is a mapping on which the distinct key resolves. *)
Definition has_distinct_key (self : JsonQuery) (a : Value) : bool :=
  match a with
  | VDict _ =>
      negb (is_none (getNestedValue a (__distinct_property self)
                       (__separator self)))
  | _ => false
  end.

(** The string under which [__distinct] remembers [a]. *)
Definition distinct_key (self : JsonQuery) (a : Value) : string :=
  py_str (getNestedValue a (__distinct_property self) (__separator self)).

(** The string under which [GroupBy] files [a]. *)
Definition group_key (self : JsonQuery) (attr : string) (a : Value) : string :=
  py_str (getNestedValue a attr (__separator self)).

Definition is_dict (a : Value) : bool :=
  match a with VDict _ => true | _ => false end.

End ShapeRules.

Section ProjectionRules.
Context `{Helper} `{Builtins}.

(** The entry [kv] of a projected mapping comes from element [am]: some
    requested attribute has [kv.1] as its alias and resolves on [am] to
    [kv.2], which is not [None]. *)
Definition projected_from (self : JsonQuery) (am : Value) (kv : string * Value)
  : Prop :=
  kv.2 <> VNone /\
  exists attr,
    In attr (__attributes self) /\
    (makeAlias attr (__separator self)).2 = kv.1 /\
    getNestedValue am (makeAlias attr (__separator self)).1
      (__separator self) = kv.2.

(** [v] is a mapping built by [__only] from an element of [l]: not empty,
    without repeated keys, every entry projected from that element. *)
Definition projection_of (self : JsonQuery) (l : list Value) (v : Value)
  : Prop :=
  exists tmap am,
    v = VDict tmap /\ tmap <> [] /\ NoDup (map fst tmap) /\
    In am l /\ Forall (projected_from self am) tmap.

End ProjectionRules.

Section GroupingRules.
Context `{Helper} `{Builtins}.

(** The mappings of [l] that [GroupBy] files under [k], in the order of
    [l]. *)
Definition filed_under (self : JsonQuery) (attr k : string) (l : list Value)
  : list Value :=
  List.filter (fun a => is_dict a && String.eqb (group_key self attr a) k) l.

(** On every mapping of [l] the attribute resolves. *)
Definition all_resolve (self : JsonQuery) (attr : string) (l : list Value)
  : Prop :=
  Forall (fun a => is_dict a = true ->
                   is_none (getNestedValue a attr (__separator self)) = false)
    l.

End GroupingRules.

(** ** Reading of the positional rules *)

(** [First], resp. [Last], answers [None] only when the prepared view is
    not a sequence. *)
Definition First_none_only_off_sequence `{Helper} `{Builtins}
  (self : JsonQuery) : Prop :=
  returned (First self) = Ok VNone ->
  forall l, __json_content (__prepare self) <> VList l.

Definition Last_none_only_off_sequence `{Helper} `{Builtins}
  (self : JsonQuery) : Prop :=
  returned (Last self) = Ok VNone ->
  forall l, __json_content (__prepare self) <> VList l.

(** [[null, 1]] and [[1, null]] *)
Definition null_then_one : JsonQuery := builder (VList [VNone; VInt 1]).

Definition one_then_null : JsonQuery := builder (VList [VInt 1; VNone]).

(** The filter of a builder whose only clause is [(k, op, val)], once
    [op] is registered with the predicate [f]. *)
Definition passes `{Helper} (self : JsonQuery) (k : string) (f : QueryFunc)
  (val : Value) (v : Value) : bool :=
  match v with
  | VDict _ =>
      negb (is_none (getNestedValue v k (__separator self))) &&
      f (getNestedValue v k (__separator self)) val
  | _ => false
  end.

(** [a] is a mapping that holds [attr]. *)
Definition holds_attr (attr : string) (a : Value) : bool :=
  match a with
  | VDict d => match dict_get d attr with Some _ => true | None => false end
  | _ => false
  end.

(** The instance [Get] has before it applies the drop list: prepared,
    then offset, then limit. *)
Definition shaped `{Helper} `{Builtins} (self : JsonQuery) : JsonQuery :=
  let self := __prepare self in
  let self :=
    if negb (__offset_records self =? 0)%Z then __offset self else self in
  if negb (__limit_records self =? 0)%Z then __limit self else self.

(** What [__offset] and [__limit] make of a view, as functions of the
    view and the two counters. *)
Definition offset_of (offset limit : Z) (c : Value) : Value :=
  match c with
  | VList l =>
      if (offset <? 0)%Z then c
      else if (Z.of_nat (length l) >=? limit)%Z
      then VList (drop (Z.to_nat offset) l)
      else VList []
  | _ => c
  end.

Definition limit_of (limit : Z) (c : Value) : Value :=
  match c with
  | VList l =>
      if (limit <=? 0)%Z then c
      else if (Z.of_nat (length l) >? limit)%Z
      then VList (take (Z.to_nat limit) l)
      else c
  | _ => c
  end.

(** * Theorems *)

(** ** The filter engine *)

Section FilterFacts.
Context `{Helper}.

Lemma registered_prefix_all (self : JsonQuery) (qs : list Query) :
  forallb (registered self) qs = true -> registered_prefix self qs = qs.
Proof.
  induction qs as [|q qs IH]; simpl; [done|].
  destruct (registered self q); simpl; [|done].
  intros Hall. by rewrite IH.
Qed.

Lemma registered_prefix_app (self : JsonQuery) (qs1 qs2 : list Query) :
  registered_prefix self (qs1 ++ qs2) =
  if forallb (registered self) qs1
  then qs1 ++ registered_prefix self qs2
  else registered_prefix self qs1.
Proof.
  induction qs1 as [|q qs1 IH]; simpl; [done|].
  destruct (registered self q); simpl; [|done].
  rewrite IH. by destruct (forallb (registered self) qs1).
Qed.

(** Where the prefix stops short, the next clause is an unregistered one. *)
Lemma registered_prefix_stops (self : JsonQuery) (qs : list Query) :
  forallb (registered self) qs = false ->
  exists q rest,
    qs = registered_prefix self qs ++ q :: rest /\
    __query_map self !! operator q = None.
Proof.
  induction qs as [|q qs IH]; simpl; [done|].
  unfold registered at 1 3.
  destruct (__query_map self !! operator q) as [cf|] eqn:Hq; simpl.
  - intros Hall. destruct (IH Hall) as (q' & rest & Heq & Hnone).
    exists q', rest. split; [by rewrite <- Heq | done].
  - intros _. by exists q, qs.
Qed.

(** The loop over one group: no clause is skipped once an earlier one has
    failed; only an unregistered operator ends the loop early. *)
Lemma findInDict_clauses_spec (self : JsonQuery) (m : list (string * Value))
  (g : list Query) (b : bool) (calls : list Query) :
  findInDict_clauses self m g b calls =
  (if forallb (registered self) g
   then Some (b && forallb (clause_true self m) g) else None,
   calls ++ List.filter (resolves self m) (registered_prefix self g)).
Proof.
  revert b calls.
  induction g as [|q g IH]; intros b calls; simpl.
  - by rewrite andb_true_r, app_nil_r.
  - unfold registered at 1 3, clause_true at 1, resolves at 1 2.
    destruct (__query_map self !! operator q) as [cf|]; simpl.
    + destruct (is_none (getNestedValue (VDict m) (key q) (__separator self)));
        simpl; rewrite IH.
      * by rewrite andb_false_r.
      * by rewrite <- app_assoc, andb_assoc.
    + by rewrite app_nil_r.
Qed.

Lemma findInDict_groups_spec (self : JsonQuery) (m : list (string * Value))
  (qs : list (list Query)) (b : bool) (calls : list Query) :
  findInDict_groups self m qs b calls =
  (if forallb (forallb (registered self)) qs
   then Some (b || existsb (group_true self m) qs) else None,
   calls ++ List.filter (resolves self m)
              (registered_prefix self (concat qs))).
Proof.
  revert b calls.
  induction qs as [|g qs IH]; intros b calls; simpl.
  - by rewrite orb_false_r, app_nil_r.
  - rewrite findInDict_clauses_spec, registered_prefix_app.
    destruct (forallb (registered self) g) eqn:Hg; simpl; [|done].
    rewrite IH, (registered_prefix_all _ _ Hg), List.filter_app, <- app_assoc.
    unfold group_true. by rewrite orb_assoc.
Qed.

Lemma findInDict_run_spec (self : JsonQuery) (m : list (string * Value)) :
  findInDict_run self m =
  (if all_registered self && query_true self m then [m] else [],
   List.filter (resolves self m)
     (registered_prefix self (concat (__queries self)))).
Proof.
  unfold findInDict_run, all_registered, query_true.
  rewrite findInDict_groups_spec.
  by destruct (forallb (forallb (registered self)) (__queries self)).
Qed.

Lemma findInList_spec (self : JsonQuery) (l : list Value) :
  __findInList self l =
  List.filter (fun v => all_registered self && keeps self v) l.
Proof.
  unfold __findInList.
  rewrite <- (app_nil_l (List.filter _ l)).
  generalize (@nil Value) as acc.
  induction l as [|v l IH]; intros acc; simpl.
  - by rewrite app_nil_r.
  - rewrite IH. destruct v; simpl; rewrite ?andb_false_r; try done.
    unfold __findInDict. rewrite findInDict_run_spec. simpl.
    destruct (all_registered self && query_true self d); simpl.
    + by rewrite <- app_assoc.
    + by rewrite app_nil_r.
Qed.

Lemma all_registered_false (self : JsonQuery) (g : list Query) (q : Query) :
  In g (__queries self) -> In q g ->
  __query_map self !! operator q = None ->
  all_registered self = false.
Proof.
  intros Hg Hq Hnone. unfold all_registered.
  destruct (forallb _ (__queries self)) eqn:Hall; [|done].
  rewrite forallb_forall in Hall. specialize (Hall g Hg).
  rewrite forallb_forall in Hall. specialize (Hall q Hq).
  unfold registered in Hall. by rewrite Hnone in Hall.
Qed.

Lemma all_registered_concat (self : JsonQuery) :
  forallb (registered self) (concat (__queries self)) = all_registered self.
Proof.
  unfold all_registered.
  induction (__queries self) as [|g qs IH]; simpl; [done|].
  by rewrite forallb_app, IH.
Qed.

Lemma query_true_iff (self : JsonQuery) (m : list (string * Value)) :
  query_true self m = true <->
  exists g, In g (__queries self) /\
            forall q, In q g -> clause_true self m q = true.
Proof.
  unfold query_true, group_true. rewrite existsb_exists.
  split; intros (g & Hg & Hall); exists g; split; try done.
  - by apply forallb_forall.
  - by apply forallb_forall.
Qed.

End FilterFacts.

Section FilterClaims.
Context `{Helper}.

(** C1, as amended.  In a filter evaluation over a sequence in which every
    clause names a registered operator, the output is the input filtered,
    in the original order, by "is a mapping on which some group has all
    its clauses true"; a clause whose path does not resolve is false; and
    the predicate of every clause whose path resolves is invoked, whatever
    the clauses before it gave (no short-circuit). *)
Theorem findInList_or_of_and (self : JsonQuery) (l : list Value) :
  all_registered self = true ->
  __findInList self l = List.filter (keeps self) l /\
  (forall m, retained_iff_some_group_true self l m) /\
  (forall m q, resolves self m q = false -> clause_true self m q = false) /\
  (forall m, (findInDict_run self m).2 =
             List.filter (resolves self m) (concat (__queries self))).
Proof.
  intros Hreg.
  assert (Hfilter : __findInList self l = List.filter (keeps self) l).
  { rewrite findInList_spec, Hreg. done. }
  split; [done|]. split; [|split].
  - intros m. unfold retained_iff_some_group_true.
    rewrite Hfilter, filter_In. simpl. by rewrite query_true_iff.
  - intros m q Hres. unfold clause_true.
    destruct (__query_map self !! operator q); [|done]. by rewrite Hres.
  - intros m. rewrite findInDict_run_spec. simpl.
    rewrite registered_prefix_all; [done|].
    by rewrite all_registered_concat.
Qed.

(** C2.  When some clause of some group names an operator that is not in
    the registry, [__findInDict] leaves at the first such clause, before
    any later predicate is invoked, and returns its result list as it is,
    which is empty; the element and all elements after it add nothing to
    the filter output. *)
Theorem findInList_unregistered_operator (self : JsonQuery) (g : list Query)
  (q : Query) :
  In g (__queries self) -> In q g ->
  __query_map self !! operator q = None ->
  (forall m, __findInDict self m = []) /\
  (forall m, exists q' rest,
      concat (__queries self) =
        registered_prefix self (concat (__queries self)) ++ q' :: rest /\
      __query_map self !! operator q' = None /\
      (findInDict_run self m).2 =
        List.filter (resolves self m)
          (registered_prefix self (concat (__queries self)))) /\
  (forall pre v post,
      __findInList self (pre ++ v :: post) = __findInList self pre) /\
  (forall l, __findInList self l = []).
Proof.
  intros Hg Hq Hnone.
  pose proof (all_registered_false self g q Hg Hq Hnone) as Hreg.
  assert (Hnil : forall l, __findInList self l = []).
  { intros l. rewrite findInList_spec, Hreg. simpl.
    induction l as [|v l IH]; simpl; done. }
  split; [|split; [|split]]; try done.
  - intros m. unfold __findInDict. rewrite findInDict_run_spec, Hreg. done.
  - intros m.
    destruct (registered_prefix_stops self (concat (__queries self)))
      as (q' & rest & Heq & Hq'); [by rewrite all_registered_concat|].
    exists q', rest. by rewrite findInDict_run_spec.
  - intros pre v post. by rewrite !Hnil.
Qed.

End FilterClaims.

(** The claim of C1 read as it stands fails where another group names an
    unregistered operator: on [{"a": 1}] the group [a same 1] has all its
    clauses true, and the element is not retained. *)
Lemma findInList_or_of_and_unregistered :
  ~ @retained_iff_some_group_true helper_model where_a1_or_bogus rows
      [("a", VInt 1)].
Proof.
  unfold retained_iff_some_group_true. intros [_ Hback].
  assert (Hin : In (VDict [("a", VInt 1)])
                  (@__findInList helper_model where_a1_or_bogus rows)).
  { apply Hback. split; [by left|].
    exists [clause "a" "same" 1]. split; [by left|].
    intros q [<-|[]]. reflexivity. }
  vm_compute in Hin. exact Hin.
Qed.

Lemma findInList_or_of_and_witness :
  all_registered where_a1_c0_or_b3 = true /\
  @__findInList helper_model where_a1_c0_or_b3 rows =
    [VDict [("a", VInt 2); ("b", VInt 3)]].
Proof.
  split; [reflexivity|].
  rewrite (proj1 (@findInList_or_of_and helper_model where_a1_c0_or_b3 rows
                    eq_refl)).
  reflexivity.
Defined.

Lemma findInList_unregistered_operator_witness :
  @__findInList helper_model where_a1_or_bogus rows = [].
Proof.
  apply (@findInList_unregistered_operator helper_model where_a1_or_bogus
           [clause "b" "bogus" 2] (clause "b" "bogus" 2)).
  - right. left. reflexivity.
  - left. reflexivity.
  - reflexivity.
Defined.

(** ** The preparation pipeline only replaces the view *)

Section PrepareFrame.
Context `{Helper} `{Builtins}.

Lemma set_json_content_id (self : JsonQuery) :
  set_json_content (__json_content self) self = self.
Proof. by destruct self. Qed.

Lemma view_step (s self : JsonQuery) (x : Value) :
  s = set_json_content (__json_content s) self ->
  set_json_content x s =
  set_json_content (__json_content (set_json_content x s)) self.
Proof. intros E. by rewrite E. Qed.

Lemma view_step_rewound (s self : JsonQuery) (x : Value) :
  s = set_query_index 0 (set_json_content (__json_content s) self) ->
  set_json_content x s =
  set_query_index 0
    (set_json_content (__json_content (set_json_content x s)) self).
Proof. intros E. by rewrite E. Qed.

Lemma processQuery_frame (s self : JsonQuery) :
  s = set_json_content (__json_content s) self ->
  __processQuery s =
  set_json_content (__json_content (__processQuery s)) self.
Proof.
  intros E. unfold __processQuery.
  destruct (__json_content s) eqn:Hc; rewrite <- Hc in E; try done.
  by apply view_step.
Qed.

Lemma prepare_frame (self : JsonQuery) :
  __prepare self =
  set_query_index 0
    (set_json_content (__json_content (__prepare self)) self).
Proof.
  unfold __prepare.
  set (s1 := if (0 <? length (__queries self))%nat
             then __processQuery self else self).
  assert (H1 : s1 = set_json_content (__json_content s1) self).
  { subst s1. destruct (0 <? length (__queries self))%nat.
    - apply processQuery_frame. by rewrite set_json_content_id.
    - by rewrite set_json_content_id. }
  set (s2 := if negb (String.eqb (__distinct_property s1) "")
             then __distinct s1 else s1).
  assert (H2 : s2 = set_json_content (__json_content s2) self).
  { subst s2. destruct (negb (String.eqb (__distinct_property s1) ""));
      [|done].
    by apply view_step. }
  set (s3 := if (0 <? length (__attributes s2))%nat
             then __only s2 else s2).
  assert (H3 : s3 = set_json_content (__json_content s3) self).
  { subst s3. destruct (0 <? length (__attributes s2))%nat; [|done].
    by apply view_step. }
  rewrite H3 at 1. done.
Qed.

Lemma prepare_fields (self : JsonQuery) :
  __separator (__prepare self) = __separator self /\
  __root_json_content (__prepare self) = __root_json_content self /\
  __query_map (__prepare self) = __query_map self /\
  __query_index (__prepare self) = 0%Z /\
  same_pending self (__prepare self).
Proof. rewrite prepare_frame. by repeat split. Qed.

Lemma limit_frame (s self : JsonQuery) :
  s = set_query_index 0 (set_json_content (__json_content s) self) ->
  __limit s =
  set_query_index 0 (set_json_content (__json_content (__limit s)) self).
Proof.
  intros E. unfold __limit.
  destruct (__json_content s) eqn:Hc; rewrite <- Hc in E; try done.
  destruct (__limit_records s <=? 0)%Z; [done|].
  destruct (Z.of_nat (length l) >? __limit_records s)%Z; [|done].
  by apply view_step_rewound.
Qed.

Lemma offset_frame (s self : JsonQuery) :
  s = set_query_index 0 (set_json_content (__json_content s) self) ->
  __offset s =
  set_query_index 0 (set_json_content (__json_content (__offset s)) self).
Proof.
  intros E. unfold __offset.
  destruct (__json_content s) eqn:Hc; rewrite <- Hc in E; try done.
  destruct (__offset_records s <? 0)%Z; [done|].
  destruct (Z.of_nat (length l) >=? __limit_records s)%Z;
    by apply view_step_rewound.
Qed.

(** [Get] returns the view it leaves behind, rewinds the group index and
    changes nothing else. *)
Lemma Get_frame (self : JsonQuery) :
  Get self =
  ((Get self).1, set_query_index 0 (set_json_content (Get self).1 self)).
Proof.
  unfold Get.
  set (s0 := __prepare self).
  assert (E0 : s0 = set_query_index 0
                      (set_json_content (__json_content s0) self))
    by apply prepare_frame.
  set (s1 := if negb (__offset_records s0 =? 0)%Z then __offset s0 else s0).
  assert (E1 : s1 = set_query_index 0
                      (set_json_content (__json_content s1) self)).
  { subst s1. destruct (negb (__offset_records s0 =? 0)%Z); [|done].
    by apply offset_frame. }
  set (s2 := if negb (__limit_records s1 =? 0)%Z then __limit s1 else s1).
  assert (E2 : s2 = set_query_index 0
                      (set_json_content (__json_content s2) self)).
  { subst s2. destruct (negb (__limit_records s1 =? 0)%Z); [|done].
    by apply limit_frame. }
  set (s3 := if negb (length (__dropped_properties s2) =? 0)%nat
             then __drop s2 else s2).
  assert (E3 : s3 = set_query_index 0
                      (set_json_content (__json_content s3) self)).
  { subst s3. destruct (negb (length (__dropped_properties s2) =? 0)%nat);
      [|done].
    by apply view_step_rewound. }
  simpl. by rewrite E3 at 2.
Qed.

End PrepareFrame.

(** ** Offset at [Get] *)

Section OffsetClaims.
Context `{Helper} `{Builtins}.

(** C3.  On a prepared view that is the sequence [l], with [n] the offset
    counter: [__offset] changes nothing when [n < 0]; otherwise it slices
    from [n] when the length of [l] is at least the limit counter and
    clears the view when it is not, so with the limit counter at [0] it
    always slices; [Get] with limit inactive and nothing to drop returns
    [l] from index [n] on; and [Offset(2)] over [[1,2,3,4,5]] gives
    [[3,4,5]]. *)
Theorem Offset_at_Get (self : JsonQuery) (l : list Value) :
  __json_content (__prepare self) = VList l ->
  ((__offset_records self < 0)%Z ->
   __offset (__prepare self) = __prepare self) /\
  ((0 <= __offset_records self)%Z ->
   __json_content (__offset (__prepare self)) =
   if (Z.of_nat (length l) >=? __limit_records self)%Z
   then VList (drop (Z.to_nat (__offset_records self)) l)
   else VList []) /\
  ((0 <= __offset_records self)%Z -> __limit_records self = 0%Z ->
   __json_content (__offset (__prepare self)) =
   VList (drop (Z.to_nat (__offset_records self)) l)) /\
  (__limit_records self = 0%Z -> __dropped_properties self = [] ->
   (Get self).1 =
   if (__offset_records self <? 0)%Z then VList l
   else VList (drop (Z.to_nat (__offset_records self)) l)) /\
  (Get one_to_five_offset2).1 = ints [3; 4; 5]%Z.
Proof.
  intros Hview.
  destruct (prepare_fields self)
    as (_ & _ & _ & _ & _ & _ & Hdrop & Hoff & Hlim & _).
  assert (Hneg : (__offset_records self < 0)%Z ->
                 __offset (__prepare self) = __prepare self).
  { intros Hn. unfold __offset. rewrite Hview, Hoff.
    by apply Z.ltb_lt in Hn as ->. }
  assert (Hpos : (0 <= __offset_records self)%Z ->
     __json_content (__offset (__prepare self)) =
     if (Z.of_nat (length l) >=? __limit_records self)%Z
     then VList (drop (Z.to_nat (__offset_records self)) l)
     else VList []).
  { intros Hn. unfold __offset. rewrite Hview, Hoff, Hlim.
    apply Z.ltb_ge in Hn as ->.
    by destruct (Z.of_nat (length l) >=? __limit_records self)%Z. }
  assert (Hslice : (0 <= __offset_records self)%Z ->
     __limit_records self = 0%Z ->
     __json_content (__offset (__prepare self)) =
     VList (drop (Z.to_nat (__offset_records self)) l)).
  { intros Hn Hl0. rewrite (Hpos Hn), Hl0.
    assert ((Z.of_nat (length l) >=? 0)%Z = true) as ->; [|done].
    rewrite Z.geb_leb. apply Z.leb_le. lia. }
  repeat split; try done.
  intros Hl0 Hnodrop.
  pose proof (offset_frame (__prepare self) self (prepare_frame self)) as Eo.
  unfold Get. rewrite Hoff.
  set (s1 := if negb (__offset_records self =? 0)%Z
             then __offset (__prepare self) else __prepare self).
  assert (Hs1 : __limit_records s1 = 0%Z /\ __dropped_properties s1 = [] /\
                __json_content s1 =
                if (__offset_records self <? 0)%Z then VList l
                else VList (drop (Z.to_nat (__offset_records self)) l)).
  { subst s1. destruct (__offset_records self =? 0)%Z eqn:Hz; cbn.
    - apply Z.eqb_eq in Hz. rewrite Hlim, Hdrop, Hview, Hz. done.
    - destruct (__offset_records self <? 0)%Z eqn:Hs.
      + apply Z.ltb_lt in Hs. rewrite (Hneg Hs), Hlim, Hdrop, Hview. done.
      + apply Z.ltb_ge in Hs. rewrite <- (Hslice Hs Hl0).
        rewrite Eo. done. }
  destruct Hs1 as (Hl1 & Hd1 & Hc).
  rewrite Hl1. cbn. rewrite Hd1. cbn. exact Hc.
Qed.

End OffsetClaims.

Section OffsetExamples.
#[local] Existing Instance helper_model.
#[local] Existing Instance builtins_model.

Lemma Offset_at_Get_witness :
  __json_content (__offset (__prepare (Limit 6 one_to_five_offset2))) =
    VList [] /\
  __offset (__prepare (Offset (-1) one_to_five_offset2)) =
    __prepare (Offset (-1) one_to_five_offset2).
Proof.
  split.
  - rewrite (proj1 (proj2 (Offset_at_Get (Limit 6 one_to_five_offset2)
                             (map VInt [1; 2; 3; 4; 5]%Z) eq_refl))).
    + reflexivity.
    + simpl. lia.
  - apply (proj1 (Offset_at_Get (Offset (-1) one_to_five_offset2)
                    (map VInt [1; 2; 3; 4; 5]%Z) eq_refl)).
    simpl. lia.
Defined.

End OffsetExamples.

(** ** Terminal calls keep the pending state *)

Section GetClaims.
Context `{Helper} `{Builtins}.

(** C8.  [Get] leaves the view it returns as the working view and clears
    nothing of the pending state: groups, projection, drop list, offset,
    limit and distinct key stay as they were (only the group index is
    rewound, by [__prepare]).  A second [Get] therefore runs the pipeline
    again on the shaped view: over [[1,2,3,4,5]] with [Offset(2)] the
    first [Get] returns [[3,4,5]] and the second the shorter [[5]]. *)
Theorem Get_not_idempotent :
  (forall self,
      __json_content (Get self).2 = (Get self).1 /\
      same_pending self (Get self).2) /\
  (Get one_to_five_offset2).1 = ints [3; 4; 5]%Z /\
  (Get (Get one_to_five_offset2).2).1 = ints [5]%Z /\
  (exists l1 l2,
      (Get one_to_five_offset2).1 = VList l1 /\
      (Get (Get one_to_five_offset2).2).1 = VList l2 /\
      l2 <> l1 /\ length l2 < length l1).
Proof.
  split; [|split; [|split]]; try done.
  - intros self. rewrite (Get_frame self) at 1 3. by repeat split.
  - exists (map VInt [3; 4; 5]%Z), (map VInt [5]%Z).
    repeat split; try done. simpl. lia.
Qed.

End GetClaims.

(** ** Building the groups *)

Section WhereFacts.

Lemma Where_first (k cond : string) (val : Value) (self : JsonQuery) :
  __query_index self = 0%Z -> __queries self = [] ->
  Where k cond val self =
  Ok (set_queries [[ {| key := k; operator := cond; value := val |} ]] self).
Proof. intros Hi Hq. unfold Where. by rewrite Hi, Hq. Qed.

Lemma Where_on_last (k cond : string) (val : Value) (self : JsonQuery) :
  index_on_last self ->
  Where k cond val self =
  Ok (set_queries (add_call (__queries self) (CWhere k cond val)) self).
Proof.
  intros [Hne Hi]. unfold Where, add_call, py_index. simpl.
  destruct (exists_last Hne) as (init & g & Hq). rewrite Hi, Hq.
  rewrite last_snoc, removelast_last, length_app. simpl.
  replace (length init + 1)%nat with (S (length init)) by lia.
  assert ((Z.of_nat (S (length init)) - 1)%Z = Z.of_nat (length init)) as ->
    by lia.
  assert ((S (length init) =? 0)%nat = false) as -> by done.
  rewrite andb_false_r.
  assert ((Z.of_nat (length init) <? 0)%Z = false) as ->
    by (apply Z.ltb_ge; lia).
  assert ((0 <=? Z.of_nat (length init))%Z = true) as ->
    by (apply Z.leb_le; lia).
  assert ((Z.of_nat (length init) <? Z.of_nat (S (length init)))%Z = true)
    as -> by (apply Z.ltb_lt; lia).
  simpl. rewrite Nat2Z.id, list_lookup_middle by done.
  rewrite insert_app_r_alt, Nat.sub_diag by lia. done.
Qed.

Lemma Where_past_last (k cond : string) (val : Value) (self : JsonQuery) :
  index_past_last self -> Where k cond val self = Raise IndexError.
Proof.
  intros [Hne Hi]. unfold Where, py_index. rewrite Hi.
  destruct (__queries self) as [|g qs]; [done|]. simpl length.
  assert ((Z.of_nat (S (length qs)) =? 0)%Z = false) as ->
    by (apply Z.eqb_neq; lia).
  assert ((Z.of_nat (S (length qs)) <? 0)%Z = false) as ->
    by (apply Z.ltb_ge; lia).
  rewrite Z.ltb_irrefl, andb_false_r. done.
Qed.

Lemma OrWhere_on_last (k cond : string) (val : Value) (self : JsonQuery) :
  index_on_last self -> index_on_last (OrWhere k cond val self).
Proof.
  intros [Hne Hi]. unfold index_on_last, OrWhere. simpl.
  rewrite length_app, Hi. simpl. split; [|lia].
  by destruct (__queries self).
Qed.

Lemma OrWhere_past_last (k cond : string) (val : Value) (self : JsonQuery) :
  (__query_index self = 0%Z /\ __queries self = []) \/ index_past_last self ->
  index_past_last (OrWhere k cond val self).
Proof.
  unfold index_past_last, OrWhere. simpl. rewrite length_app. simpl.
  intros [[-> ->]|[Hne ->]]; simpl.
  - done.
  - split; [|lia]. by destruct (__queries self).
Qed.

(** From a state with the index on the last group no chain fails, and the
    groups are built as intended. *)
Lemma run_calls_on_last (cs : list Call) (self : JsonQuery) :
  index_on_last self ->
  exists self',
    run_calls cs self = Ok self' /\
    __queries self' = fold_left add_call cs (__queries self) /\
    index_on_last self'.
Proof.
  revert self. induction cs as [|c cs IH]; intros self Hinv; simpl.
  - by exists self.
  - destruct c as [k cond val|k cond val].
    + rewrite (Where_on_last _ _ _ _ Hinv). simpl.
      apply IH. destruct Hinv as [Hne Hi].
      unfold index_on_last, add_call. simpl.
      destruct (exists_last Hne) as (init & g & Hq). rewrite Hi, Hq.
      rewrite last_snoc, removelast_last, !length_app. simpl.
      split; [|done]. by destruct init.
    + apply (IH (OrWhere k cond val self)). by apply OrWhere_on_last.
Qed.

(** X6.  On a builder with no group and group index 0, every chain of
    [Where] and [OrWhere] calls that starts with [Where] succeeds, and
    the groups it leaves are those of [groups_built]: each [Where] adds
    its clause to the last group, each [OrWhere] opens a new last
    group. *)
Lemma run_calls_Where_first (k cond : string) (val : Value) (cs : list Call)
  (self : JsonQuery) :
  __query_index self = 0%Z -> __queries self = [] ->
  exists self',
    run_calls (CWhere k cond val :: cs) self = Ok self' /\
    __queries self' = groups_built (CWhere k cond val :: cs).
Proof.
  intros Hi Hq. simpl. rewrite (Where_first _ _ _ _ Hi Hq). simpl.
  destruct (run_calls_on_last cs
              (set_queries [[ {| key := k; operator := cond; value := val |} ]]
                 self)) as (self' & Hrun & Hqs & _).
  { split; simpl; done. }
  exists self'. split; [done|]. by rewrite Hqs.
Qed.

(** X7.  A chain on a fresh builder that starts with [OrWhere] fails at its
    first [Where]. *)
Lemma run_calls_OrWhere_first (cs1 cs2 : list Call) (k cond : string)
  (val : Value) (self : JsonQuery) :
  (__query_index self = 0%Z /\ __queries self = []) \/ index_past_last self ->
  cs1 <> [] ->
  Forall (fun c => match c with COrWhere _ _ _ => True | _ => False end) cs1 ->
  run_calls (cs1 ++ CWhere k cond val :: cs2) self = Raise IndexError.
Proof.
  intros Hst Hne Hors. revert self Hst.
  induction Hors as [|c cs1 Hc Hors IH]; [done|]. intros self Hst.
  destruct c as [|k' cond' val']; [done|]. simpl.
  pose proof (OrWhere_past_last k' cond' val' self Hst) as Hpast.
  destruct cs1 as [|c' cs1'].
  - simpl. by rewrite (Where_past_last _ _ _ _ Hpast).
  - apply IH; [done|]. by right.
Qed.

End WhereFacts.

Section WhereExamples.
#[local] Existing Instance helper_model.

(** C7, where the code departs from it.  On a fresh builder
    [OrWhere("a", "same", 1)] makes the first group and moves the group
    index to [1], one past that group; the [Where] that follows indexes
    the groups there and raises [IndexError] instead of adding its clause
    to the current group. *)
Theorem Where_after_OrWhere_raises :
  __queries (OrWhere "a" "same" (VInt 1) (builder (VList rows))) =
    [[clause "a" "same" 1]] /\
  __query_index (OrWhere "a" "same" (VInt 1) (builder (VList rows))) = 1%Z /\
  run_calls [COrWhere "a" "same" (VInt 1); CWhere "b" "same" (VInt 2)]
    (builder (VList rows)) = Raise IndexError.
Proof. repeat split. Qed.

(** The builders of the filter examples are what the calls produce. *)
Lemma example_builders :
  Where "a" "same" (VInt 1) (builder (VList rows)) = Ok where_a1 /\
  run_calls [CWhere "a" "same" (VInt 1); CWhere "c" "same" (VInt 0);
             COrWhere "b" "same" (VInt 3)] (builder (VList rows)) =
    Ok where_a1_c0_or_b3.
Proof. split; reflexivity. Qed.

End WhereExamples.

(** ** Lifecycle *)

Section LifecycleFacts.
Context `{Helper} `{Builtins}.

(** What [More] does to each attribute: the three assignments after the
    [clear()] calls create [queryIndex], [limitRecords] and
    [distinctProperty]; the counters and the distinct key of the instance
    are not written. *)
Lemma More_fields (self : JsonQuery) :
  __root_json_content (More self) = (Get self).1 /\
  __json_content (More self) = (Get self).1 /\
  __queries (More self) = [] /\
  __attributes (More self) = [] /\
  __dropped_properties (More self) = [] /\
  __query_index (More self) = 0%Z /\
  __offset_records (More self) = __offset_records self /\
  __limit_records (More self) = __limit_records self /\
  __distinct_property (More self) = __distinct_property self /\
  queryIndex (More self) = Some 0%Z /\
  limitRecords (More self) = Some 0%Z /\
  distinctProperty (More self) = Some "".
Proof. unfold More. rewrite (Get_frame self). by repeat split. Qed.

(** [Reset], the sibling of [More], clears all of them. *)
Lemma Reset_fields (self : JsonQuery) :
  __json_content (Reset self) = __root_json_content self /\
  __queries (Reset self) = [] /\
  __attributes (Reset self) = [] /\
  __dropped_properties (Reset self) = [] /\
  __query_index (Reset self) = 0%Z /\
  __offset_records (Reset self) = 0%Z /\
  __limit_records (Reset self) = 0%Z /\
  __distinct_property (Reset self) = "".
Proof. by repeat split. Qed.

End LifecycleFacts.

Section LifecycleExamples.
#[local] Existing Instance helper_model.
#[local] Existing Instance builtins_model.

(** C6, where the code departs from it.  After [More] on a builder with
    [Offset(1)], [Limit(2)] and [Distinct("k")] pending, the view
    [[{"k": 2}, {"k": 3}]] is the new root and the groups, projection and
    drop list are empty, but the offset is still [1], the limit still [2]
    and the distinct key still ["k"]: the next [Get] applies them again
    and returns [[{"k": 3}]], not the new root. *)
Theorem More_keeps_offset_limit_distinct :
  __root_json_content (More pending_builder) =
    VList [VDict [("k", VInt 2)]; VDict [("k", VInt 3)]] /\
  __queries (More pending_builder) = [] /\
  __attributes (More pending_builder) = [] /\
  __dropped_properties (More pending_builder) = [] /\
  __query_index (More pending_builder) = 0%Z /\
  __offset_records (More pending_builder) = 1%Z /\
  __limit_records (More pending_builder) = 2%Z /\
  __distinct_property (More pending_builder) = "k" /\
  (Get (More pending_builder)).1 = VList [VDict [("k", VInt 3)]].
Proof. repeat split. Qed.

End LifecycleExamples.

(** ** Grouping *)

Section GroupByClaims.
Context `{Helper} `{Builtins}.

Lemma GroupBy_loop_unresolved (self : JsonQuery) (attr : string)
  (l : list Value) (dt : list (string * list Value))
  (d : list (string * Value)) :
  In (VDict d) l ->
  getNestedValue (VDict d) attr (__separator self) = VNone ->
  GroupBy_loop self attr l dt = None.
Proof.
  intros Hin Hnone. revert dt.
  induction l as [|a l IH]; intros dt; [done|].
  destruct Hin as [->|Hin].
  - simpl. by rewrite Hnone.
  - destruct a; simpl; try by apply IH.
    destruct (is_none _); [done|]. by apply IH.
Qed.

(** C5.  When the prepared view is a sequence that holds a mapping on
    which [attr] does not resolve, [GroupBy] returns with the instance as
    [__prepare] left it: the working view is the prepared sequence, not a
    mapping of the groups built so far. *)
Theorem GroupBy_unresolved_leaves_view (self : JsonQuery) (attr : string)
  (l : list Value) (d : list (string * Value)) :
  __json_content (__prepare self) = VList l ->
  In (VDict d) l ->
  getNestedValue (VDict d) attr (__separator self) = VNone ->
  GroupBy attr self = __prepare self /\
  __json_content (GroupBy attr self) = VList l.
Proof.
  intros Hview Hin Hnone.
  destruct (prepare_fields self) as (Hsep & _).
  assert (Hg : GroupBy attr self = __prepare self).
  { unfold GroupBy. rewrite Hview.
    rewrite (GroupBy_loop_unresolved _ attr l [] d); try done.
    by rewrite Hsep. }
  split; [done|]. by rewrite Hg.
Qed.

End GroupByClaims.

Lemma GroupBy_unresolved_leaves_view_witness :
  __json_content
    (@GroupBy helper_model builtins_model "a" (builder (VList rows))) =
  VList rows.
Proof.
  apply (@GroupBy_unresolved_leaves_view helper_model builtins_model
           (builder (VList rows)) "a" rows [("c", VInt 0)]).
  - reflexivity.
  - right. right. right. left. reflexivity.
  - reflexivity.
Defined.

(** ** Positional access *)

Section PositionalClaims.
Context `{Helper} `{Builtins}.

Lemma last_cons_default {A : Type} (z : A) (l : list A) (d d' : A) :
  List.last (z :: l) d = List.last (z :: l) d'.
Proof.
  revert z. induction l as [|w l IH]; intros z; [done|].
  change (List.last (w :: l) d = List.last (w :: l) d'). apply IH.
Qed.

Lemma lookup_last_cons {A : Type} (x : A) (l : list A) :
  (x :: l) !! length l = Some (List.last l x).
Proof.
  revert x. induction l as [|y l IH]; intros x; [done|].
  simpl length. rewrite lookup_cons. simpl. rewrite IH.
  destruct l as [|z l]; [done|].
  f_equal. apply last_cons_default.
Qed.

Lemma py_getitem_first {A : Type} (x : A) (l : list A) :
  py_getitem (x :: l) 0 = Ok x.
Proof.
  unfold py_getitem, py_index. simpl length.
  change (0 <? 0)%Z with false. cbv iota.
  assert ((0 <? Z.of_nat (S (length l)))%Z = true) as ->
    by (apply Z.ltb_lt; lia).
  done.
Qed.

Lemma py_getitem_last {A : Type} (x : A) (l : list A) :
  py_getitem (x :: l) (-1) = Ok (List.last l x).
Proof.
  unfold py_getitem, py_index. simpl length.
  assert ((-1 <? 0)%Z = true) as -> by done.
  assert ((0 <=? Z.of_nat (S (length l)) + -1)%Z = true) as ->
    by (apply Z.leb_le; lia).
  assert ((Z.of_nat (S (length l)) + -1 <? Z.of_nat (S (length l)))%Z = true)
    as -> by (apply Z.ltb_lt; lia).
  simpl.
  replace (Z.to_nat (Z.of_nat (S (length l)) + -1)) with (length l) by lia.
  by rewrite lookup_last_cons.
Qed.

Lemma last_cons {A : Type} (x : A) (l : list A) (d : A) :
  List.last (x :: l) d = List.last l x.
Proof.
  destruct l as [|y l]; [done|].
  change (List.last (y :: l) d = List.last (y :: l) x).
  apply last_cons_default.
Qed.

(** C10, as amended.  [First] and [Last] return [None] for a prepared
    view that is not a sequence; on the empty sequence both raise
    [IndexError]; on a sequence with elements they return its first and
    its last element.  So [None] comes back in two cases only: the view
    is not a sequence, or the first, resp. last, element of the sequence
    is itself [None]. *)
Theorem First_Last_empty_sequence (self : JsonQuery) :
  ((forall l, __json_content (__prepare self) <> VList l) ->
   First self = Ok (VNone, __prepare self) /\
   Last self = Ok (VNone, __prepare self)) /\
  (__json_content (__prepare self) = VList [] ->
   First self = Raise IndexError /\ Last self = Raise IndexError) /\
  (forall x l,
      __json_content (__prepare self) = VList (x :: l) ->
      First self = Ok (x, __prepare self) /\
      Last self = Ok (List.last l x, __prepare self)) /\
  (returned (First self) = Ok VNone <->
   (forall l, __json_content (__prepare self) <> VList l) \/
   exists l, __json_content (__prepare self) = VList (VNone :: l)) /\
  (returned (Last self) = Ok VNone <->
   (forall l, __json_content (__prepare self) <> VList l) \/
   exists l, __json_content (__prepare self) = VList (l ++ [VNone])).
Proof.
  assert (Hnotseq :
    (forall l, __json_content (__prepare self) <> VList l) ->
    First self = Ok (VNone, __prepare self) /\
    Last self = Ok (VNone, __prepare self)).
  { unfold First, Last. intros Hnot.
    destruct (__json_content (__prepare self)); try done.
    by destruct (Hnot l). }
  assert (Hsome : forall x l,
    __json_content (__prepare self) = VList (x :: l) ->
    First self = Ok (x, __prepare self) /\
    Last self = Ok (List.last l x, __prepare self)).
  { unfold First, Last. intros x l ->.
    by rewrite py_getitem_first, py_getitem_last. }
  assert (Hempty :
    __json_content (__prepare self) = VList [] ->
    First self = Raise IndexError /\ Last self = Raise IndexError).
  { unfold First, Last. by intros ->. }
  split; [done|]. split; [done|]. split; [done|]. split.
  - split.
    + intros Hret.
      destruct (__json_content (__prepare self)) as [| | | | |l|]
        eqn:Hview; try (by left).
      right. destruct l as [|x l].
      * destruct (Hempty eq_refl) as [HF _]. by rewrite HF in Hret.
      * destruct (Hsome x l eq_refl) as [HF _]. rewrite HF in Hret.
        injection Hret as ->. by exists l.
    + intros [Hnot|[l Hview]].
      * destruct (Hnotseq Hnot) as [HF _]. by rewrite HF.
      * destruct (Hsome VNone l Hview) as [HF _]. by rewrite HF.
  - split.
    + intros Hret.
      destruct (__json_content (__prepare self)) as [| | | | |l|]
        eqn:Hview; try (by left).
      right. destruct l as [|x l].
      * destruct (Hempty eq_refl) as [_ HL]. by rewrite HL in Hret.
      * destruct (Hsome x l eq_refl) as [_ HL]. rewrite HL in Hret.
        injection Hret as Hlast.
        exists (removelast (x :: l)).
        rewrite <- Hlast, <- (last_cons x l VNone).
        by rewrite <- app_removelast_last.
    + intros [Hnot|[l Hview]].
      * destruct (Hnotseq Hnot) as [_ HL]. by rewrite HL.
      * destruct l as [|x l].
        -- destruct (Hsome VNone [] Hview) as [_ HL]. by rewrite HL.
        -- destruct (Hsome x (l ++ [VNone]) Hview) as [_ HL].
           rewrite HL. simpl. by rewrite last_last.
Qed.

End PositionalClaims.

(** The claim of C10 read as it stands fails on a sequence that begins,
    resp. ends, with [null]: [First] on [[null, 1]] and [Last] on
    [[1, null]] return [None], and the view is a sequence. *)
Lemma First_Last_none_on_sequence :
  ~ @First_none_only_off_sequence helper_model builtins_model null_then_one /\
  ~ @Last_none_only_off_sequence helper_model builtins_model one_then_null.
Proof.
  split; intros Hclaim.
  - by apply (Hclaim eq_refl [VNone; VInt 1]).
  - by apply (Hclaim eq_refl [VInt 1; VNone]).
Qed.

Lemma First_Last_empty_sequence_witness :
  @First helper_model builtins_model where_a1_or_bogus = Raise IndexError /\
  @Last helper_model builtins_model where_a1_or_bogus = Raise IndexError /\
  @First helper_model builtins_model
    (builder (VDict [("a", VList [])])) =
    Ok (VNone, @__prepare helper_model builtins_model
                 (builder (VDict [("a", VList [])]))) /\
  @Last helper_model builtins_model where_a1 =
    Ok (VDict [("a", VInt 1)],
        @__prepare helper_model builtins_model where_a1) /\
  returned (@First helper_model builtins_model null_then_one) = Ok VNone.
Proof.
  pose proof (@First_Last_empty_sequence helper_model builtins_model
                where_a1_or_bogus) as (_ & Hempty & _).
  pose proof (@First_Last_empty_sequence helper_model builtins_model
                (builder (VDict [("a", VList [])]))) as (Hnot & _ & _).
  pose proof (@First_Last_empty_sequence helper_model builtins_model
                where_a1) as (_ & _ & Hsome & _).
  split; [apply Hempty; reflexivity|].
  split; [apply Hempty; reflexivity|].
  split; [|split].
  - apply Hnot. intros l Hl. vm_compute in Hl. discriminate Hl.
  - apply (Hsome (VDict [("a", VInt 1)]) []). reflexivity.
  - pose proof (@First_Last_empty_sequence helper_model builtins_model
                  null_then_one) as (_ & _ & _ & HFirst & _).
    apply HFirst. right. exists [VInt 1]. reflexivity.
Defined.

(** ** Sorting *)

Section SortClaims.
Context `{Helper} `{Builtins}.

Lemma sort_keys_snd (keyf : Value -> Res Value) (l : list Value)
  (kl : list (Value * Value)) :
  sort_keys keyf l = Ok kl -> map snd kl = l.
Proof.
  revert kl. induction l as [|x l IH]; intros kl; simpl.
  - by intros [= <-].
  - destruct (keyf x) as [k|e]; simpl; [|done].
    destruct (sort_keys keyf l) as [r|e]; simpl; [|done].
    intros [= <-]. simpl. by rewrite (IH r).
Qed.

(** Every pair of [sort_keys] holds the key of its item. *)
Lemma sort_keys_fst (keyf : Value -> Res Value) (l : list Value)
  (kl : list (Value * Value)) :
  sort_keys keyf l = Ok kl -> Forall (fun kx => keyf kx.2 = Ok kx.1) kl.
Proof.
  revert kl. induction l as [|x l IH]; intros kl; simpl.
  - intros [= <-]. constructor.
  - destruct (keyf x) as [k|e] eqn:Hk; simpl; [|done].
    destruct (sort_keys keyf l) as [r|e]; simpl; [|done].
    intros [= <-]. constructor; [done|]. by apply IH.
Qed.

Lemma well_ordered_incl (ks ks' : list Value) :
  (forall a, In a ks' -> In a ks) -> well_ordered ks -> well_ordered ks'.
Proof.
  intros Hincl (Hans & Hirr & Htrans & Hneg).
  split; [|split; [|split]].
  - intros a b Ha Hb. apply Hans; by apply Hincl.
  - intros a Ha. apply Hirr; by apply Hincl.
  - intros a b c Ha Hb Hc. apply Htrans; by apply Hincl.
  - intros a b c Ha Hb Hc. apply Hneg; by apply Hincl.
Qed.

Lemma ordered_rev (s : list (Value * Value)) :
  ordered false s -> ordered true (rev s).
Proof.
  unfold ordered. induction 1 as [|x s Hs IH Hx]; simpl; [constructor|].
  apply StronglySorted_app_2; [|done|by repeat constructor].
  intros y x' Hy Hx'. apply list_elem_of_singleton in Hx' as ->.
  apply list_elem_of_In, in_rev in Hy.
  by apply (proj1 (List.Forall_forall _ _) Hx).
Qed.

Lemma ties_kept_rev (kl s : list (Value * Value)) :
  ties_kept (rev kl) s -> ties_kept kl (rev s).
Proof.
  intros Hties k Hk.
  rewrite filter_rev, Hties, filter_rev, rev_involutive; [done|].
  rewrite map_rev. by apply in_rev in Hk.
Qed.

(** A sort that returns has rearranged the list it was given. *)
Lemma py_sorted_perm (keyf : option (Value -> Res Value)) (reverse : bool)
  (l l' : list Value) :
  list_sort_contract ->
  py_sorted keyf reverse l = Ok l' -> Permutation l l'.
Proof.
  intros [Hperm _]. unfold py_sorted.
  destruct (sort_keys _ l) as [kl|e] eqn:Hkeys; simpl; [|done].
  destruct (list_sort _) as [s|e] eqn:Hsort; simpl; [|done].
  intros [= <-].
  apply sort_keys_snd in Hkeys. apply Hperm in Hsort.
  rewrite <- Hkeys. apply Permutation_map.
  destruct reverse.
  - by rewrite <- Permutation_rev, <- Hsort, <- Permutation_rev.
  - done.
Qed.

(** On well-ordered keys the sort returns, and what it returns is ordered
    by key, ascending or descending, with equal keys in their original
    order. *)
Lemma py_sorted_ordered (keyf : option (Value -> Res Value)) (reverse : bool)
  (l : list Value) (kl : list (Value * Value)) :
  list_sort_contract ->
  sort_keys (default Ok keyf) l = Ok kl ->
  well_ordered (map fst kl) ->
  exists s, py_sorted keyf reverse l = Ok (map snd s) /\
            Permutation kl s /\ ordered reverse s /\ ties_kept kl s.
Proof.
  intros [Hperm Hstable] Hkeys Hwo. unfold py_sorted.
  assert (Hkeyf : match keyf with Some f => f | None => Ok end =
                  default Ok keyf) by by destruct keyf.
  rewrite Hkeyf, Hkeys. simpl. destruct reverse.
  - destruct (Hstable (rev kl)) as (s & Hsort & Hord & Hties).
    { apply (well_ordered_incl (map fst kl)); [|done].
      intros a. rewrite map_rev. apply in_rev. }
    rewrite Hsort. simpl. exists (rev s). split; [done|].
    split; [|split].
    + apply Hperm in Hsort.
      by rewrite <- Permutation_rev, <- Hsort, <- Permutation_rev.
    + by apply ordered_rev.
    + by apply ties_kept_rev.
  - destruct (Hstable kl Hwo) as (s & Hsort & Hord & Hties).
    rewrite Hsort. simpl. exists s. split; [done|].
    split; [by apply Hperm|]. by split.
Qed.


End SortClaims.

(** The insertion sort of the examples keeps the contract. *)

Section InsertionSort.
#[local] Existing Instance builtins_model.
Variable ks : list Value.
Hypothesis Hwo : well_ordered ks.

Lemma lt_answers (a b : Value) :
  In a ks -> In b ks -> py_lt_model a b = Ok (key_lt a b).
Proof.
  intros Ha Hb. destruct Hwo as (Hans & _).
  destruct (Hans a b Ha Hb) as [r Hr].
  change (py_lt_model a b = Ok r) in Hr.
  unfold key_lt. change (py_lt a b) with (py_lt_model a b).
  rewrite Hr. by destruct r.
Qed.

Lemma lt_asym (a b : Value) :
  In a ks -> In b ks -> key_lt a b = true -> key_lt b a = false.
Proof.
  intros Ha Hb Hab. destruct Hwo as (_ & Hirr & Htrans & _).
  destruct (key_lt b a) eqn:Hba; [|done].
  pose proof (Htrans a b a Ha Hb Ha Hab Hba) as Haa.
  by rewrite (Hirr a Ha) in Haa.
Qed.

Lemma filter_none {A : Type} (p : A -> bool) (l : list A) :
  Forall (fun x => p x = false) l -> List.filter p l = [].
Proof.
  induction 1 as [|x l Hx _ IH]; simpl; [done|]. by rewrite Hx.
Qed.

Lemma sort_insert_ok (kx : Value * Value) (s : list (Value * Value)) :
  In kx.1 ks -> Forall (fun x => In x.1 ks) s -> ordered false s ->
  exists s',
    sort_insert kx s = Ok s' /\ ordered false s' /\
    Permutation (kx :: s) s' /\
    forall k, In k ks ->
              List.filter (fun x => same_rank k x.1) s' =
              List.filter (fun x => same_rank k x.1) s ++
              List.filter (fun x => same_rank k x.1) [kx].
Proof.
  intros Hkx. destruct Hwo as (_ & Hirr & Htrans & Hneg).
  induction s as [|ky rest IH]; intros Hks Hord.
  - exists [kx]. split; [done|]. split; [|by split].
    unfold ordered. by repeat constructor.
  - apply Forall_cons in Hks as [Hky Hrest].
    unfold ordered in Hord. apply StronglySorted_inv in Hord as [Hord Hall].
    cbn [sort_insert]. rewrite (lt_answers _ _ Hkx Hky).
    destruct (key_lt kx.1 ky.1) eqn:Hlt; simpl.
    + exists (kx :: ky :: rest). split; [done|].
      assert (Hyx : key_lt ky.1 kx.1 = false) by by apply lt_asym.
      split; [|split; [done|]].
      * unfold ordered. constructor; [by constructor|].
        constructor; [done|].
        apply List.Forall_forall. intros z Hz.
        pose proof (proj1 (List.Forall_forall _ _) Hall z Hz) as Hzy.
        pose proof (proj1 (List.Forall_forall _ _) Hrest z Hz) as Hzk.
        simpl in Hzy. by apply (Hneg z.1 ky.1 kx.1).
      * intros k Hk. cbn [List.filter app].
        destruct (same_rank k kx.1) eqn:Hrank; [|by rewrite app_nil_r].
        apply andb_prop in Hrank as [Hkx1 Hkx2].
        apply negb_true_iff in Hkx1, Hkx2.
        assert (Hnone : forall z : Value * Value,
                   In z.1 ks -> key_lt z.1 ky.1 = false ->
                                  same_rank k z.1 = false).
        { intros z Hzk Hzy. destruct (same_rank k z.1) eqn:Hz; [|done].
          apply andb_prop in Hz as [Hz1 Hz2].
          apply negb_true_iff in Hz1, Hz2.
          pose proof (Hneg kx.1 k z.1 Hkx Hk Hzk Hkx2 Hz1) as Hxz.
          pose proof (Hneg kx.1 z.1 ky.1 Hkx Hzk Hky Hxz Hzy) as Hxy.
          congruence. }
        rewrite (Hnone ky Hky (Hirr _ Hky)).
        rewrite filter_none; [done|].
        apply List.Forall_forall. intros z Hz.
        apply Hnone.
        -- by apply (proj1 (List.Forall_forall _ _) Hrest z).
        -- by apply (proj1 (List.Forall_forall _ _) Hall z).
    + destruct (IH Hrest Hord) as (r & Hins & Hord' & Hperm & Hfilter).
      rewrite Hins. simpl. exists (ky :: r). split; [done|].
      split; [|split].
      * unfold ordered. constructor; [done|].
        rewrite <- Hperm. by constructor.
      * by rewrite <- Hperm, perm_swap.
      * intros k Hk. cbn [List.filter]. rewrite (Hfilter k Hk).
        by destruct (same_rank k ky.1).
Qed.

Lemma sort_keyed_ok (l s : list (Value * Value)) :
  Forall (fun x => In x.1 ks) l -> Forall (fun x => In x.1 ks) s ->
  ordered false s ->
  exists s',
    sort_keyed l s = Ok s' /\ ordered false s' /\
    Permutation (l ++ s) s' /\
    forall k, In k ks ->
              List.filter (fun x => same_rank k x.1) s' =
              List.filter (fun x => same_rank k x.1) s ++
              List.filter (fun x => same_rank k x.1) l.
Proof.
  revert s. induction l as [|kx l IH]; intros s Hl Hs Hord.
  - exists s. split; [done|]. split; [done|]. split; [done|].
    intros k _. by rewrite app_nil_r.
  - apply Forall_cons in Hl as [Hkx Hl].
    destruct (sort_insert_ok kx s Hkx Hs Hord)
      as (s1 & Hins & Hord1 & Hperm1 & Hfilter1).
    assert (Hs1 : Forall (fun x => In x.1 ks) s1).
    { rewrite <- Hperm1. by constructor. }
    destruct (IH s1 Hl Hs1 Hord1) as (s' & Hsort & Hord' & Hperm & Hfilter).
    cbn [sort_keyed]. rewrite Hins. simpl. exists s'.
    split; [done|]. split; [done|]. split.
    + rewrite <- Hperm, <- Hperm1. simpl.
      by rewrite Permutation_middle.
    + intros k Hk. rewrite (Hfilter k Hk), (Hfilter1 k Hk).
      rewrite <- app_assoc. f_equal.
      cbn [List.filter]. by destruct (same_rank k kx.1).
Qed.

End InsertionSort.

Lemma sort_insert_perm (kx : Value * Value) (s s' : list (Value * Value)) :
  sort_insert kx s = Ok s' -> Permutation (kx :: s) s'.
Proof.
  revert s'. induction s as [|ky s IH]; intros s'; simpl.
  - by intros [= <-].
  - destruct (py_lt_model kx.1 ky.1) as [[|]|e]; simpl; try done.
    + by intros [= <-].
    + destruct (sort_insert kx s) as [r|e]; simpl; [|done].
      intros [= <-]. rewrite perm_swap. constructor. by apply IH.
Qed.

Lemma sort_keyed_perm (l s s' : list (Value * Value)) :
  sort_keyed l s = Ok s' -> Permutation (l ++ s) s'.
Proof.
  revert s s'. induction l as [|kx l IH]; intros s s'; simpl.
  - by intros [= <-].
  - destruct (sort_insert kx s) as [r|e] eqn:Hins; simpl; [|done].
    intros Hrest. apply IH in Hrest. rewrite <- Hrest.
    apply sort_insert_perm in Hins. rewrite <- Hins.
    by rewrite Permutation_middle.
Qed.

(** The comparison phase of the examples keeps the contract. *)
Lemma insertion_sort_contract : @list_sort_contract builtins_model.
Proof.
  split.
  - intros kl s Hsort. change (sort_keyed kl [] = Ok s) in Hsort.
    apply sort_keyed_perm in Hsort. by rewrite app_nil_r in Hsort.
  - intros kl Hwo.
    destruct (sort_keyed_ok (map fst kl) Hwo kl [])
      as (s & Hsort & Hord & _ & Hfilter).
    + apply List.Forall_forall. intros x Hx. by apply in_map.
    + constructor.
    + constructor.
    + exists s. split; [done|]. split; [done|].
      intros k Hk. by rewrite (Hfilter k Hk).
Qed.

Section SortExamples.
#[local] Existing Instance helper_model.
#[local] Existing Instance builtins_model.

(** With [Where("b", "same", 0)] pending, [Sort] on ["a"] returns the two
    rows that pass the filter, [SortBy("a")] all three. *)
Lemma Sort_vs_SortBy_example :
  (s ← Sort (Some (itemgetter "a")) false unsorted_where_b0;
   Ok (__json_content s)) =
    Ok (VList [ VDict [("a", VInt 1); ("b", VInt 0)];
                VDict [("a", VInt 3); ("b", VInt 0)] ]) /\
  (s ← SortBy "a" false unsorted_where_b0; Ok (__json_content s)) =
    Ok (VList [ VDict [("a", VInt 1); ("b", VInt 0)];
                VDict [("a", VInt 2); ("b", VInt 1)];
                VDict [("a", VInt 3); ("b", VInt 0)] ]) /\
  (s ← SortBy "a" true unsorted_where_b0; Ok (__json_content s)) =
    Ok (VList [ VDict [("a", VInt 3); ("b", VInt 0)];
                VDict [("a", VInt 2); ("b", VInt 1)];
                VDict [("a", VInt 1); ("b", VInt 0)] ]).
Proof. repeat split. Qed.

(** Integer keys are well-ordered. *)
Lemma ints_well_ordered (zs : list Z) : well_ordered (map VInt zs).
Proof.
  assert (Hlt : forall x y, key_lt (VInt x) (VInt y) = (x <? y)%Z).
  { intros x y. unfold key_lt. simpl. rewrite Z.min_id, Z.sub_diag.
    rewrite !Z.mul_1_r. unfold Z.ltb. by destruct (x ?= y)%Z. }
  split; [|split; [|split]].
  - intros a b Ha Hb.
    apply in_map_iff in Ha as (x & <- & _).
    apply in_map_iff in Hb as (y & <- & _). by eexists.
  - intros a Ha. apply in_map_iff in Ha as (x & <- & _).
    rewrite Hlt. apply Z.ltb_irrefl.
  - intros a b c Ha Hb Hc.
    apply in_map_iff in Ha as (x & <- & _).
    apply in_map_iff in Hb as (y & <- & _).
    apply in_map_iff in Hc as (z & <- & _).
    rewrite !Hlt, !Z.ltb_lt. lia.
  - intros a b c Ha Hb Hc.
    apply in_map_iff in Ha as (x & <- & _).
    apply in_map_iff in Hb as (y & <- & _).
    apply in_map_iff in Hc as (z & <- & _).
    rewrite !Hlt, !Z.ltb_ge. lia.
Qed.


End SortExamples.

(** ** Aggregation *)

Section AggregationClaims.
Context `{Helper} `{Builtins}.

Lemma getAggregationValues_view (properties : list string) (self : JsonQuery) :
  __getAggregationValues properties self =
  match __json_content (aggregation_view self) with
  | VList json_list =>
      floats ← __getFloatValFromArray json_list properties;
      Ok (floats, aggregation_view self)
  | VDict json_dict =>
      match properties with
      | [] => Ok ([], aggregation_view self)
      | p :: _ =>
          match dict_get json_dict p with
          | None => Ok ([], aggregation_view self)
          | Some v =>
              if is_none v then Ok ([], aggregation_view self)
              else if is_float_or_int v
              then f ← py_float v; Ok ([f], aggregation_view self)
              else Ok ([], aggregation_view self)
          end
      end
  | _ => Ok ([], aggregation_view self)
  end.
Proof. reflexivity. Qed.

Lemma py_float_raise (v : Value) (e : PyExn) :
  is_float_or_int v = true -> py_float v = Raise e -> e = OverflowError.
Proof.
  destruct v as [|b|z|f|s|l|d]; simpl; try done.
  unfold float_of_int. destruct (PrimFloat.is_infinity _); [|done].
  by intros _ [= <-].
Qed.

Lemma py_float_in_range (v : Value) :
  is_float_or_int v = true -> in_float_range v = true ->
  exists f, py_float v = Ok f.
Proof.
  destruct v as [|b|z|f|s|l|d]; simpl; try done.
  - intros _ _. by eexists.
  - intros _. destruct (float_of_int z); [by eexists|done].
  - intros _ _. by eexists.
Qed.

(** One offending mapping empties the collection, whatever was collected
    before it; the only other way out of the loop is an integer that does
    not fit a float. *)
Lemma getFloatValFromArray_loop_offending (l : list Value)
  (properties : list string) (d : list (string * Value))
  (floats : list float) :
  In (VDict d) l -> lacks_number properties d = true ->
  (getFloatValFromArray_loop l properties floats = Ok [] \/
   getFloatValFromArray_loop l properties floats = Raise OverflowError) /\
  (Forall (fun a => in_float_range (selected properties a) = true) l ->
   getFloatValFromArray_loop l properties floats = Ok []).
Proof.
  intros Hin Hlacks. revert floats.
  induction l as [|a l IH]; intros floats; [done|].
  assert (Hrange_tl :
    Forall (fun a => in_float_range (selected properties a) = true) (a :: l) ->
    in_float_range (selected properties a) = true /\
    Forall (fun a => in_float_range (selected properties a) = true) l).
  { intros Hall. by inversion Hall. }
  simpl. destruct (is_float_or_int a) eqn:Hnum.
  - destruct Hin as [->|Hin]; [done|].
    destruct properties as [|p ps]; simpl; [|by split; [left|]].
    destruct (py_float a) as [f|e] eqn:Hf; simpl.
    + destruct (IH Hin (floats ++ [f])) as [IH1 IH2].
      split; [done|]. intros Hall. apply IH2. by apply Hrange_tl.
    + pose proof Hf as Hf'. apply py_float_raise in Hf' as ->; [|done].
      split; [by right|]. intros Hall. apply Hrange_tl in Hall as [Ha _].
      assert (selected [] a = a) as Hsel by (by destruct a).
      rewrite Hsel in Ha.
      destruct (py_float_in_range a Hnum Ha) as [f Hok]. congruence.
  - destruct a as [| | | | | |js_dict]; try (destruct Hin as [[=]|Hin]; by
      destruct (IH Hin floats) as [IH1 IH2]; split; [done|];
      intros Hall; apply IH2; apply Hrange_tl).
    destruct properties as [|p ps]; [by split; [left|]|].
    destruct (dict_get js_dict p) as [dv|] eqn:Hget; [|by split; [left|]].
    destruct (is_float_or_int dv) eqn:Hdv;
      [|rewrite andb_false_r; by split; [left|]].
    destruct (is_none dv) eqn:Hnone; [by destruct dv|]. simpl.
    destruct Hin as [[= ->]|Hin].
    { simpl in Hlacks. by rewrite Hget, Hdv in Hlacks. }
    destruct (py_float dv) as [f|e] eqn:Hf; simpl.
    + destruct (IH Hin (floats ++ [f])) as [IH1 IH2].
      split; [done|]. intros Hall. apply IH2. by apply Hrange_tl.
    + pose proof Hf as Hf'. apply py_float_raise in Hf' as ->; [|done].
      split; [by right|]. intros Hall. apply Hrange_tl in Hall as [Ha _].
      simpl in Ha. rewrite Hget in Ha. simpl in Ha.
      destruct (py_float_in_range dv Hdv Ha) as [f Hok]. congruence.
Qed.

(** The reductions on an empty value set. *)
Lemma aggregates_of_empty (properties : list string) (self self' : JsonQuery) :
  __getAggregationValues properties self = Ok ([], self') ->
  Sum properties self = Ok (VInt 0, self') /\
  Avg properties self = Raise ZeroDivisionError /\
  Min properties self = Raise ValueError /\
  Max properties self = Raise ValueError.
Proof. intros Hv. unfold Sum, Avg, Min, Max. by rewrite Hv. Qed.

Lemma selected_scalar (properties : list string) (a : Value) :
  is_dict a = false -> selected properties a = a.
Proof. by destruct a. Qed.

(** One turn of the loop: an element that ends the collection, one whose
    conversion overflows, and one the loop goes past. *)
Lemma getFloatValFromArray_loop_ends (a : Value) (rest : list Value)
  (properties : list string) (floats : list float) :
  ends_collection properties a = true ->
  getFloatValFromArray_loop (a :: rest) properties floats = Ok [].
Proof.
  intros Hends. cbn [getFloatValFromArray_loop].
  destruct a as [|b|z|f|s|l|js_dict]; simpl in Hends |- *; try done;
    try (by rewrite Hends).
  destruct properties as [|p ps]; [done|]. simpl in Hends.
  destruct (dict_get js_dict p) as [dv|]; [|done].
  apply negb_true_iff in Hends. by rewrite Hends, andb_false_r.
Qed.

Lemma getFloatValFromArray_loop_overflow (a : Value) (rest : list Value)
  (properties : list string) (floats : list float) :
  ends_collection properties a = false ->
  in_float_range (selected properties a) = false ->
  getFloatValFromArray_loop (a :: rest) properties floats =
  Raise OverflowError.
Proof.
  intros Hends Hrange. cbn [getFloatValFromArray_loop].
  destruct a as [|b|z|f|s|l|js_dict]; simpl in Hends, Hrange |- *;
    try done.
  - rewrite Hends.
    destruct (float_of_int z) as [f|e] eqn:Hf; [done|]. simpl.
    by rewrite (py_float_raise (VInt z) e eq_refl Hf).
  - destruct properties as [|p ps]; [done|]. simpl in Hends, Hrange.
    destruct (dict_get js_dict p) as [dv|]; [|done].
    apply negb_false_iff in Hends. rewrite Hends.
    destruct dv as [|b|z|f|s|l|d']; simpl in Hrange |- *; try done.
    destruct (float_of_int z) as [f|e] eqn:Hf; [done|]. simpl.
    by rewrite (py_float_raise (VInt z) e eq_refl Hf).
Qed.

Lemma getFloatValFromArray_loop_next (a : Value) (rest : list Value)
  (properties : list string) (floats : list float) :
  ends_collection properties a = false ->
  in_float_range (selected properties a) = true ->
  exists floats',
    getFloatValFromArray_loop (a :: rest) properties floats =
    getFloatValFromArray_loop rest properties floats'.
Proof.
  intros Hends Hrange. cbn [getFloatValFromArray_loop].
  destruct (is_float_or_int a) eqn:Hnum.
  - assert (Hlen : (0 <? length properties)%nat = false).
    { destruct a; simpl in Hends, Hnum; try done. }
    rewrite Hlen.
    rewrite selected_scalar in Hrange by (by destruct a).
    destruct (py_float_in_range a Hnum Hrange) as [f ->]. by eexists.
  - destruct a as [| | | | | |js_dict]; try (by eexists).
    destruct properties as [|p ps]; [done|]. simpl in Hends, Hrange.
    destruct (dict_get js_dict p) as [dv|]; [|done].
    apply negb_false_iff in Hends. simpl in Hrange.
    assert (Hnone : is_none dv = false) by (by destruct dv).
    rewrite Hnone, Hends. simpl.
    destruct (py_float_in_range dv Hends Hrange) as [f ->]. by eexists.
Qed.

(** Before an element that ends the collection only what the loop has
    already converted matters. *)
Lemma getFloatValFromArray_loop_prefix (pre : list Value) (a : Value)
  (post : list Value) (properties : list string) (floats : list float) :
  Forall (fun x => in_float_range (selected properties x) = true) pre ->
  ends_collection properties a = true ->
  getFloatValFromArray_loop (pre ++ a :: post) properties floats = Ok [].
Proof.
  intros Hpre Hends. revert floats.
  induction Hpre as [|x pre Hx _ IH]; intros floats.
  - by apply getFloatValFromArray_loop_ends.
  - change ((x :: pre) ++ a :: post) with (x :: (pre ++ a :: post)).
    destruct (ends_collection properties x) eqn:Hx'.
    + by apply getFloatValFromArray_loop_ends.
    + destruct (getFloatValFromArray_loop_next x (pre ++ a :: post)
                  properties floats Hx' Hx) as [floats' ->].
      apply IH.
Qed.

Lemma getFloatValFromArray_loop_fatal (pre : list Value) (b : Value)
  (post : list Value) (properties : list string) (floats : list float) :
  Forall (fun x => ends_collection properties x = false /\
                   in_float_range (selected properties x) = true) pre ->
  ends_collection properties b = false ->
  in_float_range (selected properties b) = false ->
  getFloatValFromArray_loop (pre ++ b :: post) properties floats =
  Raise OverflowError.
Proof.
  intros Hpre Hends Hrange. revert floats.
  induction Hpre as [|x pre [Hx1 Hx2] _ IH]; intros floats.
  - by apply getFloatValFromArray_loop_overflow.
  - change ((x :: pre) ++ b :: post) with (x :: (pre ++ b :: post)).
    destruct (getFloatValFromArray_loop_next x (pre ++ b :: post)
                properties floats Hx1 Hx2) as [floats' ->].
    apply IH.
Qed.

(** An overflow before an element that ends the collection comes from an
    element the loop has reached. *)
Lemma getFloatValFromArray_loop_fatal_inv (pre : list Value) (a : Value)
  (post : list Value) (properties : list string) (floats : list float) :
  ends_collection properties a = true ->
  getFloatValFromArray_loop (pre ++ a :: post) properties floats =
  Raise OverflowError ->
  overflows_in properties pre.
Proof.
  intros Hends. revert floats.
  induction pre as [|x pre IH]; intros floats.
  - simpl app. by rewrite getFloatValFromArray_loop_ends.
  - change ((x :: pre) ++ a :: post) with (x :: (pre ++ a :: post)).
    destruct (ends_collection properties x) eqn:Hx.
    { by rewrite getFloatValFromArray_loop_ends. }
    destruct (in_float_range (selected properties x)) eqn:Hrange.
    + destruct (getFloatValFromArray_loop_next x (pre ++ a :: post)
                  properties floats Hx Hrange) as [floats' ->].
      intros Hloop. destruct (IH floats' Hloop)
        as (pre1 & b & pre2 & -> & Hpre1 & Hb1 & Hb2).
      exists (x :: pre1), b, pre2. split; [done|].
      split; [by constructor|done].
    + intros _. exists [], x, pre. by repeat split.
Qed.

(** C4, as amended.  The values are collected from the prepared view
    after distinct and limit have been applied once more.  When that view
    is a sequence holding a mapping to which no property name applies,
    which lacks the first supplied property, or which holds there a value
    that is neither an [int], a [float] nor a [bool], the collection never
    yields a non-empty set.  It yields the empty set when every integer
    met before that mapping fits a float, whatever comes after it; it
    raises [OverflowError] exactly when the loop reaches, before that
    mapping, an integer too large for a float, and then the four
    reductions raise it too.  On the empty set [Sum] returns the integer
    zero, [Avg] raises [ZeroDivisionError] and [Min] and [Max] raise
    [ValueError]. *)
Theorem aggregation_all_or_nothing (self : JsonQuery)
  (properties : list string) (pre post : list Value)
  (d : list (string * Value)) :
  __json_content (aggregation_view self) = VList (pre ++ VDict d :: post) ->
  lacks_number properties d = true ->
  (forall fs self',
      __getAggregationValues properties self = Ok (fs, self') -> fs = []) /\
  (__getAggregationValues properties self = Ok ([], aggregation_view self) \/
   __getAggregationValues properties self = Raise OverflowError) /\
  (Forall (fun a => in_float_range (selected properties a) = true) pre ->
   __getAggregationValues properties self = Ok ([], aggregation_view self) /\
   Sum properties self = Ok (VInt 0, aggregation_view self) /\
   Avg properties self = Raise ZeroDivisionError /\
   Min properties self = Raise ValueError /\
   Max properties self = Raise ValueError) /\
  (__getAggregationValues properties self = Raise OverflowError <->
   overflows_in properties pre) /\
  (__getAggregationValues properties self = Raise OverflowError ->
   Sum properties self = Raise OverflowError /\
   Avg properties self = Raise OverflowError /\
   Min properties self = Raise OverflowError /\
   Max properties self = Raise OverflowError) /\
  (forall self',
      __getAggregationValues properties self = Ok ([], self') ->
      Sum properties self = Ok (VInt 0, self') /\
      Avg properties self = Raise ZeroDivisionError /\
      Min properties self = Raise ValueError /\
      Max properties self = Raise ValueError).
Proof.
  intros Hview Hlacks.
  assert (Hin : In (VDict d) (pre ++ VDict d :: post)) by apply in_elt.
  destruct (getFloatValFromArray_loop_offending _ properties d [] Hin Hlacks)
    as [Hloop _].
  assert (Hvalues :
    __getAggregationValues properties self =
    (floats ← __getFloatValFromArray (pre ++ VDict d :: post) properties;
     Ok (floats, aggregation_view self))).
  { by rewrite getAggregationValues_view, Hview. }
  unfold __getFloatValFromArray in Hvalues.
  split; [|split; [|split; [|split; [|split]]]].
  - intros fs self'. rewrite Hvalues.
    destruct Hloop as [-> | ->]; simpl; [|done]. by intros [= <- _].
  - rewrite Hvalues. destruct Hloop as [-> | ->]; simpl; [by left|by right].
  - intros Hrange.
    assert (Hempty : __getAggregationValues properties self =
                     Ok ([], aggregation_view self)).
    { rewrite Hvalues.
      by rewrite (getFloatValFromArray_loop_prefix pre (VDict d) post
                    properties [] Hrange Hlacks). }
    split; [done|]. by apply aggregates_of_empty.
  - rewrite Hvalues. split.
    + intros Hraise.
      apply (getFloatValFromArray_loop_fatal_inv pre (VDict d) post
               properties [] Hlacks).
      destruct (getFloatValFromArray_loop (pre ++ VDict d :: post)
                  properties []) as [fs|e]; simpl in Hraise; [done|].
      by injection Hraise as ->.
    + intros (pre1 & b & pre2 & -> & Hpre1 & Hends & Hrange).
      rewrite <- app_assoc.
      change ((b :: pre2) ++ VDict d :: post)
        with (b :: (pre2 ++ VDict d :: post)).
      by rewrite (getFloatValFromArray_loop_fatal pre1 b _ properties []
                    Hpre1 Hends Hrange).
  - intros Hfatal. unfold Sum, Avg, Min, Max. by rewrite Hfatal.
  - intros self'. apply aggregates_of_empty.
Qed.

End AggregationClaims.

Section AggregationExamples.
#[local] Existing Instance helper_model.
#[local] Existing Instance builtins_model.

(** The claim of C4 read as it stands fails in three ways.  [{"p": true}]
    holds a boolean, not a number, under ["p"], and [True] is collected as
    [1.0]; in [[{"p": 1}, {"q": 2}]] the second mapping lacks ["p"], and
    with [Limit(1)] it is cut off before the collection, which yields
    [[1.0]]; in [[{"p": 2**1024}, {"q": 1}]] the conversion of the first
    value raises [OverflowError] before the second mapping is met. *)
Lemma aggregation_prepared_view_not_all_or_nothing :
  ~ prepared_all_or_nothing true_row ["p"] /\
  ~ prepared_all_or_nothing p_then_q_limit1 ["p"] /\
  ~ prepared_all_or_nothing huge_then_q ["p"].
Proof.
  split; [|split].
  - intros Hclaim.
    destruct (Hclaim [VDict [("p", VBool true)]]) as [self' Hv].
    + reflexivity.
    + intros a [<-|[]]. by eexists.
    + exists [("p", VBool true)]. split; [by left|].
      exists "p". split; [done|]. right. by exists (VBool true).
    + vm_compute in Hv. discriminate Hv.
  - intros Hclaim.
    destruct (Hclaim [VDict [("p", VInt 1)]; VDict [("q", VInt 2)]])
      as [self' Hv].
    + reflexivity.
    + intros a [<-|[<-|[]]]; by eexists.
    + exists [("q", VInt 2)]. split; [by right; left|].
      exists "p". split; [done|]. by left.
    + vm_compute in Hv. discriminate Hv.
  - intros Hclaim.
    destruct (Hclaim [VDict [("p", VInt (2 ^ 1024))]; VDict [("q", VInt 1)]])
      as [self' Hv].
    + reflexivity.
    + intros a [<-|[<-|[]]]; by eexists.
    + exists [("q", VInt 1)]. split; [by right; left|].
      exists "p". split; [done|]. by left.
    + vm_compute in Hv. discriminate Hv.
Qed.

Lemma aggregation_examples :
  (r ← Sum ["p"] true_row; Ok r.1) = Ok (VFloat 1) /\
  (r ← Sum ["p"] p_then_q_limit1; Ok r.1) = Ok (VFloat 1) /\
  (r ← Sum ["p"] (Limit 0 p_then_q_limit1); Ok r.1) = Ok (VInt 0) /\
  (r ← Sum ["p"] huge_then_q; Ok r.1) = Raise OverflowError.
Proof. repeat split. Qed.

Lemma aggregation_all_or_nothing_witness :
  (Sum ["p"] (Limit 0 p_then_q_limit1) =
     Ok (VInt 0, aggregation_view (Limit 0 p_then_q_limit1)) /\
   Avg ["p"] (Limit 0 p_then_q_limit1) = Raise ZeroDivisionError /\
   Min ["p"] (Limit 0 p_then_q_limit1) = Raise ValueError /\
   Max ["p"] (Limit 0 p_then_q_limit1) = Raise ValueError) /\
  Sum ["p"] q_then_huge = Ok (VInt 0, aggregation_view q_then_huge) /\
  Sum ["p"] huge_then_q = Raise OverflowError.
Proof.
  pose proof (aggregation_all_or_nothing (Limit 0 p_then_q_limit1) ["p"]
                [VDict [("p", VInt 1)]] [] [("q", VInt 2)]
                eq_refl eq_refl) as (_ & _ & Hempty & _).
  pose proof (aggregation_all_or_nothing q_then_huge ["p"]
                [] [VDict [("p", VInt (2 ^ 1024))]] [("q", VInt 1)]
                eq_refl eq_refl) as (_ & _ & Hfirst & _).
  pose proof (aggregation_all_or_nothing huge_then_q ["p"]
                [VDict [("p", VInt (2 ^ 1024))]] [] [("q", VInt 1)]
                eq_refl eq_refl) as (_ & _ & _ & Hfatal & Hraise & _).
  split; [|split].
  - apply Hempty. repeat constructor.
  - apply Hfirst. constructor.
  - apply Hraise, Hfatal.
    exists [], (VDict [("p", VInt (2 ^ 1024))]), [].
    split; [reflexivity|]. split; [constructor|].
    split; reflexivity.
Defined.

End AggregationExamples.

(** ** The documented examples

    The behaviours the specification lists as testable, evaluated on the
    embedding. *)

Section DocumentedExamples.
#[local] Existing Instance helper_model.
#[local] Existing Instance builtins_model.

Lemma distinct_example :
  (Get (Distinct "k"
          (__init__
             (VList [ VDict [("k", VInt 1); ("v", VStr "a")];
                      VDict [("k", VInt 2); ("v", VStr "b")];
                      VDict [("k", VInt 1); ("v", VStr "c")] ]) "."))).1 =
  VList [ VDict [("k", VInt 1); ("v", VStr "a")];
          VDict [("k", VInt 2); ("v", VStr "b")] ].
Proof. reflexivity. Qed.

Lemma projection_example :
  (Get (Select ["x"]
          (__init__ (VList [VDict [("y", VInt 1)]]) "."))).1 = VList [].
Proof. reflexivity. Qed.

Lemma limit_example :
  (Get (Limit 3 (__init__ (ints [1; 2; 3; 4; 5]%Z) "."))).1 =
    ints [1; 2; 3]%Z /\
  (Get (Limit 10 (__init__ (ints [1; 2; 3; 4; 5]%Z) "."))).1 =
    ints [1; 2; 3; 4; 5]%Z.
Proof. split; reflexivity. Qed.

Lemma groupby_example :
  __json_content
    (GroupBy "t"
       (__init__
          (VList [ VDict [("t", VStr "a")]; VDict [("t", VStr "b")];
                   VDict [("t", VStr "a")] ]) ".")) =
  VDict [ ("a", VList [VDict [("t", VStr "a")]; VDict [("t", VStr "a")]]);
          ("b", VList [VDict [("t", VStr "b")]]) ].
Proof. reflexivity. Qed.

Lemma macro_example :
  (Get where_a1).1 = VList [VDict [("a", VInt 1)]] /\
  (Get (Macro "same" (fun _ _ => true) where_a1)).1 =
    VList [VDict [("a", VInt 1)]; VDict [("a", VInt 2); ("b", VInt 3)]].
Proof. split; reflexivity. Qed.

Lemma fresh_get_example (doc : Value) :
  (Get (__init__ doc ".")).1 = doc.
Proof. reflexivity. Qed.

End DocumentedExamples.

(** * Further properties of the code *)

(** ** Limit, and offset together with limit *)

Section ShapingFacts.
Context `{Helper} `{Builtins}.

Lemma limit_records_limit (self : JsonQuery) :
  __limit_records (__limit self) = __limit_records self.
Proof.
  unfold __limit. destruct (__json_content self); try done.
  destruct (__limit_records self <=? 0)%Z; [done|].
  by destruct (Z.of_nat (length l) >? __limit_records self)%Z.
Qed.

Lemma limit_view_take (self : JsonQuery) (l : list Value) :
  __json_content self = VList l -> (0 < __limit_records self)%Z ->
  __json_content (__limit self) =
  VList (take (Z.to_nat (__limit_records self)) l).
Proof.
  intros Hview Hpos. unfold __limit. rewrite Hview.
  assert ((__limit_records self <=? 0)%Z = false) as ->
    by (apply Z.leb_gt; lia).
  destruct (Z.of_nat (length l) >? __limit_records self)%Z eqn:Hgt;
    [done|].
  rewrite Z.gtb_ltb in Hgt. apply Z.ltb_ge in Hgt.
  rewrite take_ge by lia. done.
Qed.

(** X1.  [__limit] keeps the first [n] elements of a sequence for a positive
    limit counter [n], and changes nothing for a counter that is not
    positive; applying it twice is applying it once. *)
Theorem limit_keeps_prefix (self : JsonQuery) (l : list Value) :
  __json_content self = VList l ->
  ((__limit_records self <= 0)%Z -> __limit self = self) /\
  ((0 < __limit_records self)%Z ->
   __json_content (__limit self) =
     VList (take (Z.to_nat (__limit_records self)) l) /\
   (Z.of_nat (length (take (Z.to_nat (__limit_records self)) l))
    <= __limit_records self)%Z) /\
  __limit (__limit self) = __limit self.
Proof.
  intros Hview.
  assert (Hno : (__limit_records self <= 0)%Z -> __limit self = self).
  { intros Hle. unfold __limit. rewrite Hview.
    by apply Z.leb_le in Hle as ->. }
  pose proof (limit_view_take self l Hview) as Htake.
  split; [done|]. split.
  - intros Hpos. split; [by apply Htake|]. rewrite length_take. lia.
  - destruct (Z_le_gt_dec (__limit_records self) 0) as [Hle|Hgt].
    + by rewrite !(Hno Hle).
    + assert (Hpos : (0 < __limit_records self)%Z) by lia.
      unfold __limit at 1.
      rewrite (Htake Hpos), limit_records_limit.
      assert ((__limit_records self <=? 0)%Z = false) as ->
        by (apply Z.leb_gt; lia).
      assert ((Z.of_nat (length (take (Z.to_nat (__limit_records self)) l))
               >? __limit_records self)%Z = false) as ->; [|done].
      rewrite Z.gtb_ltb. apply Z.ltb_ge. rewrite length_take. lia.
Qed.

(** X2.  [Get] with a positive offset [m] and a positive limit [n], and nothing
    to drop, over a prepared sequence [l]: when [l] has at least [n]
    elements the result is the first [n] elements of [l] from index [m]
    on; when [l] is shorter than the limit the result is empty, whatever
    the offset. *)
Theorem Get_offset_then_limit (self : JsonQuery) (l : list Value) :
  __json_content (__prepare self) = VList l ->
  (0 < __offset_records self)%Z ->
  (0 < __limit_records self)%Z ->
  __dropped_properties self = [] ->
  (Get self).1 =
  if (Z.of_nat (length l) >=? __limit_records self)%Z
  then VList (take (Z.to_nat (__limit_records self))
                (drop (Z.to_nat (__offset_records self)) l))
  else VList [].
Proof.
  intros Hview Hoff Hlim Hnodrop.
  destruct (prepare_fields self)
    as (_ & _ & _ & _ & _ & _ & Hd & Ho & Hl & _).
  pose proof (offset_frame (__prepare self) self (prepare_frame self)) as Eo.
  unfold Get. rewrite Ho.
  assert ((__offset_records self =? 0)%Z = false) as ->
    by (apply Z.eqb_neq; lia).
  cbn [negb].
  set (s1 := __offset (__prepare self)) in *.
  assert (Hl1 : __limit_records s1 = __limit_records self) by by rewrite Eo.
  assert (Hd1 : __dropped_properties s1 = []) by by rewrite Eo.
  assert (Hv1 : __json_content s1 =
                if (Z.of_nat (length l) >=? __limit_records self)%Z
                then VList (drop (Z.to_nat (__offset_records self)) l)
                else VList []).
  { subst s1. unfold __offset. rewrite Hview, Ho, Hl.
    assert ((__offset_records self <? 0)%Z = false) as ->
      by (apply Z.ltb_ge; lia).
    by destruct (Z.of_nat (length l) >=? __limit_records self)%Z. }
  rewrite Hl1.
  assert ((__limit_records self =? 0)%Z = false) as ->
    by (apply Z.eqb_neq; lia).
  cbn [negb].
  pose proof (limit_frame s1 self Eo) as El.
  assert (Hd2 : __dropped_properties (__limit s1) = []) by by rewrite El.
  rewrite Hd2. cbn.
  destruct (Z.of_nat (length l) >=? __limit_records self)%Z.
  - rewrite (limit_view_take s1 _ Hv1), Hl1 by lia. done.
  - rewrite (limit_view_take s1 _ Hv1), Hl1 by lia. by rewrite take_nil.
Qed.

End ShapingFacts.

Section ShapingExamples.
#[local] Existing Instance helper_model.
#[local] Existing Instance builtins_model.

Lemma limit_keeps_prefix_witness :
  __json_content (__limit (Limit 3 (__init__ (ints [1; 2; 3; 4; 5]%Z) "."))) =
    ints [1; 2; 3]%Z /\
  __limit (Limit (-1) (__init__ (ints [1; 2; 3; 4; 5]%Z) ".")) =
    Limit (-1) (__init__ (ints [1; 2; 3; 4; 5]%Z) ".").
Proof.
  pose proof (limit_keeps_prefix
                (Limit 3 (__init__ (ints [1; 2; 3; 4; 5]%Z) "."))
                (map VInt [1; 2; 3; 4; 5]%Z) eq_refl) as (_ & Htake & _).
  pose proof (limit_keeps_prefix
                (Limit (-1) (__init__ (ints [1; 2; 3; 4; 5]%Z) "."))
                (map VInt [1; 2; 3; 4; 5]%Z) eq_refl) as (Hno & _ & _).
  split.
  - apply Htake. simpl. lia.
  - apply Hno. simpl. lia.
Defined.

Lemma Get_offset_then_limit_witness :
  (Get (Limit 2 (Offset 1 (__init__ (ints [1; 2; 3; 4; 5]%Z) ".")))).1 =
    ints [2; 3]%Z /\
  (Get (Limit 6 (Offset 1 (__init__ (ints [1; 2; 3; 4; 5]%Z) ".")))).1 =
    VList [].
Proof.
  split.
  - rewrite (Get_offset_then_limit
               (Limit 2 (Offset 1 (__init__ (ints [1; 2; 3; 4; 5]%Z) ".")))
               (map VInt [1; 2; 3; 4; 5]%Z) eq_refl);
      [reflexivity | simpl; lia | simpl; lia | reflexivity].
  - rewrite (Get_offset_then_limit
               (Limit 6 (Offset 1 (__init__ (ints [1; 2; 3; 4; 5]%Z) ".")))
               (map VInt [1; 2; 3; 4; 5]%Z) eq_refl);
      [reflexivity | simpl; lia | simpl; lia | reflexivity].
Defined.

End ShapingExamples.

(** ** More on the filter and on the groups *)

Section FilterAlgebra.
Context `{Helper} `{Builtins}.

Lemma filter_sublist_impl {A : Type} (f g : A -> bool) (l : list A) :
  (forall x, f x = true -> g x = true) ->
  sublist (List.filter f l) (List.filter g l).
Proof.
  intros Himpl. induction l as [|x l IH]; simpl; [constructor|].
  destruct (f x) eqn:Hf.
  - rewrite (Himpl x Hf). by constructor.
  - destruct (g x); [by constructor|done].
Qed.

Lemma filter_sublist_self {A : Type} (f : A -> bool) (l : list A) :
  sublist (List.filter f l) l.
Proof.
  induction l as [|x l IH]; simpl; [constructor|].
  destruct (f x); by constructor.
Qed.

Lemma filter_twice {A : Type} (f : A -> bool) (l : list A) :
  List.filter f (List.filter f l) = List.filter f l.
Proof.
  induction l as [|x l IH]; simpl; [done|].
  destruct (f x) eqn:Hf; simpl; [|done]. by rewrite Hf, IH.
Qed.

(** X3.  The filter keeps a sub-sequence of its input, in order, made of
    mappings only, and filtering its output again changes nothing. *)
Theorem findInList_sublist_idempotent (self : JsonQuery) (l : list Value) :
  sublist (__findInList self l) l /\
  Forall (fun v => exists m, v = VDict m) (__findInList self l) /\
  __findInList self (__findInList self l) = __findInList self l.
Proof.
  rewrite !findInList_spec. split; [|split].
  - apply filter_sublist_self.
  - apply List.Forall_forall. intros v Hv. apply filter_In in Hv as [_ Hv].
    apply andb_true_iff in Hv as [_ Hv].
    destruct v; simpl in Hv; try done. by eexists.
  - apply filter_twice.
Qed.

(** X4.  A [Where] that adds its clause to the last group never lets a new
    element through; an [OrWhere] with a registered operator never loses
    one. *)
Theorem Where_narrows_OrWhere_widens (self : JsonQuery) (k cond : string)
  (val : Value) (l : list Value) :
  (forall self',
      index_on_last self -> Where k cond val self = Ok self' ->
      sublist (__findInList self' l) (__findInList self l)) /\
  (is_Some (__query_map self !! cond) ->
   sublist (__findInList self l) (__findInList (OrWhere k cond val self) l)).
Proof.
  split.
  - intros self' Hlast. rewrite (Where_on_last _ _ _ _ Hlast).
    intros [= <-]. rewrite !findInList_spec.
    apply filter_sublist_impl. intros v.
    destruct Hlast as [Hne _].
    destruct (exists_last Hne) as (init & g & Hq).
    unfold all_registered, keeps, query_true, add_call. simpl.
    rewrite Hq, last_snoc, removelast_last.
    change (registered (set_queries _ self)) with (registered self).
    rewrite !forallb_app. simpl. rewrite !andb_true_r.
    intros Hv. apply andb_true_iff in Hv as [Hreg Hkeep].
    apply andb_true_iff in Hreg as [Hri Hrg].
    rewrite forallb_app in Hrg. apply andb_true_iff in Hrg as [Hrg _].
    rewrite Hri, Hrg. simpl.
    destruct v; try done.
    change (group_true (set_queries _ self)) with (group_true self) in Hkeep.
    rewrite existsb_app in *. simpl in *. rewrite orb_false_r in *.
    apply orb_true_iff in Hkeep as [Hk|Hk]; [by rewrite Hk|].
    unfold group_true in *. rewrite forallb_app in Hk.
    apply andb_true_iff in Hk as [Hk _]. rewrite Hk. apply orb_true_r.
  - intros [cf Hcf]. rewrite !findInList_spec.
    apply filter_sublist_impl. intros v.
    unfold all_registered, keeps, query_true, OrWhere. simpl.
    change (registered (set_queries _ _)) with (registered self).
    rewrite forallb_app. simpl. unfold registered at 3. simpl.
    rewrite Hcf, !andb_true_r.
    intros Hv. apply andb_true_iff in Hv as [-> Hkeep]. simpl.
    destruct v; try done.
    change (group_true (set_queries _ _)) with (group_true self).
    rewrite existsb_app, Hkeep. done.
Qed.

(** X5.  A terminal call rewinds the group index, so the next [Where] adds
    its clause to the first group, whichever group was the current one
    before. *)
Theorem Where_after_Get_extends_first_group (self : JsonQuery)
  (g : list Query) (rest : list (list Query)) (k cond : string)
  (val : Value) :
  __queries self = g :: rest ->
  exists self',
    Where k cond val (Get self).2 = Ok self' /\
    __queries self' =
      (g ++ [ {| key := k; operator := cond; value := val |} ]) :: rest.
Proof.
  intros Hq. rewrite (Get_frame self). unfold Where. simpl. rewrite Hq.
  simpl. eexists. split; reflexivity.
Qed.

End FilterAlgebra.

Section FilterAlgebraExamples.
#[local] Existing Instance helper_model.
#[local] Existing Instance builtins_model.

Lemma Where_narrows_OrWhere_widens_witness :
  (exists self',
      Where "b" "same" (VInt 3) where_a1_c0_or_b3 = Ok self' /\
      sublist (__findInList self' rows) (__findInList where_a1_c0_or_b3 rows)) /\
  sublist (__findInList where_a1 rows)
    (__findInList (OrWhere "b" "same" (VInt 3) where_a1) rows).
Proof.
  pose proof (Where_narrows_OrWhere_widens where_a1_c0_or_b3 "b" "same"
                (VInt 3) rows) as [Hnarrow _].
  pose proof (Where_narrows_OrWhere_widens where_a1 "b" "same"
                (VInt 3) rows) as [_ Hwiden].
  split.
  - eexists. split; [reflexivity|].
    apply Hnarrow; [|reflexivity]. split; [discriminate|reflexivity].
  - apply Hwiden. eexists. reflexivity.
Defined.

Lemma Where_after_Get_extends_first_group_witness :
  exists self',
    Where "b" "same" (VInt 3) (Get where_a1_c0_or_b3).2 = Ok self' /\
    __queries self' =
      [ [clause "a" "same" 1; clause "c" "same" 0; clause "b" "same" 3];
        [clause "b" "same" 3] ].
Proof.
  apply (Where_after_Get_extends_first_group where_a1_c0_or_b3
           [clause "a" "same" 1; clause "c" "same" 0]
           [[clause "b" "same" 3]] "b" "same" (VInt 3)).
  reflexivity.
Defined.

Lemma run_calls_Where_first_witness :
  exists self',
    run_calls [CWhere "a" "same" (VInt 1); COrWhere "b" "same" (VInt 3);
               CWhere "c" "same" (VInt 0)] (builder (VList rows)) = Ok self' /\
    __queries self' =
      [ [clause "a" "same" 1];
        [clause "b" "same" 3; clause "c" "same" 0] ].
Proof.
  apply (run_calls_Where_first "a" "same" (VInt 1)
           [COrWhere "b" "same" (VInt 3); CWhere "c" "same" (VInt 0)]
           (builder (VList rows))); reflexivity.
Defined.

Lemma run_calls_OrWhere_first_witness :
  run_calls [COrWhere "a" "same" (VInt 1); COrWhere "b" "same" (VInt 3);
             CWhere "c" "same" (VInt 0); CWhere "a" "same" (VInt 2)]
    (builder (VList rows)) = Raise IndexError.
Proof.
  apply (run_calls_OrWhere_first
           [COrWhere "a" "same" (VInt 1); COrWhere "b" "same" (VInt 3)]
           [CWhere "a" "same" (VInt 2)] "c" "same" (VInt 0)
           (builder (VList rows))).
  - left. split; reflexivity.
  - discriminate.
  - repeat constructor.
Defined.

End FilterAlgebraExamples.

(** ** What the preparation pipeline reads *)

Section PrepareInputs.
Context `{Helper} `{Builtins}.

Lemma forallb_pointwise {A : Type} (f g : A -> bool) (l : list A) :
  (forall x, f x = g x) -> forallb f l = forallb g l.
Proof. intros E. induction l as [|x l IH]; simpl; [done|]. by rewrite E, IH. Qed.

Lemma existsb_pointwise {A : Type} (f g : A -> bool) (l : list A) :
  (forall x, f x = g x) -> existsb f l = existsb g l.
Proof. intros E. induction l as [|x l IH]; simpl; [done|]. by rewrite E, IH. Qed.

Lemma fold_left_pointwise {A B : Type} (f g : A -> B -> A) (l : list B) (a : A) :
  (forall x y, f x y = g x y) -> fold_left f l a = fold_left g l a.
Proof.
  intros E. revert a. induction l as [|y l IH]; intros a; simpl; [done|].
  by rewrite E, IH.
Qed.

Lemma findInList_inputs (s s' : JsonQuery) (l : list Value) :
  __queries s' = __queries s -> __query_map s' = __query_map s ->
  __separator s' = __separator s ->
  __findInList s' l = __findInList s l.
Proof.
  intros Hq Hm Hsep. rewrite !findInList_spec. apply filter_ext. intros v.
  unfold all_registered, keeps, query_true. rewrite Hq. f_equal.
  - apply forallb_pointwise. intros g. apply forallb_pointwise. intros q.
    unfold registered. by rewrite Hm.
  - destruct v; try done. apply existsb_pointwise. intros g.
    apply forallb_pointwise. intros q.
    unfold clause_true, resolves. by rewrite Hm, Hsep.
Qed.

Lemma processQuery_inputs (s s' : JsonQuery) :
  same_prepare_inputs s s' ->
  same_prepare_inputs (__processQuery s) (__processQuery s').
Proof.
  intros (Hv & Hq & Hm & Hsep & Hd & Ha). unfold __processQuery.
  rewrite Hv. destruct (__json_content s) eqn:Hc;
    try (by repeat split; rewrite ?Hc).
  repeat split; simpl; try done. f_equal. by apply findInList_inputs.
Qed.

Lemma distinct_inputs (s s' : JsonQuery) :
  same_prepare_inputs s s' ->
  same_prepare_inputs (__distinct s) (__distinct s').
Proof.
  intros (Hv & Hq & Hm & Hsep & Hd & Ha). unfold __distinct.
  repeat split; simpl; try done. rewrite Hv. f_equal.
  destruct (__json_content s); try done. f_equal.
  apply fold_left_pointwise. intros st a.
  unfold distinct_step. by rewrite Hd, Hsep.
Qed.

Lemma only_inputs (s s' : JsonQuery) :
  same_prepare_inputs s s' ->
  same_prepare_inputs (__only s) (__only s').
Proof.
  intros (Hv & Hq & Hm & Hsep & Hd & Ha). unfold __only.
  repeat split; simpl; try done. rewrite Hv. f_equal.
  destruct (__json_content s); try done.
  apply fold_left_pointwise. intros result am.
  unfold only_step. rewrite Ha.
  assert (fold_left (only_attr s' am) (__attributes s) [] =
          fold_left (only_attr s am) (__attributes s) []) as ->; [|done].
  apply fold_left_pointwise. intros tmap attr.
  unfold only_attr. by rewrite Hsep.
Qed.

Lemma prepare_inputs (s s' : JsonQuery) :
  same_prepare_inputs s s' ->
  same_prepare_inputs (__prepare s) (__prepare s').
Proof.
  intros HR. unfold __prepare.
  set (s1 := if (0 <? length (__queries s))%nat then __processQuery s else s).
  set (s1' := if (0 <? length (__queries s'))%nat
              then __processQuery s' else s').
  assert (H1 : same_prepare_inputs s1 s1').
  { subst s1 s1'. destruct HR as (Hv & Hq & Hrest). rewrite Hq.
    destruct (0 <? length (__queries s))%nat; [|done].
    by apply processQuery_inputs. }
  set (s2 := if negb (String.eqb (__distinct_property s1) "")
             then __distinct s1 else s1).
  set (s2' := if negb (String.eqb (__distinct_property s1') "")
              then __distinct s1' else s1').
  assert (H2 : same_prepare_inputs s2 s2').
  { subst s2 s2'. destruct H1 as (Hv & Hq & Hm & Hsep & Hd & Ha).
    rewrite Hd.
    destruct (negb (String.eqb (__distinct_property s1) "")); [|done].
    by apply distinct_inputs. }
  set (s3 := if (0 <? length (__attributes s2))%nat then __only s2 else s2).
  set (s3' := if (0 <? length (__attributes s2'))%nat
              then __only s2' else s2').
  assert (H3 : same_prepare_inputs s3 s3').
  { subst s3 s3'. destruct H2 as (Hv & Hq & Hm & Hsep & Hd & Ha).
    rewrite Ha.
    destruct (0 <? length (__attributes s2))%nat; [|done].
    by apply only_inputs. }
  destruct H3 as (Hv & Hq & Hm & Hsep & Hd & Ha). by repeat split.
Qed.

(** X8.  [Count], [First], [Last] and [Nth] see the prepared view only: what
    they return is the same whatever offset, limit and drop list are
    pending. *)
Theorem positional_calls_ignore_shaping (self : JsonQuery) (offset limit : Z)
  (dropped : list string) (index : Z) :
  let self' := Drop dropped (Limit limit (Offset offset self)) in
  (Count self').1 = (Count self).1 /\
  returned (First self') = returned (First self) /\
  returned (Last self') = returned (Last self) /\
  returned (Nth index self') = returned (Nth index self).
Proof.
  intros self'.
  assert (Hview : __json_content (__prepare self') =
                  __json_content (__prepare self)).
  { apply (prepare_inputs self self'). by repeat split. }
  unfold Count, First, Last, Nth, returned. rewrite Hview.
  destruct (__json_content (__prepare self)); try done.
  repeat split.
  - by destruct (py_getitem l 0).
  - by destruct (py_getitem l (-1)).
  - by destruct (py_getitem l index).
Qed.

End PrepareInputs.

Section AggregationInputs.
Context `{Helper} `{Builtins}.

Lemma limit_inputs (s s' : JsonQuery) :
  same_prepare_inputs s s' -> __limit_records s' = __limit_records s ->
  same_prepare_inputs (__limit s) (__limit s').
Proof.
  intros (Hv & Hq & Hm & Hsep & Hd & Ha) Hl. unfold __limit.
  rewrite Hv, Hl. destruct (__json_content s) eqn:Hc;
    try (by repeat split; rewrite ?Hc).
  destruct (__limit_records s <=? 0)%Z; [by repeat split; rewrite ?Hc|].
  destruct (Z.of_nat (length l) >? __limit_records s)%Z;
    by repeat split; rewrite ?Hc.
Qed.

Lemma aggregation_view_inputs (s s' : JsonQuery) :
  same_prepare_inputs s s' -> __limit_records s' = __limit_records s ->
  same_prepare_inputs (aggregation_view s) (aggregation_view s').
Proof.
  intros HR Hl. unfold aggregation_view.
  pose proof (prepare_inputs s s' HR) as HP.
  destruct (prepare_fields s) as (_ & _ & _ & _ & _ & _ & _ & _ & Hls & _).
  destruct (prepare_fields s') as (_ & _ & _ & _ & _ & _ & _ & _ & Hls' & _).
  set (p := __prepare s) in *. set (p' := __prepare s') in *.
  set (s2 := if negb (String.eqb (__distinct_property p) "")
             then __distinct p else p).
  set (s2' := if negb (String.eqb (__distinct_property p') "")
              then __distinct p' else p').
  assert (H2 : same_prepare_inputs s2 s2' /\
               __limit_records s2' = __limit_records s2).
  { subst s2 s2'. destruct HP as (Hv & Hq & Hm & Hsep & Hd & Ha).
    rewrite Hd.
    destruct (negb (String.eqb (__distinct_property p) "")).
    - split; [by apply distinct_inputs|]. unfold __distinct.
      cbn [__limit_records set_json_content]. congruence.
    - split; [done|congruence]. }
  destruct H2 as [H2 Hl2]. rewrite Hl2.
  destruct (negb (__limit_records s2 =? 0)%Z); [|done].
  by apply limit_inputs.
Qed.

Lemma Pluck_view (attr : string) (self : JsonQuery) :
  Pluck attr self =
  (match __json_content (aggregation_view self) with
   | VList json_list =>
       fold_left
         (fun result a =>
            match a with
            | VDict d =>
                match dict_get d attr with
                | Some x => if is_none x then result else result ++ [x]
                | None => result
                end
            | _ => result
            end) json_list []
   | _ => []
   end, aggregation_view self).
Proof. reflexivity. Qed.

(** X9.  [Sum], [Min], [Max], [Avg] and [Pluck] never apply the offset or the
    drop list: what they return is the same whatever offset and drop list
    are pending. *)
Theorem aggregates_ignore_offset_and_drop (self : JsonQuery) (offset : Z)
  (dropped properties : list string) (attr : string) :
  let self' := Drop dropped (Offset offset self) in
  returned (Sum properties self') = returned (Sum properties self) /\
  returned (Min properties self') = returned (Min properties self) /\
  returned (Max properties self') = returned (Max properties self) /\
  returned (Avg properties self') = returned (Avg properties self) /\
  (Pluck attr self').1 = (Pluck attr self).1.
Proof.
  intros self'.
  assert (Hview : __json_content (aggregation_view self') =
                  __json_content (aggregation_view self)).
  { apply (aggregation_view_inputs self self'); by repeat split. }
  assert (Hvalues : returned (__getAggregationValues properties self') =
                    returned (__getAggregationValues properties self)).
  { rewrite !getAggregationValues_view, Hview. unfold returned.
    destruct (__json_content (aggregation_view self)); try done.
    - by destruct (__getFloatValFromArray l properties).
    - destruct properties as [|p ps]; [done|].
      destruct (dict_get d p) as [v|]; [|done].
      destruct (is_none v); [done|].
      destruct (is_float_or_int v); [|done]. by destruct (py_float v). }
  assert (HPluck : (Pluck attr self').1 = (Pluck attr self).1).
  { rewrite !Pluck_view. cbn [fst]. by rewrite Hview. }
  split; [|split; [|split; [|split]]]; try exact HPluck;
    unfold returned in *; unfold Sum, Min, Max, Avg;
    destruct (__getAggregationValues properties self') as [[fs' s1']|e'];
    destruct (__getAggregationValues properties self) as [[fs s1]|e];
    simpl in Hvalues; try done; injection Hvalues as ->; simpl; try done.
  - by destruct (py_min fs).
  - by destruct (py_max fs).
  - destruct fs; [done|].
    by destruct (float_of_int (Z.of_nat (length (f :: fs)))).
Qed.

End AggregationInputs.

(** ** Distinct *)

Section DistinctFacts.
Context `{Helper} `{Builtins}.

Lemma distinct_step_cases (self : JsonQuery) (m : gset string)
  (dt : list Value) (a : Value) :
  distinct_step self (m, dt) a =
  if has_distinct_key self a && bool_decide (distinct_key self a ∉ m)
  then ({[ distinct_key self a ]} ∪ m, dt ++ [a])
  else (m, dt).
Proof. by destruct a. Qed.

Lemma distinct_fold (self : JsonQuery) (l : list Value) :
  forall (m : gset string) (dt : list Value),
  exists dt',
    (fold_left (distinct_step self) l (m, dt)).2 = dt ++ dt' /\
    sublist dt' l /\
    Forall (fun a => has_distinct_key self a = true) dt' /\
    NoDup (map (distinct_key self) dt') /\
    (forall k, In k (map (distinct_key self) dt') -> k ∉ m) /\
    (forall a, In a l -> has_distinct_key self a = true ->
               distinct_key self a ∈ m \/
               In (distinct_key self a) (map (distinct_key self) dt')).
Proof.
  induction l as [|a l IH]; intros m dt; simpl.
  - exists []. rewrite app_nil_r. repeat split; try done; constructor.
  - rewrite distinct_step_cases.
    destruct (has_distinct_key self a) eqn:Hgood; simpl;
      [case_bool_decide as Hfresh|].
    + destruct (IH ({[ distinct_key self a ]} ∪ m) (dt ++ [a]))
        as (dt' & Heq & Hsub & Hall & Hnd & Hout & Hcov).
      exists (a :: dt'). rewrite Heq, <- app_assoc. simpl.
      repeat split; try done.
      * by constructor.
      * by constructor.
      * constructor; [|done]. intros Hin. apply list_elem_of_In in Hin.
        apply Hout in Hin. set_solver.
      * intros k [<-|Hin]; [done|]. apply Hout in Hin. set_solver.
      * intros b [<-|Hb] Hb'; [by right; left|].
        destruct (Hcov b Hb Hb') as [Hm|Hin]; [|by right; right].
        apply elem_of_union in Hm as [Hm|Hm]; [|by left].
        apply elem_of_singleton in Hm. right. left. done.
    + destruct (IH m dt) as (dt' & Heq & Hsub & Hall & Hnd & Hout & Hcov).
      exists dt'. repeat split; try done.
      * by constructor.
      * intros b [<-|Hb] Hb'; [|by apply Hcov].
        left. by destruct (decide (distinct_key self a ∈ m)).
    + destruct (IH m dt) as (dt' & Heq & Hsub & Hall & Hnd & Hout & Hcov).
      exists dt'. repeat split; try done.
      * by constructor.
      * intros b [<-|Hb] Hb'; [congruence|by apply Hcov].
Qed.

Lemma distinct_fold_fixed (self : JsonQuery) (l : list Value) :
  forall (m : gset string) (dt : list Value),
  Forall (fun a => has_distinct_key self a = true) l ->
  NoDup (map (distinct_key self) l) ->
  (forall k, In k (map (distinct_key self) l) -> k ∉ m) ->
  (fold_left (distinct_step self) l (m, dt)).2 = dt ++ l.
Proof.
  induction l as [|a l IH]; intros m dt Hall Hnd Hout; simpl.
  - by rewrite app_nil_r.
  - rewrite distinct_step_cases.
    inversion Hall as [|? ? Ha Hall']; subst.
    inversion Hnd as [|? ? Hnotin Hnd']; subst.
    rewrite Ha. simpl.
    rewrite bool_decide_eq_true_2 by (apply Hout; by left).
    rewrite IH, <- app_assoc; try done.
    intros k Hk. apply not_elem_of_union. split.
    + apply not_elem_of_singleton. intros ->.
      by apply list_elem_of_In in Hk.
    + apply Hout. by right.
Qed.

(** X10.  On a sequence [__distinct] keeps a sub-sequence, in order, of mappings
    on which the distinct key resolves; no two of them stringify to the
    same key, every key met in the input is represented, and a second
    pass changes nothing.  Any other view is replaced by the empty
    sequence. *)
Theorem distinct_keeps_first_occurrences (self : JsonQuery) :
  (forall l,
      __json_content self = VList l ->
      exists dt,
        __json_content (__distinct self) = VList dt /\
        sublist dt l /\
        Forall (fun a => has_distinct_key self a = true) dt /\
        NoDup (map (distinct_key self) dt) /\
        (forall a, In a l -> has_distinct_key self a = true ->
                   In (distinct_key self a) (map (distinct_key self) dt))) /\
  ((forall l, __json_content self <> VList l) ->
   __json_content (__distinct self) = VList []) /\
  __distinct (__distinct self) = __distinct self.
Proof.
  split; [|split].
  - intros l Hview. unfold __distinct. rewrite Hview. simpl.
    destruct (distinct_fold self l ∅ [])
      as (dt & Heq & Hsub & Hall & Hnd & _ & Hcov).
    exists dt. simpl in Heq. rewrite Heq. repeat split; try done.
    intros a Ha Hgood. destruct (Hcov a Ha Hgood) as [Hm|Hin]; [|done].
    set_solver.
  - intros Hnot. unfold __distinct. simpl.
    destruct (__json_content self); try done. by destruct (Hnot l).
  - unfold __distinct at 1 2. simpl.
    destruct (__json_content self) eqn:Hview; simpl;
      try (unfold __distinct; by rewrite Hview).
    destruct (distinct_fold self l ∅ [])
      as (dt & Heq & Hsub & Hall & Hnd & _ & _).
    simpl in Heq. rewrite Heq.
    change (distinct_step (set_json_content _ self))
      with (distinct_step self).
    unfold __distinct. rewrite Hview, Heq.
    rewrite (distinct_fold_fixed self dt ∅ []); done.
Qed.

End DistinctFacts.

Section DistinctExamples.
#[local] Existing Instance helper_model.
#[local] Existing Instance builtins_model.

(** The integer [1] and the string ["1"] stringify alike: the second
    mapping is taken for a duplicate of the first. *)
Lemma distinct_keeps_first_occurrences_witness :
  exists dt,
    __json_content
      (__distinct
         (Distinct "k"
            (__init__ (VList [ VDict [("k", VInt 1)]; VDict [("k", VStr "1")];
                               VDict [("j", VInt 0)]; VDict [("k", VInt 2)] ])
               "."))) = VList dt /\
    dt = [VDict [("k", VInt 1)]; VDict [("k", VInt 2)]].
Proof.
  destruct (proj1 (distinct_keeps_first_occurrences
              (Distinct "k"
                 (__init__
                    (VList [ VDict [("k", VInt 1)]; VDict [("k", VStr "1")];
                             VDict [("j", VInt 0)]; VDict [("k", VInt 2)] ])
                    "."))) _ eq_refl) as (dt & Heq & _).
  exists dt. split; [exact Heq|].
  vm_compute in Heq. by injection Heq as <-.
Defined.

End DistinctExamples.

(** ** Projection *)

Section ProjectionFacts.
Context `{Helper} `{Builtins}.

Lemma dict_set_entries {A : Type} (d : list (string * A)) (k : string)
  (v : A) (kv : string * A) :
  In kv (dict_set d k v) -> kv = (k, v) \/ In kv d.
Proof.
  induction d as [|[k' v'] d IH]; simpl.
  - intros [<-|[]]. by left.
  - destruct (String.eqb k' k).
    + intros [<-|Hin]; [by left|by right; right].
    + intros [<-|Hin]; [by right; left|].
      destruct (IH Hin) as [->|Hd]; [by left|by right; right].
Qed.

Lemma dict_set_NoDup {A : Type} (d : list (string * A)) (k : string) (v : A) :
  NoDup (map fst d) -> NoDup (map fst (dict_set d k v)).
Proof.
  induction d as [|[k' v'] d IH]; simpl; intros Hnd.
  - constructor; [by intros ?%elem_of_nil|constructor].
  - inversion Hnd as [|? ? Hnotin Hnd']; subst.
    destruct (String.eqb k' k) eqn:Hk.
    + apply String.eqb_eq in Hk as ->. by constructor.
    + apply String.eqb_neq in Hk. simpl. constructor; [|by apply IH].
      intros Hin. apply list_elem_of_In, in_map_iff in Hin
        as ([k2 v2] & Hfst & Hin). simpl in Hfst. subst k2.
      apply dict_set_entries in Hin as [[= -> ->]|Hin]; [done|].
      apply Hnotin, list_elem_of_In, in_map_iff. by exists (k', v2).
Qed.

Lemma dict_get_set {A : Type} (d : list (string * A)) (k : string) (v : A) :
  dict_get (dict_set d k v) k = Some v.
Proof.
  induction d as [|[k' v'] d IH]; simpl.
  - by rewrite String.eqb_refl.
  - destruct (String.eqb k' k) eqn:Hk; simpl.
    + by rewrite String.eqb_refl.
    + by rewrite Hk.
Qed.

Lemma dict_get_set_other {A : Type} (d : list (string * A)) (k k' : string)
  (v : A) :
  k <> k' -> dict_get (dict_set d k v) k' = dict_get d k'.
Proof.
  intros Hne. induction d as [|[k2 v2] d IH]; simpl.
  - by apply String.eqb_neq in Hne as ->.
  - destruct (String.eqb k2 k) eqn:Hk; simpl.
    + apply String.eqb_eq in Hk as ->.
      by apply String.eqb_neq in Hne as ->.
    + by rewrite IH.
Qed.

Lemma only_attr_fold (self : JsonQuery) (am : Value) (attrs : list string) :
  forall tmap,
    (forall attr, In attr attrs -> In attr (__attributes self)) ->
    NoDup (map fst tmap) ->
    Forall (projected_from self am) tmap ->
    NoDup (map fst (fold_left (only_attr self am) attrs tmap)) /\
    Forall (projected_from self am) (fold_left (only_attr self am) attrs tmap).
Proof.
  induction attrs as [|attr attrs IH]; intros tmap Hsub Hnd Hall; simpl;
    [done|].
  apply IH.
  - intros a Ha. apply Hsub. by right.
  - unfold only_attr. destruct (is_none _); [done|]. by apply dict_set_NoDup.
  - unfold only_attr.
    destruct (is_none (getNestedValue am _ _)) eqn:Hnone; [done|].
    apply List.Forall_forall. intros kv Hin.
    apply dict_set_entries in Hin as [->|Hin].
    + split; simpl.
      * intros Heq. by rewrite Heq in Hnone.
      * exists attr. split; [apply Hsub; by left|done].
    + by apply (proj1 (List.Forall_forall _ _) Hall).
Qed.

Lemma only_step_fold (self : JsonQuery) (l0 l : list Value) :
  forall result,
    (forall am, In am l -> In am l0) ->
    exists added,
      fold_left (only_step self) l result = result ++ added /\
      length added <= length l /\
      Forall (projection_of self l0) added.
Proof.
  induction l as [|am l IH]; intros result Hsub; simpl.
  - exists []. by rewrite app_nil_r.
  - unfold only_step at 2.
    destruct (only_attr_fold self am (__attributes self) [])
      as [Hnd Hall]; try done; [constructor|].
    set (tmap := fold_left (only_attr self am) (__attributes self) []) in *.
    destruct (0 <? length tmap)%nat eqn:Hlen.
    + destruct (IH (result ++ [VDict tmap])) as (added & Heq & Hle & Hp).
      { intros a Ha. apply Hsub. by right. }
      exists (VDict tmap :: added). rewrite Heq, <- app_assoc.
      repeat split; [simpl; lia|]. constructor; [|done].
      exists tmap, am. repeat split; try done.
      * intros ->. done.
      * apply Hsub. by left.
    + destruct (IH result) as (added & Heq & Hle & Hp).
      { intros a Ha. apply Hsub. by right. }
      exists added. repeat split; [done|simpl; lia|done].
Qed.

(** X11.  On a sequence [__only] builds at most one mapping per element: each is
    not empty, has no repeated key, and every entry is the alias of a
    requested attribute with the value that attribute resolves to on the
    element, never [None]; elements on which nothing resolves leave no
    trace.  Any other view is replaced by the empty sequence. *)
Theorem only_builds_nonempty_mappings (self : JsonQuery) :
  (forall l,
      __json_content self = VList l ->
      exists result,
        __json_content (__only self) = VList result /\
        length result <= length l /\
        Forall (projection_of self l) result) /\
  ((forall l, __json_content self <> VList l) ->
   __json_content (__only self) = VList []).
Proof.
  split.
  - intros l Hview. unfold __only. rewrite Hview. simpl.
    destruct (only_step_fold self l l []) as (added & Heq & Hle & Hp);
      [done|].
    exists added. by rewrite Heq.
  - intros Hnot. unfold __only. simpl.
    destruct (__json_content self); try done. by destruct (Hnot l).
Qed.

End ProjectionFacts.

Section ProjectionExamples.
#[local] Existing Instance helper_model.
#[local] Existing Instance builtins_model.

Lemma only_builds_nonempty_mappings_witness :
  __json_content (__only (Select ["a"] (builder (VDict [("a", VInt 1)])))) =
    VList [] /\
  exists result,
    __json_content (__only (Select ["a"; "c"] (builder (VList rows)))) =
      VList result /\
    length result <= 4.
Proof.
  pose proof (only_builds_nonempty_mappings
                (Select ["a"] (builder (VDict [("a", VInt 1)]))))
    as [_ Hnot].
  pose proof (only_builds_nonempty_mappings
                (Select ["a"; "c"] (builder (VList rows)))) as [Hlist _].
  split.
  - apply Hnot. intros l Hl. vm_compute in Hl. discriminate Hl.
  - destruct (Hlist rows eq_refl) as (result & Heq & Hle & _).
    exists result. split; [exact Heq|exact Hle].
Defined.

Lemma projection_example_rows :
  __json_content (__only (Select ["a"; "c"] (builder (VList rows)))) =
  VList [ VDict [("a", VInt 1)]; VDict [("a", VInt 2)]; VDict [("c", VInt 0)] ].
Proof. reflexivity. Qed.

End ProjectionExamples.

(** ** Grouping that succeeds *)

Section GroupByFacts.
Context `{Helper} `{Builtins}.

Lemma GroupBy_loop_separator (s s' : JsonQuery) (attr : string)
  (l : list Value) (dt : list (string * list Value)) :
  __separator s' = __separator s ->
  GroupBy_loop s' attr l dt = GroupBy_loop s attr l dt.
Proof.
  intros Hsep. revert dt. induction l as [|a l IH]; intros dt; [done|].
  simpl. rewrite Hsep. destruct a; try apply IH.
  destruct (is_none _); [done|]. apply IH.
Qed.

Lemma GroupBy_loop_files (self : JsonQuery) (attr : string) (l : list Value) :
  forall dt0,
    all_resolve self attr l ->
    NoDup (map fst dt0) ->
    (forall k g, dict_get dt0 k = Some g -> g <> []) ->
    exists dt,
      GroupBy_loop self attr l dt0 = Some dt /\
      NoDup (map fst dt) /\
      (forall k g, dict_get dt k = Some g -> g <> []) /\
      (forall k, default [] (dict_get dt k) =
                 default [] (dict_get dt0 k) ++ filed_under self attr k l).
Proof.
  induction l as [|a l IH]; intros dt0 Hres Hnd Hwf.
  - exists dt0. repeat split; try done. intros k. simpl. by rewrite app_nil_r.
  - inversion Hres as [|? ? Ha Hres']; subst.
    assert (Hskip : is_dict a = false ->
      exists dt,
        GroupBy_loop self attr l dt0 = Some dt /\
        NoDup (map fst dt) /\
        (forall k g, dict_get dt k = Some g -> g <> []) /\
        (forall k, default [] (dict_get dt k) =
                   default [] (dict_get dt0 k) ++
                   filed_under self attr k (a :: l))).
    { intros Hnd'. destruct (IH dt0 Hres' Hnd Hwf) as (dt & Hl & H1 & H2 & H3).
      exists dt. repeat split; try done. intros k.
      unfold filed_under. simpl. rewrite Hnd'. simpl. apply H3. }
    destruct a as [| | | | | |d]; try (by apply Hskip).
    simpl. rewrite (Ha eq_refl).
    set (key := py_str (getNestedValue (VDict d) attr (__separator self))).
    set (dt1 := match dict_get dt0 key with
                | Some g => dict_set dt0 key (g ++ [VDict d])
                | None => dict_set dt0 key [VDict d]
                end).
    assert (Hget1 : dict_get dt1 key =
                    Some (default [] (dict_get dt0 key) ++ [VDict d])).
    { subst dt1. destruct (dict_get dt0 key); by rewrite dict_get_set. }
    assert (Hother : forall k, key <> k -> dict_get dt1 k = dict_get dt0 k).
    { intros k Hk. subst dt1.
      destruct (dict_get dt0 key); by rewrite dict_get_set_other. }
    destruct (IH dt1) as (dt & Hl & H1 & H2 & H3); try done.
    { subst dt1. destruct (dict_get dt0 key); by apply dict_set_NoDup. }
    { intros k g. destruct (String.eqb key k) eqn:Hk.
      - apply String.eqb_eq in Hk as <-. rewrite Hget1. intros [= <-].
        by destruct (default [] (dict_get dt0 key)).
      - apply String.eqb_neq in Hk. rewrite (Hother k Hk). apply Hwf. }
    exists dt. repeat split; try done. intros k. rewrite H3.
    unfold filed_under at 2. simpl. fold (filed_under self attr k l).
    unfold group_key. fold key.
    destruct (String.eqb key k) eqn:Hk.
    + apply String.eqb_eq in Hk as <-. rewrite Hget1. simpl.
      by rewrite <- app_assoc.
    + apply String.eqb_neq in Hk. by rewrite (Hother k Hk).
Qed.

(** X12.  When the attribute resolves on every mapping of the prepared
    sequence, [GroupBy] replaces the view by a mapping without repeated
    keys in which each key holds exactly the mappings that stringify to
    it, in their original order, and no group is empty; elements that are
    not mappings are in no group. *)
Theorem GroupBy_files_every_mapping (self : JsonQuery) (attr : string)
  (l : list Value) :
  __json_content (__prepare self) = VList l ->
  all_resolve self attr l ->
  exists dt,
    __json_content (GroupBy attr self) = dict_of_groups dt /\
    NoDup (map fst dt) /\
    (forall k,
        match dict_get dt k with
        | Some g => g = filed_under self attr k l /\ g <> []
        | None => filed_under self attr k l = []
        end).
Proof.
  intros Hview Hres.
  destruct (prepare_fields self) as (Hsep & _).
  destruct (GroupBy_loop_files self attr l [] Hres) as (dt & Hl & H1 & H2 & H3);
    [constructor|done|].
  exists dt. unfold GroupBy. rewrite Hview.
  rewrite (GroupBy_loop_separator self _ attr l [] Hsep), Hl.
  repeat split; try done. intros k. specialize (H3 k). simpl in H3.
  destruct (dict_get dt k) as [g|] eqn:Hg; simpl in H3.
  - split; [done|]. by apply (H2 k).
  - done.
Qed.

End GroupByFacts.

Section GroupByExamples.
#[local] Existing Instance helper_model.
#[local] Existing Instance builtins_model.

Lemma GroupBy_files_every_mapping_witness :
  exists dt,
    __json_content
      (GroupBy "t"
         (__init__
            (VList [ VDict [("t", VStr "a")]; VInt 7; VDict [("t", VStr "b")];
                     VDict [("t", VStr "a"); ("u", VInt 0)] ]) ".")) =
      dict_of_groups dt /\
    NoDup (map fst dt).
Proof.
  destruct (GroupBy_files_every_mapping
              (__init__
                 (VList [ VDict [("t", VStr "a")]; VInt 7;
                          VDict [("t", VStr "b")];
                          VDict [("t", VStr "a"); ("u", VInt 0)] ]) ".")
              "t" _ eq_refl) as (dt & Heq & Hnd & _).
  - repeat constructor; done.
  - exists dt. split; [exact Heq|exact Hnd].
Defined.

End GroupByExamples.

(** ** Positional access within bounds *)

Section NthFacts.
Context `{Helper} `{Builtins}.

(** X13.  [Nth(i)] over a prepared sequence of length [n]: for [0 <= i < n] it
    returns the element at [i], for [-n <= i < 0] the element at [n + i],
    and for every other index it raises [IndexError]. *)
Theorem Nth_within_bounds (self : JsonQuery) (index : Z) (l : list Value) :
  __json_content (__prepare self) = VList l ->
  ((0 <= index < Z.of_nat (length l))%Z ->
   exists v, l !! Z.to_nat index = Some v /\
             Nth index self = Ok (v, __prepare self)) /\
  ((- Z.of_nat (length l) <= index < 0)%Z ->
   exists v, l !! Z.to_nat (Z.of_nat (length l) + index) = Some v /\
             Nth index self = Ok (v, __prepare self)) /\
  ((index < - Z.of_nat (length l) \/ Z.of_nat (length l) <= index)%Z ->
   Nth index self = Raise IndexError).
Proof.
  intros Hview. unfold Nth, py_getitem, py_index. rewrite Hview.
  split; [|split].
  - intros [Hlo Hhi].
    assert ((index <? 0)%Z = false) as -> by (apply Z.ltb_ge; lia).
    assert ((0 <=? index)%Z = true) as -> by (apply Z.leb_le; lia).
    assert ((index <? Z.of_nat (length l))%Z = true) as ->
      by (apply Z.ltb_lt; lia).
    simpl. destruct (lookup_lt_is_Some_2 l (Z.to_nat index)) as [v Hv];
      [lia|].
    exists v. by rewrite Hv.
  - intros [Hlo Hhi].
    assert ((index <? 0)%Z = true) as -> by (apply Z.ltb_lt; lia).
    assert ((0 <=? Z.of_nat (length l) + index)%Z = true) as ->
      by (apply Z.leb_le; lia).
    assert ((Z.of_nat (length l) + index <? Z.of_nat (length l))%Z = true)
      as -> by (apply Z.ltb_lt; lia).
    simpl.
    destruct (lookup_lt_is_Some_2 l
                (Z.to_nat (Z.of_nat (length l) + index))) as [v Hv]; [lia|].
    exists v. by rewrite Hv.
  - intros [Hlo|Hhi].
    + assert ((index <? 0)%Z = true) as -> by (apply Z.ltb_lt; lia).
      assert ((0 <=? Z.of_nat (length l) + index)%Z = false) as ->
        by (apply Z.leb_gt; lia).
      done.
    + assert ((index <? 0)%Z = false) as -> by (apply Z.ltb_ge; lia).
      assert ((index <? Z.of_nat (length l))%Z = false) as ->
        by (apply Z.ltb_ge; lia).
      by rewrite andb_false_r.
Qed.

(** X14.  With a distinct key or a projection pending the prepared view is
    always a sequence: a view that is not one is replaced by the empty
    sequence. *)
Theorem prepare_yields_sequence (self : JsonQuery) :
  __distinct_property self <> "" \/ __attributes self <> [] ->
  (exists l, __json_content (__prepare self) = VList l) /\
  ((forall l, __json_content self <> VList l) ->
   __json_content (__prepare self) = VList []).
Proof.
  intros Hpending. unfold __prepare.
  set (s1 := if (0 <? length (__queries self))%nat
             then __processQuery self else self).
  assert (H1 : __distinct_property s1 = __distinct_property self /\
               __attributes s1 = __attributes self /\
               ((forall l, __json_content self <> VList l) ->
                forall l, __json_content s1 <> VList l)).
  { subst s1. destruct (0 <? length (__queries self))%nat; [|done].
    unfold __processQuery.
    destruct (__json_content self) eqn:Hc; repeat split; intros Hnot;
      try (intros l'; rewrite Hc; done).
    by destruct (Hnot l). }
  destruct H1 as (Hd1 & Ha1 & Hn1).
  set (s2 := if negb (String.eqb (__distinct_property s1) "")
             then __distinct s1 else s1).
  assert (H2 : __attributes s2 = __attributes self /\
               (__distinct_property self <> "" ->
                (exists l, __json_content s2 = VList l) /\
                ((forall l, __json_content self <> VList l) ->
                 __json_content s2 = VList [])) /\
               ((forall l, __json_content self <> VList l) ->
                __json_content s2 = VList [] \/
                forall l, __json_content s2 <> VList l)).
  { subst s2. rewrite Hd1.
    destruct (String.eqb (__distinct_property self) "") eqn:Hd; simpl.
    - apply String.eqb_eq in Hd. repeat split; try done.
      intros Hnot. right. by apply Hn1.
    - split; [done|].
      assert (Hnl : (forall l, __json_content s1 <> VList l) ->
                    __json_content (__distinct s1) = VList []).
      { intros Hnot. unfold __distinct. simpl.
        destruct (__json_content s1); try done. by destruct (Hnot l). }
      split.
      + intros _. split; [by eexists|]. intros Hnot. by apply Hnl, Hn1.
      + intros Hnot. left. by apply Hnl, Hn1. }
  destruct H2 as (Ha2 & Hd2 & Hn2). rewrite Ha2.
  destruct (0 <? length (__attributes self))%nat eqn:Ha;
    cbn [__json_content set_query_index].
  - split; [unfold __only; by eexists|]. intros Hnot.
    unfold __only. simpl.
    destruct (Hn2 Hnot) as [Hnil|Hnot2]; [by rewrite Hnil|].
    destruct (__json_content s2); try done. by destruct (Hnot2 l).
  - destruct Hpending as [Hd|Hattr]; [by apply Hd2|].
    by destruct (__attributes self).
Qed.

End NthFacts.

Section NthExamples.
#[local] Existing Instance helper_model.
#[local] Existing Instance builtins_model.

Lemma Nth_within_bounds_witness :
  returned (Nth 1 (__init__ (ints [1; 2; 3]%Z) ".")) = Ok (VInt 2) /\
  returned (Nth (-3) (__init__ (ints [1; 2; 3]%Z) ".")) = Ok (VInt 1) /\
  Nth 3 (__init__ (ints [1; 2; 3]%Z) ".") = Raise IndexError /\
  Nth (-4) (__init__ (ints [1; 2; 3]%Z) ".") = Raise IndexError.
Proof.
  pose proof (Nth_within_bounds (__init__ (ints [1; 2; 3]%Z) ".") 1
                (map VInt [1; 2; 3]%Z) eq_refl) as (Hin & _ & _).
  pose proof (Nth_within_bounds (__init__ (ints [1; 2; 3]%Z) ".") (-3)
                (map VInt [1; 2; 3]%Z) eq_refl) as (_ & Hneg & _).
  pose proof (Nth_within_bounds (__init__ (ints [1; 2; 3]%Z) ".") 3
                (map VInt [1; 2; 3]%Z) eq_refl) as (_ & _ & Hhi).
  pose proof (Nth_within_bounds (__init__ (ints [1; 2; 3]%Z) ".") (-4)
                (map VInt [1; 2; 3]%Z) eq_refl) as (_ & _ & Hlo).
  split; [|split; [|split]].
  - destruct Hin as (v & Hv & ->); [simpl; lia|].
    simpl in Hv. by injection Hv as <-.
  - destruct Hneg as (v & Hv & ->); [simpl; lia|].
    simpl in Hv. by injection Hv as <-.
  - apply Hhi. simpl. lia.
  - apply Hlo. simpl. lia.
Defined.

Lemma prepare_yields_sequence_witness :
  (Get (Select ["a"] (__init__ (VDict [("a", VInt 1)]) "."))).1 = VList [].
Proof.
  apply (prepare_yields_sequence
           (Select ["a"] (__init__ (VDict [("a", VInt 1)]) "."))).
  - right. discriminate.
  - intros l Hl. discriminate Hl.
Defined.

End NthExamples.

(** ** Aggregation over scalars, and the extremes *)

Section ScalarAggregation.
Context `{Helper} `{Builtins}.

Lemma getFloatValFromArray_loop_scalars (l : list Value) (floats : list float) :
  Forall (fun a => is_dict a = false) l ->
  getFloatValFromArray_loop l [] floats =
  (fs ← mapM py_float (List.filter is_float_or_int l); Ok (floats ++ fs)).
Proof.
  intros Hnd. revert floats.
  induction Hnd as [|a l Ha Hnd IH]; intros floats; simpl.
  - by rewrite app_nil_r.
  - destruct (is_float_or_int a) eqn:Hnum; simpl.
    + destruct (py_float a) as [f|e]; simpl; [|done].
      rewrite IH. destruct (mapM py_float _) as [fs|e]; simpl; [|done].
      by rewrite <- app_assoc.
    + destruct a; try done; apply IH.
Qed.

(** X15.  Over a sequence that holds no mapping: without a property name the
    values are the numbers of the sequence, converted in order, and every
    other element (string, [None], nested sequence) is passed over; with a
    property name the value set is empty. *)
Theorem scalar_values_need_no_property (l : list Value)
  (properties : list string) :
  Forall (fun a => is_dict a = false) l ->
  __getFloatValFromArray l [] =
    mapM py_float (List.filter is_float_or_int l) /\
  (properties <> [] -> __getFloatValFromArray l properties = Ok []).
Proof.
  intros Hnd. split.
  - unfold __getFloatValFromArray.
    rewrite getFloatValFromArray_loop_scalars by done.
    by destruct (mapM py_float _).
  - intros Hp. unfold __getFloatValFromArray.
    destruct properties as [|p ps]; [done|].
    assert (Hloop : forall floats,
      getFloatValFromArray_loop l (p :: ps) floats = Ok [] \/
      getFloatValFromArray_loop l (p :: ps) floats = Ok floats).
    { induction Hnd as [|a l Ha Hnd IH]; intros floats; simpl;
        [by right|].
      destruct (is_float_or_int a); [by left|].
      destruct a; try done; apply IH. }
    by destruct (Hloop []).
Qed.

End ScalarAggregation.

Section ExtremesFacts.
Context `{Helper} `{Builtins}.

Lemma fold_pick_member (pick : float -> float -> bool) (fs : list float)
  (f : float) :
  In (fold_left (fun m x => if pick m x then x else m) fs f) (f :: fs).
Proof.
  revert f. induction fs as [|x fs IH]; intros f; simpl; [by left|].
  destruct (pick f x).
  - destruct (IH x) as [Heq|Hin]; [right; by left|right; by right].
  - destruct (IH f) as [Heq|Hin]; [by left|right; by right].
Qed.

(** X16.  [Min] and [Max] raise [ValueError] on an empty value set and
    otherwise return one of the collected values. *)
Theorem Min_Max_pick_collected_value (properties : list string)
  (self self' : JsonQuery) (fs : list float) :
  __getAggregationValues properties self = Ok (fs, self') ->
  (fs = [] ->
   Min properties self = Raise ValueError /\
   Max properties self = Raise ValueError) /\
  (fs <> [] ->
   exists lo hi,
     Min properties self = Ok (VFloat lo, self') /\
     Max properties self = Ok (VFloat hi, self') /\
     In lo fs /\ In hi fs).
Proof.
  intros Hv. unfold Min, Max. rewrite Hv. simpl. split.
  - by intros ->.
  - intros Hne. destruct fs as [|f fs]; [done|]. simpl.
    eexists _, _. repeat split.
    + apply (fold_pick_member (fun m x => PrimFloat.ltb x m)).
    + apply (fold_pick_member (fun m x => PrimFloat.ltb m x)).
Qed.

End ExtremesFacts.

Section ScalarAggregationExamples.
#[local] Existing Instance helper_model.
#[local] Existing Instance builtins_model.

Lemma scalar_values_need_no_property_witness :
  __getFloatValFromArray
    [VInt 1; VStr "x"; VFloat 2.5; VNone; VBool true; VList [VInt 9]] [] =
    Ok [1%float; 2.5%float; 1%float] /\
  __getFloatValFromArray
    [VInt 1; VStr "x"; VFloat 2.5; VNone; VBool true; VList [VInt 9]] ["p"] =
    Ok [].
Proof.
  pose proof (scalar_values_need_no_property
                [VInt 1; VStr "x"; VFloat 2.5; VNone; VBool true;
                 VList [VInt 9]] ["p"]) as [Hnone Hsome];
    [repeat constructor|].
  split.
  - rewrite Hnone. reflexivity.
  - apply Hsome. discriminate.
Defined.

Lemma Min_Max_pick_collected_value_witness :
  exists lo hi,
    Min [] (__init__ (VList [VInt 3; VFloat 0.5; VInt 2]) ".") =
      Ok (VFloat lo, aggregation_view
                       (__init__ (VList [VInt 3; VFloat 0.5; VInt 2]) ".")) /\
    Max [] (__init__ (VList [VInt 3; VFloat 0.5; VInt 2]) ".") =
      Ok (VFloat hi, aggregation_view
                       (__init__ (VList [VInt 3; VFloat 0.5; VInt 2]) ".")) /\
    In lo [3%float; 0.5%float; 2%float] /\
    In hi [3%float; 0.5%float; 2%float].
Proof.
  apply (Min_Max_pick_collected_value []
           (__init__ (VList [VInt 3; VFloat 0.5; VInt 2]) ".")
           (aggregation_view
              (__init__ (VList [VInt 3; VFloat 0.5; VInt 2]) "."))
           [3%float; 0.5%float; 2%float] eq_refl).
  discriminate.
Defined.

Lemma extremes_example :
  returned (Min [] (__init__ (VList [VInt 3; VFloat 0.5; VInt 2]) ".")) =
    Ok (VFloat 0.5) /\
  returned (Max [] (__init__ (VList [VInt 3; VFloat 0.5; VInt 2]) ".")) =
    Ok (VFloat 3) /\
  returned (Avg [] (__init__ (VList [VInt 3; VInt 2; VInt 1]) ".")) =
    Ok (VFloat 2).
Proof. repeat split. Qed.

End ScalarAggregationExamples.

(** ** The registry *)

Section MacroFacts.
Context `{Helper} `{Builtins}.

Lemma clauses_without_op (self : JsonQuery) (op : string) (f : QueryFunc)
  (m : list (string * Value)) (g : list Query) :
  Forall (fun q => operator q <> op) g ->
  forallb (registered (Macro op f self)) g = forallb (registered self) g /\
  group_true (Macro op f self) m g = group_true self m g.
Proof.
  unfold group_true.
  induction 1 as [|q g Hq _ [IH1 IH2]]; [done|]. simpl.
  rewrite IH1, IH2. unfold registered, clause_true, resolves, Macro. simpl.
  by rewrite !lookup_insert_ne by done.
Qed.

Lemma groups_without_op (self : JsonQuery) (op : string) (f : QueryFunc)
  (v : Value) :
  Forall (Forall (fun q => operator q <> op)) (__queries self) ->
  all_registered (Macro op f self) = all_registered self /\
  keeps (Macro op f self) v = keeps self v.
Proof.
  intros Hall.
  assert (Hgroups :
    forallb (forallb (registered (Macro op f self))) (__queries self) =
    forallb (forallb (registered self)) (__queries self) /\
    forall m, existsb (group_true (Macro op f self) m) (__queries self) =
              existsb (group_true self m) (__queries self)).
  { induction Hall as [|g gs Hg _ [IH1 IH2]]; [done|]. simpl.
    rewrite IH1. split.
    - by rewrite (proj1 (clauses_without_op self op f [] g Hg)).
    - intros m. by rewrite IH2, (proj2 (clauses_without_op self op f m g Hg)). }
  destruct Hgroups as [Hreg Htrue]. split; [done|].
  destruct v; try done. apply Htrue.
Qed.

(** X17.  [Macro] replaces whatever was registered under the name, and
    the filter shows it.  Registering twice filters like registering the
    last predicate only; a registration under a name that no pending
    clause uses leaves the filter as it was; and on a builder without
    groups, [Macro(op, f)] followed by [Where(k, op, val)] retains
    exactly the mappings on which [k] resolves to a value that [f]
    accepts with [val]. *)
Theorem Macro_last_registration_wins (self : JsonQuery) (op : string)
  (f g : QueryFunc) (l : list Value) :
  __findInList (Macro op g (Macro op f self)) l =
    __findInList (Macro op g self) l /\
  (Forall (Forall (fun q => operator q <> op)) (__queries self) ->
   __findInList (Macro op f self) l = __findInList self l) /\
  (forall k val,
      __queries self = [] -> __query_index self = 0%Z ->
      exists self',
        Where k op val (Macro op f self) = Ok self' /\
        __findInList self' l = List.filter (passes self k f val) l).
Proof.
  split; [|split].
  - unfold Macro. simpl. by rewrite insert_insert_eq.
  - intros Hall. rewrite !findInList_spec. apply filter_ext. intros v.
    by destruct (groups_without_op self op f v Hall) as [-> ->].
  - intros k val Hqs Hidx. eexists. split.
    + by apply Where_first.
    + rewrite findInList_spec. apply filter_ext. intros v.
      unfold all_registered, keeps, query_true, group_true, clause_true,
        registered, resolves, passes, Macro.
      simpl. rewrite !lookup_insert_eq. simpl.
      destruct v; try done.
      by rewrite andb_true_r, orb_false_r.
Qed.

End MacroFacts.

(** ** Sorting by an attribute that is missing *)

Section SortByFacts.
Context `{Helper} `{Builtins}.

Lemma sort_keys_first_offender (attr : string) (pre post : list Value)
  (a : Value) :
  Forall (fun x => holds_attr attr x = true) pre ->
  holds_attr attr a = false ->
  sort_keys (itemgetter attr) (pre ++ a :: post) =
  Raise (if is_dict a then KeyError else TypeError).
Proof.
  intros Hpre Ha. induction Hpre as [|x pre Hx Hpre IH]; simpl.
  - destruct a as [| | | | | |d]; try done. simpl in *.
    by destruct (dict_get d attr).
  - destruct x as [| | | | | |d]; try done. simpl in *.
    destruct (dict_get d attr); [|done]. simpl. by rewrite IH.
Qed.

(** X18.  [SortBy] computes the key of every element before it compares any:
    the first element that is not a mapping holding the attribute makes
    it raise, [KeyError] for a mapping without the attribute and
    [TypeError] for an element that is not a mapping. *)
Theorem SortBy_first_offender_raises (self : JsonQuery) (attr : string)
  (reverse : bool) (pre post : list Value) (a : Value) :
  __json_content self = VList (pre ++ a :: post) ->
  Forall (fun x => holds_attr attr x = true) pre ->
  holds_attr attr a = false ->
  SortBy attr reverse self =
  Raise (if is_dict a then KeyError else TypeError).
Proof.
  intros Hview Hpre Ha. unfold SortBy, py_sorted. rewrite Hview.
  by rewrite (sort_keys_first_offender attr pre post a Hpre Ha).
Qed.

End SortByFacts.

(** ** Reset, and More followed by Reset *)

Section ResetFacts.
Context `{Helper} `{Builtins}.

(** X19.  After [Reset] the next [Get] returns the root; the registry
    and the separator are kept; a second [Reset] changes nothing; and
    after [More], [Reset] followed by [Get] returns the view that [More]
    committed. *)
Theorem Reset_returns_to_root (self : JsonQuery) :
  (Get (Reset self)).1 = __root_json_content self /\
  __query_map (Reset self) = __query_map self /\
  __separator (Reset self) = __separator self /\
  Reset (Reset self) = Reset self /\
  (Get (Reset (More self))).1 = (Get self).1.
Proof.
  by repeat split.
Qed.

End ResetFacts.

(** ** Pluck *)

Section PluckFacts.
Context `{Helper} `{Builtins}.

Lemma pluck_fold (attr : string) (l0 l : list Value) :
  forall result,
    (forall a, In a l -> In a l0) ->
    exists added,
      fold_left
        (fun result a =>
           match a with
           | VDict d =>
               match dict_get d attr with
               | Some x => if is_none x then result else result ++ [x]
               | None => result
               end
           | _ => result
           end) l result = result ++ added /\
      length added <= length l /\
      Forall (fun x => x <> VNone /\
                       exists d, In (VDict d) l0 /\ dict_get d attr = Some x)
        added.
Proof.
  induction l as [|a l IH]; intros result Hsub; simpl.
  - exists []. by rewrite app_nil_r.
  - assert (Hsub' : forall b, In b l -> In b l0)
      by (intros b Hb; apply Hsub; by right).
    assert (Hskip : exists added,
      fold_left
        (fun result a =>
           match a with
           | VDict d =>
               match dict_get d attr with
               | Some x => if is_none x then result else result ++ [x]
               | None => result
               end
           | _ => result
           end) l result = result ++ added /\
      length added <= S (length l) /\
      Forall (fun x => x <> VNone /\
                       exists d, In (VDict d) l0 /\ dict_get d attr = Some x)
        added).
    { destruct (IH result Hsub') as (added & Heq & Hle & Hall).
      exists added. repeat split; [done|lia|done]. }
    destruct a as [| | | | | |d]; try exact Hskip.
    destruct (dict_get d attr) as [x|] eqn:Hget; [|exact Hskip].
    destruct (is_none x) eqn:Hnone; [exact Hskip|].
    destruct (IH (result ++ [x]) Hsub') as (added & Heq & Hle & Hall).
    exists (x :: added). rewrite Heq, <- app_assoc.
    repeat split; [simpl; lia|]. constructor; [|done]. split.
    + intros ->. done.
    + exists d. split; [apply Hsub; by left|done].
Qed.

(** X20.  [Pluck] returns, in order, the values found directly under [attr] in
    the mappings of the view it collects from (the prepared view with
    distinct and limit applied once more): never [None], and at most one
    per element. *)
Theorem Pluck_values_are_present (attr : string) (self : JsonQuery)
  (l : list Value) :
  __json_content (aggregation_view self) = VList l ->
  length (Pluck attr self).1 <= length l /\
  Forall (fun x => x <> VNone /\
                   exists d, In (VDict d) l /\ dict_get d attr = Some x)
    (Pluck attr self).1.
Proof.
  intros Hview. rewrite Pluck_view. cbn [fst]. rewrite Hview.
  destruct (pluck_fold attr l l []) as (added & Heq & Hle & Hall); [done|].
  by rewrite Heq.
Qed.

End PluckFacts.

Section RegistryExamples.
#[local] Existing Instance helper_model.
#[local] Existing Instance builtins_model.

Lemma Macro_last_registration_wins_witness :
  __findInList (Macro "other" (fun _ _ => true) where_a1) rows =
    __findInList where_a1 rows /\
  exists self',
    Where "a" "any" (VInt 0)
      (Macro "any" (fun _ _ => true) (builder (VList rows))) = Ok self' /\
    __findInList self' rows =
      [VDict [("a", VInt 1)]; VDict [("a", VInt 2); ("b", VInt 3)]].
Proof.
  pose proof (Macro_last_registration_wins where_a1 "other"
                (fun _ _ => true) (fun _ _ => true) rows)
    as (_ & Hother & _).
  pose proof (Macro_last_registration_wins (builder (VList rows)) "any"
                (fun _ _ => true) (fun _ _ => true) rows)
    as (_ & _ & Hany).
  split.
  - apply Hother. repeat constructor; discriminate.
  - destruct (Hany "a" (VInt 0) eq_refl eq_refl) as (self' & HW & Hfilter).
    exists self'. split; [done|]. rewrite Hfilter. reflexivity.
Defined.

Lemma SortBy_first_offender_raises_witness :
  SortBy "a" false (builder (VList rows)) = Raise TypeError /\
  SortBy "b" false (builder (VList rows)) = Raise KeyError.
Proof.
  split.
  - apply (SortBy_first_offender_raises (builder (VList rows)) "a" false
             [VDict [("a", VInt 1)]]
             [VDict [("a", VInt 2); ("b", VInt 3)]; VDict [("c", VInt 0)]]
             (VInt 7)).
    + reflexivity.
    + repeat constructor.
    + reflexivity.
  - apply (SortBy_first_offender_raises (builder (VList rows)) "b" false []
             [VInt 7; VDict [("a", VInt 2); ("b", VInt 3)];
              VDict [("c", VInt 0)]]
             (VDict [("a", VInt 1)])).
    + reflexivity.
    + constructor.
    + reflexivity.
Defined.

Lemma Pluck_values_are_present_witness :
  length (Pluck "a" (Limit 3 (builder (VList rows)))).1 <= 3.
Proof.
  apply (Pluck_values_are_present "a" (Limit 3 (builder (VList rows)))
           (take 3 rows)).
  reflexivity.
Defined.

Lemma pluck_example :
  (Pluck "a" (builder (VList rows))).1 = [VInt 1; VInt 2] /\
  (Pluck "a" (Offset 1 (Limit 1 (builder (VList rows))))).1 = [VInt 1].
Proof. split; reflexivity. Qed.

End RegistryExamples.

(** ** The drop list comes last *)

Section DropFacts.
Context `{Helper} `{Builtins}.

Lemma Get_shaped (self : JsonQuery) :
  Get self =
  let s := if negb (length (__dropped_properties (shaped self)) =? 0)%nat
           then __drop (shaped self) else shaped self in
  (__json_content s, s).
Proof. reflexivity. Qed.

Lemma shaped_frame (self : JsonQuery) :
  shaped self =
  set_query_index 0 (set_json_content (__json_content (shaped self)) self).
Proof.
  unfold shaped.
  set (s0 := __prepare self).
  assert (E0 : s0 = set_query_index 0
                      (set_json_content (__json_content s0) self))
    by apply prepare_frame.
  set (s1 := if negb (__offset_records s0 =? 0)%Z then __offset s0 else s0).
  assert (E1 : s1 = set_query_index 0
                      (set_json_content (__json_content s1) self)).
  { subst s1. destruct (negb (__offset_records s0 =? 0)%Z); [|done].
    by apply offset_frame. }
  destruct (negb (__limit_records s1 =? 0)%Z); [|done].
  by apply limit_frame.
Qed.

Lemma offset_view (s : JsonQuery) :
  __json_content (__offset s) =
    offset_of (__offset_records s) (__limit_records s) (__json_content s) /\
  __limit_records (__offset s) = __limit_records s.
Proof.
  unfold __offset, offset_of.
  destruct (__json_content s) eqn:Hc; try done.
  destruct (__offset_records s <? 0)%Z; [done|].
  by destruct (Z.of_nat (length l) >=? __limit_records s)%Z.
Qed.

Lemma limit_view (s : JsonQuery) :
  __json_content (__limit s) = limit_of (__limit_records s) (__json_content s).
Proof.
  unfold __limit, limit_of.
  destruct (__json_content s) eqn:Hc; try done.
  destruct (__limit_records s <=? 0)%Z; [done|].
  by destruct (Z.of_nat (length l) >? __limit_records s)%Z.
Qed.

Lemma shaped_view (self : JsonQuery) :
  __json_content (shaped self) =
  let c := __json_content (__prepare self) in
  let c := if negb (__offset_records self =? 0)%Z
           then offset_of (__offset_records self) (__limit_records self) c
           else c in
  if negb (__limit_records self =? 0)%Z
  then limit_of (__limit_records self) c else c.
Proof.
  unfold shaped.
  destruct (prepare_fields self)
    as (_ & _ & _ & _ & _ & _ & _ & Ho & Hl & _).
  rewrite Ho. cbn zeta.
  destruct (negb (__offset_records self =? 0)%Z).
  - destruct (offset_view (__prepare self)) as [Hv Hl'].
    rewrite Hl', Hl.
    destruct (negb (__limit_records self =? 0)%Z).
    + by rewrite limit_view, Hl', Hl, Hv, Ho, Hl.
    + by rewrite Hv, Ho, Hl.
  - rewrite Hl. destruct (negb (__limit_records self =? 0)%Z); [|done].
    by rewrite limit_view, Hl.
Qed.

Lemma shaped_without_drops (self : JsonQuery) :
  __json_content (shaped (set_dropped_properties [] self)) =
  __json_content (shaped self).
Proof.
  rewrite !shaped_view.
  assert (Hc : __json_content (__prepare (set_dropped_properties [] self)) =
               __json_content (__prepare self)).
  { apply (prepare_inputs self (set_dropped_properties [] self)).
    by repeat split. }
  by rewrite Hc.
Qed.

(** X21.  The drop list has no part in filtering, distinct, projection, offset
    or limit: what [Get] returns is what it would return with an empty
    drop list, with every dropped path then deleted from it, in the order
    of the list. *)
Theorem Get_drops_last (self : JsonQuery) :
  (Get self).1 =
  fold_left (fun jc node => deleteNestedValue jc node (__separator self))
    (__dropped_properties self)
    (Get (set_dropped_properties [] self)).1.
Proof.
  rewrite !Get_shaped. cbn zeta.
  pose proof (shaped_frame self) as E.
  pose proof (shaped_frame (set_dropped_properties [] self)) as E'.
  assert (Hd : __dropped_properties (shaped self) =
               __dropped_properties self) by by rewrite E.
  assert (Hsep : __separator (shaped self) = __separator self)
    by by rewrite E.
  assert (Hd' : __dropped_properties (shaped (set_dropped_properties [] self))
                = []) by by rewrite E'.
  rewrite Hd, Hd'. cbn [length Nat.eqb negb fst].
  rewrite shaped_without_drops.
  destruct (__dropped_properties self) as [|node rest] eqn:Hdrops; [done|].
  cbn [length Nat.eqb negb fst]. unfold __drop.
  cbn [__json_content set_json_content].
  by rewrite Hd, Hsep.
Qed.

End DropFacts.
